(* ===== verification/_CoqProject ===== *)
-Q . S2P
Prelude.v
JsValue.v
Json.v
JsonParse.v
JsonFuel.v
JsonRoundtrip.v
Paths.v
FileSystem.v
Sort.v
Glob.v
Runtime.v
FrontMatter.v
GrayMatter.v
Engines.v
Generator.v
Refinement.v
Loop.v
LoopSteps.v
Aliasing.v
IndexOrder.v
Types.v
Findings.v
Safety.v
Properties.v
MetricsJson.v
