(* ===== verification/Prelude.v ===== *)
(** * Verification of the delegates index generator

    The repository's program is one script,
    [src/scripts/generate-delegates-index.ts], whose single async function
    [generateDelegateIndex] scans the directory above the script for
    markdown documents, reads each document's front matter with the
    [gray-matter] library, attaches an optional sibling [metrics.json],
    derives an [address] from a parent directory named [0x...], sorts the
    entries by path with [String.prototype.localeCompare] and writes the
    array with [JSON.stringify(_, null, 2)] to [index.json]. Any exception
    is caught at the top, logged, and ends the process with status 1.

    ** Parts and files

    The script (shallow embedding, state passed explicitly):
    - [Generator] translates the script line by line: the paths of lines
      29-31, [load_metrics] (lines 70 and 76-93), [process_file] (the loop body,
      lines 61-107), [body] (the [try] block), [generateDelegateIndex]
      (with the [catch]) and [run] (the process: final world and exit
      status). The libraries it calls are the classes below, so every
      theorem holds for any implementation of them.
    - [Runtime] is the world (file tree, heap of JavaScript objects,
      [gray-matter]'s cache, console) and the monad [M] over it, with the
      library calls of [fs], [console] and [process.exit] lifted into it.
    - [FileSystem] is the tree behind [fs] ([existsSync], [readFileSync],
      [readdirSync], [writeFileSync]) with Node's errors, whose names are
      POSIX file names; [Paths] is [path.join], [dirname], [basename] on
      segment lists, and the rendering of a relative path with [/], which
      is injective on such names.
    - [Glob] is [glob('**/*.md', {cwd, ignore})]: what a result is
      ([Glob.spec]), the class [GlobWalk] of walks meeting it, and one
      executable walk [Glob.enum].
    - [FrontMatter] is [gray-matter] with its module-level cache, which
      hands documents of one text (up to a leading byte-order mark) one
      shared [data] object. The cache is a plain [{}], and its lookup
      ([cache_get]) finds an own entry, a property inherited from
      [Object.prototype] (a text such as [toString] then gets [data]
      [undefined]), or nothing. Its parse is the class
      [FrontMatterEngine], and [GrayMatter.parse_matter] is the one
      [gray-matter] uses by default (delimiters, language line, blank
      blocks, engines, [excerpt]'s reset of a [null] result to [{}]),
      with the YAML engine abstract. [JSON.parse] at
      line 80 is the class [JsonParser]; [MetricsJson.json_reader] is
      the reader of [JsonParse] in its place.
    - [Sort] is [Array.prototype.sort] (a stable insertion sort, proved
      to be the one stable sorted permutation) and the class
      [LocaleCompare] with its laws [CmpLaws].
    - [JsValue] holds the values, objects and heap; [Json] is
      [JSON.stringify] with its two-space layout and [QuoteJSONString].
    - [Types] reads the interfaces of lines 7-26 as predicates on values.
    - [JsonParse] is [JSON.parse] as a reader of [index.json] runs it,
      [JsonFuel] proves that its fuel never runs out before the text
      does, and [JsonRoundtrip] proves it reads back what [Json] writes.
    - [LoopSteps] is the [for] loop of lines 59-108 as a labelled
      transition system, one document per step ([loop_step], and the
      executable [lstep] and [exec]), shown to end where
      [Prelude.for_push] ends.
    - [Engines] gives concrete libraries for the examples only.

    ** Theorems

    - [Refinement] states what one document contributes as a pure
      function of the tree; [Loop] carries the loop invariant under the
      cache; [Aliasing] gives the exact index for every input, with the
      shared metadata objects ([run_exact], [run_refines],
      [run_shares_metadata]); [Loop.run_fails] is the error path;
      [LoopSteps.loop_reads_every_document] is the liveness of the loop:
      it always reaches a final state, reading every document in the
      glob's order or stopping at the first one it cannot process.
    - [Properties]: the address, the metrics, a malformed metrics file,
      the two early exits, that [JSON.parse] of the written file gives
      the index back, that an empty document gets a metadata object of
      its own, that a document whose text names an [Object.prototype]
      property is written without metadata, or fails the run in a [0x]
      folder, and, under [gray-matter]'s own parse, the metadata
      of a document without front matter and the failure of a document
      that opens with a thematic break. [MetricsJson] adds, with the
      JSON reader at line 80, that every [metrics.json] that is a JSON
      text is attached as the value it denotes (the reader's fuel never
      runs out first), that a stringified one is attached as the value
      it encodes, and that one saved with a byte-order mark is rejected.
    - [Findings]: the order of tied paths follows the walk, a nested
      [meta/] directory is indexed, a hidden directory is never read, a
      directory named like [notes.md] fails the run, and otherwise the
      walk order does not matter.
    - [IndexOrder]: the paths of the written index are the listed
      documents' paths, each once, in [localeCompare] order.
    - [Safety]: every run ends in one of three outcomes, and a failed one
      leaves no partial index ([Safety.run_outcome]), proved through the
      closure of [Safety.keeps] (a preorder between the tree before and
      after) under the monad's combinators, so that the whole script
      writes at most [index.json]; when [index.json] is a directory
      every run fails and changes nothing.
    - [Types]: inputs of the declared types give an [IndexEntry[]].
    Each theorem with hypotheses has a witness in the examples module of
    its file, which applies it to a small repository whose hypotheses
    are evaluated by [vm_compute].

    ** Recursion, fuel and bounds

    Every definition of the script's model recurses structurally (over
    the list of documents, the segments of a path, the entries of the
    tree, the characters of a string), so a run of the script is a total
    function and [Safety.run_outcome] only has to say how it ends. The
    step-by-step loop [LoopSteps.exec] takes a number of steps as fuel;
    as many steps as documents are enough ([LoopSteps.exec_for_push]).
    [Sort.sort_characterised] shows the insertion sort is what any
    conforming [Array.prototype.sort] returns. The other definition with
    fuel is the reader [JsonParse.parse], which gives one more unit than
    the length of its input. That is always enough
    ([JsonFuel.parse_fuel_enough]): a call that returns has read at least
    one byte and returns the same with any fuel above the number of bytes
    it read, so [parse] refuses a text only when no fuel would read it,
    and [MetricsJson.run_attaches_json_metrics] carries this to the run.

    ** Not modelled

    The YAML and [javascript] engines of [gray-matter] (abstract
    functions), non-ASCII whitespace in its [trim], its options (the
    script passes none); the [data] of a value in the heap is one cell,
    so [undefined] data is a cell holding [undefined]; ICU's
    collation tables (an abstract comparator with its laws); the walk
    order of [glob] (any walk that lists each match once); symbolic
    links, permissions, encodings other than UTF-8 and partial writes;
    Windows paths; the ordering of integer-like keys of JavaScript
    objects; the decimal conversions of numbers (a number is its
    ToString text, so NaN and the infinities are out of scope; the reader
    takes the conversion as a parameter); [JSON.parse]'s error messages
    in the reader; and the event loop: the script's one [await] (on
    [glob]) is sequential composition, as nothing else runs meanwhile. *)

From stdpp Require Export base list strings gmap sorting.
From Stdlib Require String Ascii.

(** ** Scope, hint database and shared tactics *)

Declare Scope delegates_scope.
Delimit Scope delegates_scope with dg.
Open Scope list_scope.


Create HintDb delegates discriminated.
Create Rewrite HintDb delegates_rw.

(** ** The state-and-exception monad

    The script threads a mutable world (file system, JavaScript heap,
    the library caches, the console) and may throw at many points. A
    thrown exception does not roll the world back: what was printed or
    written before it stays. [stm S E A] is therefore a state monad whose
    result is either a value or a thrown [E], paired with the state
    reached in both cases. *)

Inductive outcome (E A : Type) : Type :=
| Ok (a : A)
| Throw (e : E).
Arguments Ok {E A} a.
Arguments Throw {E A} e.

Definition stm (S E A : Type) : Type := S -> outcome E A * S.

Section Monad.
Context {S E : Type}.

Definition stm_ret {A} (a : A) : stm S E A := fun s => (Ok a, s).

Definition stm_bind {A B} (k : A -> stm S E B) (m : stm S E A) : stm S E B :=
  fun s => match m s with
           | (Ok a, s') => k a s'
           | (Throw e, s') => (Throw e, s')
           end.

#[export] Instance stm_mret : MRet (stm S E) := @stm_ret.
#[export] Instance stm_mbind : MBind (stm S E) := @stm_bind.

Definition throw {A} (e : E) : stm S E A := fun s => (Throw e, s).

(** [try { m } catch (e) { h e }]: the handler runs in the state the
    exception was thrown in. *)
Definition catch {A} (m : stm S E A) (h : E -> stm S E A) : stm S E A :=
  fun s => match m s with
           | (Ok a, s') => (Ok a, s')
           | (Throw e, s') => h e s'
           end.

Definition gets {A} (f : S -> A) : stm S E A := fun s => (Ok (f s), s).
Definition modify (f : S -> S) : stm S E unit := fun s => (Ok tt, f s).

(** [for (const x of xs) { acc.push(await f x) }] *)
Fixpoint for_push {A B} (f : A -> stm S E B) (acc : list B) (xs : list A)
  : stm S E (list B) :=
  match xs with
  | [] => mret acc
  | x :: xs' => y ← f x; for_push f (acc ++ [y]) xs'
  end.

Lemma bind_unfold {A B} (m : stm S E A) (k : A -> stm S E B) s :
  (m ≫= k) s = match m s with
               | (Ok a, s') => k a s'
               | (Throw e, s') => (Throw e, s')
               end.
Proof. reflexivity. Qed.

Lemma bind_ok {A B} (m : stm S E A) (k : A -> stm S E B) s a s' :
  m s = (Ok a, s') -> (m ≫= k) s = k a s'.
Proof. intros H. by rewrite bind_unfold, H. Qed.

Lemma bind_throw {A B} (m : stm S E A) (k : A -> stm S E B) s e s' :
  m s = (Throw e, s') -> (m ≫= k) s = (Throw e, s').
Proof. intros H. by rewrite bind_unfold, H. Qed.

Lemma ret_unfold {A} (a : A) s : (mret a : stm S E A) s = (Ok a, s).
Proof. reflexivity. Qed.

(** The loop either pushes one result per element, in order, or stops
    at the first element whose body throws. *)
Lemma for_push_ok {A B} (f : A -> stm S E B) xs :
  forall acc s bs s',
    for_push f acc xs s = (Ok bs, s') ->
    exists ys, bs = acc ++ ys /\ length ys = length xs.
Proof.
  induction xs as [|x xs IH]; intros acc s bs s' H; simpl in H.
  - injection H as <- <-. exists []. by rewrite app_nil_r.
  - rewrite bind_unfold in H.
    destruct (f x s) as [[y|e] s1]; [|discriminate].
    destruct (IH _ _ _ _ H) as (ys & -> & Hl).
    exists (y :: ys). rewrite <- app_assoc. simpl. auto.
Qed.
End Monad.

#[export] Hint Rewrite @bind_unfold @ret_unfold : delegates_rw.

(** Unfold the monad's combinators, leaving the program's own calls. *)
Ltac unfold_stm :=
  cbv [mbind stm_mbind stm_bind mret stm_mret stm_ret gets modify throw catch].

(** ** Generic lemmas on lists and strings shared by the components *)

Lemma existsb_string_eqb_In (x : string) (l : list string) :
  existsb (String.eqb x) l = true <-> In x l.
Proof.
  rewrite existsb_exists. split.
  - intros (y & Hy & E). apply String.eqb_eq in E. by subst.
  - intros Hx. exists x. split; [done|]. apply String.eqb_refl.
Qed.

Lemma filter_In_iff {A} (f : A -> bool) (l : list A) x :
  In x (List.filter f l) <-> In x l /\ f x = true.
Proof. apply filter_In. Qed.

Lemma filter_none {A} (f : A -> bool) (l : list A) :
  (forall w, In w l -> f w = false) -> List.filter f l = [].
Proof.
  induction l as [|a l IH]; intros H; simpl; [done|].
  rewrite H by (by left). apply IH. intros w Hw. apply H. by right.
Qed.

Lemma forallb_elem {A} (p : A -> bool) (l : list A) :
  forallb p l = true -> forall x, x ∈ l -> p x = true.
Proof. rewrite forallb_forall. intros H x Hx. by apply H, list_elem_of_In. Qed.

(** A boolean check of every pair of elements. *)
Lemma forallb_pairs {A} (p : A -> A -> bool) (l : list A) :
  forallb (fun x => forallb (p x) l) l = true -> forall x y, x ∈ l -> y ∈ l -> p x y = true.
Proof. intros H x y Hx Hy. exact (forallb_elem _ _ (forallb_elem _ _ H x Hx) y Hy). Qed.

(** stdpp marks [String.append] [simpl never]; these are its equations. *)
Lemma sapp_nil_l (a : string) : EmptyString +:+ a = a.
Proof. done. Qed.

Lemma sapp_cons c (a b : string) : String c a +:+ b = String c (a +:+ b).
Proof. done. Qed.

Lemma sapp_assoc (a b c : string) : (a +:+ b) +:+ c = a +:+ b +:+ c.
Proof. induction a as [|x a IH]; [done|]. rewrite !sapp_cons. by f_equal. Qed.

Lemma sapp_nil_r (a : string) : a +:+ EmptyString = a.
Proof. induction a as [|x a IH]; [done|]. rewrite sapp_cons. by f_equal. Qed.

Lemma slength_app (a b : string) : String.length (a +:+ b) = String.length a + String.length b.
Proof. induction a as [|x a IH]; [done|]. rewrite sapp_cons. simpl. by f_equal. Qed.

(** [w] at the head of [s], and what follows it. *)
Fixpoint drop_prefix (w s : string) : option string :=
  match w, s with
  | EmptyString, _ => Some s
  | String a w', String b s' => if Ascii.eqb a b then drop_prefix w' s' else None
  | String _ _, EmptyString => None
  end.

Lemma drop_prefix_app w r : drop_prefix w (w +:+ r) = Some r.
Proof. induction w as [|c w IH]; [by destruct r|]. rewrite sapp_cons. simpl. by rewrite Ascii.eqb_refl. Qed.

(** [s.startsWith(w)] is [String.prefix w s]. *)
Lemma drop_prefix_None w s : String.prefix w s = false -> drop_prefix w s = None.
Proof.
  revert s. induction w as [|a w IH]; intros [|b s]; simpl; try done.
  destruct (Ascii.ascii_dec a b) as [->|Hne]; [rewrite Ascii.eqb_refl; apply IH|].
  intros _. by rewrite (proj2 (Ascii.eqb_neq a b) Hne).
Qed.

#[export] Hint Resolve String.eqb_refl : delegates.
#[export] Hint Rewrite sapp_nil_l sapp_cons sapp_assoc slength_app : delegates_rw.
