(* ===== verification/JsValue.v ===== *)
(** * JavaScript values, objects and the heap

    The values the script handles: the front matter parsed by
    [gray-matter] (lines 63-64 of the script, [DelegateMetadata] of lines
    7-12), the result of [JSON.parse] on a metrics file (line 80,
    [DelegateMetrics] of lines 14-20) and the [IndexEntry] objects pushed
    at lines 103-107 (interface of lines 22-26). An object is its list of
    own enumerable properties in [[OwnPropertyKeys]] order; the one
    mutation the script performs, [metadata.address = dirName] (line 100),
    is [js_set_prop]. Objects that the script shares by reference live in
    a [heap]. *)

From S2P Require Import Prelude.

#[local] Set Warnings "-register-all".
Inductive jsval : Type :=
| JUndefined
| JNull
| JBool (b : bool)
| JNumber (text : string)   (** a finite number, by its [ToString] text *)
| JString (s : string)
| JArray (xs : list jsval)
| JObject (props : list (string * jsval)).

(** The induction principle that sees through the nested lists. *)
Section jsval_rect.
Context (P : jsval -> Type).
Context (Pl : list jsval -> Type) (Pp : list (string * jsval) -> Type).
Context (hU : P JUndefined) (hN : P JNull) (hB : forall b, P (JBool b))
        (hNum : forall t, P (JNumber t)) (hS : forall s, P (JString s))
        (hA : forall xs, Pl xs -> P (JArray xs))
        (hO : forall ps, Pp ps -> P (JObject ps))
        (hlnil : Pl []) (hlcons : forall x xs, P x -> Pl xs -> Pl (x :: xs))
        (hpnil : Pp []) (hpcons : forall k x ps, P x -> Pp ps -> Pp ((k, x) :: ps)).

Fixpoint jsval_rect' (v : jsval) : P v :=
  match v with
  | JUndefined => hU
  | JNull => hN
  | JBool b => hB b
  | JNumber t => hNum t
  | JString s => hS s
  | JArray xs =>
      hA xs ((fix go (xs : list jsval) : Pl xs :=
                match xs with
                | [] => hlnil
                | x :: xs' => hlcons x xs' (jsval_rect' x) (go xs')
                end) xs)
  | JObject ps =>
      hO ps ((fix go (ps : list (string * jsval)) : Pp ps :=
                match ps with
                | [] => hpnil
                | (k, x) :: ps' => hpcons k x ps' (jsval_rect' x) (go ps')
                end) ps)
  end.
End jsval_rect.

Module JsObject.

Definition props := list (string * jsval).

Definition keys (ps : props) : list string := map fst ps.

(** [obj[k]] for an own property. *)
Fixpoint get (ps : props) (k : string) : option jsval :=
  match ps with
  | [] => None
  | (k', v) :: ps' => if String.eqb k k' then Some v else get ps' k
  end.

(** [obj[k] = v] on an ordinary extensible object whose key [k] is not
    an array index: an existing data property keeps its position and
    takes the new value; a new one is created after all others. *)
Fixpoint set (ps : props) (k : string) (v : jsval) : props :=
  match ps with
  | [] => [(k, v)]
  | (k', v') :: ps' =>
      if String.eqb k k' then (k', v) :: ps' else (k', v') :: set ps' k v
  end.

(** An object never has two own properties with one key. *)
Definition wf (ps : props) : Prop := NoDup (keys ps).

Lemma get_set_eq ps k v : get (set ps k v) k = Some v.
Proof.
  induction ps as [|[k' v'] ps IH]; simpl.
  - by rewrite String.eqb_refl.
  - destruct (String.eqb k k') eqn:E; simpl; rewrite ?E; [done|exact IH].
Qed.

Lemma get_set_ne ps k k' v : k <> k' -> get (set ps k v) k' = get ps k'.
Proof.
  intros Hne. induction ps as [|[k0 v0] ps IH]; simpl.
  - destruct (String.eqb_spec k' k); congruence.
  - destruct (String.eqb_spec k k0) as [->|]; simpl.
    + destruct (String.eqb_spec k' k0); congruence.
    + by rewrite IH.
Qed.

Lemma get_Some_In ps k v : get ps k = Some v -> In k (keys ps).
Proof.
  induction ps as [|[k' v'] ps IH]; simpl; [discriminate|].
  destruct (String.eqb_spec k k'); auto.
Qed.

Lemma keys_set_in ps k v : In k (keys ps) -> keys (set ps k v) = keys ps.
Proof.
  induction ps as [|[k' v'] ps IH]; simpl; [done|].
  destruct (String.eqb_spec k k') as [->|Hne]; simpl; [done|].
  intros [->|Hin]; [done|]. by rewrite IH.
Qed.

Lemma keys_set_notin ps k v : ~ In k (keys ps) -> keys (set ps k v) = keys ps ++ [k].
Proof.
  induction ps as [|[k' v'] ps IH]; simpl; [done|].
  intros Hn. destruct (String.eqb_spec k k') as [->|Hne]; [tauto|].
  simpl. rewrite IH; tauto.
Qed.

Lemma set_notin ps k v : ~ In k (keys ps) -> set ps k v = ps ++ [(k, v)].
Proof.
  induction ps as [|[k' v'] ps IH]; simpl; [done|]. intros Hn.
  destruct (String.eqb_spec k k') as [->|]; [tauto|]. rewrite IH; tauto.
Qed.

Lemma set_wf ps k v : wf ps -> wf (set ps k v).
Proof.
  unfold wf. intros Hnd.
  destruct (in_dec String.string_dec k (keys ps)) as [Hin|Hn].
  - by rewrite keys_set_in.
  - rewrite keys_set_notin by done.
    apply NoDup_app. repeat split; [done| |apply NoDup_singleton].
    intros x Hx ->%list_elem_of_singleton. apply Hn, list_elem_of_In, Hx.
Qed.

End JsObject.

#[export] Hint Resolve JsObject.set_wf : delegates.

(** [v.k = x] in strict-mode code (the script is an ES module, which
    TypeScript compiles with ["use strict"]): an object gets the
    property; an array gets a named property that [JSON.stringify] never
    shows; [null], [undefined] and primitives throw a [TypeError]
    ([None]). *)
Definition js_set_prop (v : jsval) (k : string) (x : jsval) : option jsval :=
  match v with
  | JObject ps => Some (JObject (JsObject.set ps k x))
  | JArray xs => Some (JArray xs)
  | _ => None
  end.

(** Whether a property can be set on the value without throwing. *)
Definition js_settable (v : jsval) : bool :=
  match v with JObject _ | JArray _ => true | _ => false end.

Lemma js_set_prop_Some v k x : is_Some (js_set_prop v k x) <-> js_settable v = true.
Proof. destruct v; simpl; split; intros H; try done; by eexists. Qed.

Lemma js_set_prop_kind v k x v' : js_set_prop v k x = Some v' -> js_settable v' = js_settable v.
Proof. destruct v; simpl; intros [= <-]; done. Qed.

(** ** The heap

    Objects that the script and its libraries share by reference: the
    [data] object of each [gray-matter] file, which [metadata] (line 64)
    aliases and line 100 mutates. Locations are allocated in order. *)

Abbreviation loc := nat.
Abbreviation heap := (gmap loc jsval).

Definition heap_fresh (h : heap) : loc := S (max_list (elements (dom h))).

Lemma heap_fresh_None (h : heap) : h !! heap_fresh h = None.
Proof.
  apply not_elem_of_dom. intros Hin%elem_of_elements.
  apply max_list_elem_of_le in Hin. exact (Nat.nle_succ_diag_l _ Hin).
Qed.
