(* ===== verification/Json.v ===== *)
(** * [JSON.stringify(value, null, 2)]

    The serialisation the script performs twice, at line 52
    ([JSON.stringify([], null, 2)]) and line 114 (the sorted index). It
    follows ECMAScript's SerializeJSONProperty, SerializeJSONObject,
    SerializeJSONArray and QuoteJSONString with the gap ["  "]: an
    [undefined] property is left out of an object, an [undefined] element
    of an array is written [null], an empty object or array is written
    [{}] or [[]], and otherwise each member goes on a line of its own,
    indented by two spaces per level. [None] is JavaScript's [undefined]
    result. Strings are the UTF-8 bytes of the text; QuoteJSONString
    escapes the code units below 0x20, the quote and the backslash, and
    leaves every other byte as it is. *)

From S2P Require Import Prelude JsValue.

Module Json.

Definition chr (n : nat) : string := String (Ascii.ascii_of_nat n) EmptyString.
Definition dquote : string := chr 34.
Definition backslash : string := chr 92.
Definition newline : string := chr 10.

(** A lower-case hexadecimal digit, as [\u001f] writes it. *)
Definition hex_digit (n : nat) : string := chr (if n <? 10 then 48 + n else 87 + n).

Definition escape_char (c : Ascii.ascii) : string :=
  let n := Ascii.nat_of_ascii c in
  if n =? 8 then backslash +:+ "b"
  else if n =? 9 then backslash +:+ "t"
  else if n =? 10 then backslash +:+ "n"
  else if n =? 12 then backslash +:+ "f"
  else if n =? 13 then backslash +:+ "r"
  else if n =? 34 then backslash +:+ dquote
  else if n =? 92 then backslash +:+ backslash
  else if n <? 32 then backslash +:+ "u00" +:+ hex_digit (n / 16) +:+ hex_digit (n mod 16)
  else String c EmptyString.

Fixpoint escape (s : string) : string :=
  match s with
  | EmptyString => EmptyString
  | String c s' => escape_char c +:+ escape s'
  end.

(** QuoteJSONString *)
Definition quote (s : string) : string := dquote +:+ escape s +:+ dquote.

Definition gap : string := "  ".

Fixpoint indent (n : nat) : string :=
  match n with
  | 0 => EmptyString
  | S n' => gap +:+ indent n'
  end.

(** The common tail of SerializeJSONObject and SerializeJSONArray: the
    members at depth [S d], the closing bracket at depth [d]. *)
Definition wrap (op cl : string) (d : nat) (parts : list string) : string :=
  match parts with
  | [] => op +:+ cl
  | _ => op +:+ newline +:+ indent (S d)
         +:+ String.concat ("," +:+ newline +:+ indent (S d)) parts
         +:+ newline +:+ indent d +:+ cl
  end.

Definition member (k s : string) : string := quote k +:+ ":" +:+ " " +:+ s.

(** SerializeJSONProperty at nesting depth [d]. *)
Fixpoint serialize (d : nat) (v : jsval) : option string :=
  match v with
  | JUndefined => None
  | JNull => Some "null"
  | JBool b => Some (if b then "true" else "false")
  | JNumber t => Some t
  | JString s => Some (quote s)
  | JArray xs =>
      Some (wrap "[" "]" d
        ((fix go (xs : list jsval) : list string :=
            match xs with
            | [] => []
            | x :: xs' => default "null" (serialize (S d) x) :: go xs'
            end) xs))
  | JObject ps =>
      Some (wrap "{" "}" d
        ((fix go (ps : list (string * jsval)) : list string :=
            match ps with
            | [] => []
            | (k, x) :: ps' =>
                match serialize (S d) x with
                | Some s => member k s :: go ps'
                | None => go ps'
                end
            end) ps))
  end.

(** [JSON.stringify(v, null, 2)] *)
Definition stringify (v : jsval) : option string := serialize 0 v.

(** The member lines of an object, as [serialize] computes them. *)
Fixpoint members (d : nat) (ps : list (string * jsval)) : list string :=
  match ps with
  | [] => []
  | (k, x) :: ps' =>
      match serialize (S d) x with
      | Some s => member k s :: members d ps'
      | None => members d ps'
      end
  end.

Lemma serialize_object d ps : serialize d (JObject ps) = Some (wrap "{" "}" d (members d ps)).
Proof. simpl. f_equal. f_equal. induction ps as [|[k x] ps IH]; simpl; [done|]. by rewrite IH. Qed.

Fixpoint elements (d : nat) (xs : list jsval) : list string :=
  match xs with
  | [] => []
  | x :: xs' => default "null" (serialize (S d) x) :: elements d xs'
  end.

Lemma serialize_array d xs : serialize d (JArray xs) = Some (wrap "[" "]" d (elements d xs)).
Proof. simpl. f_equal. f_equal. induction xs as [|x xs IH]; simpl; [done|]. by rewrite IH. Qed.

Lemma serialize_defined d v : v <> JUndefined -> is_Some (serialize d v).
Proof. destruct v; simpl; try done; eauto. Qed.

Lemma members_app d ps1 ps2 : members d (ps1 ++ ps2) = members d ps1 ++ members d ps2.
Proof.
  induction ps1 as [|[k x] ps1 IH]; simpl; [done|].
  destruct (serialize (S d) x); simpl; by rewrite IH.
Qed.

(** A member whose value serialises to [undefined] leaves no trace. *)
Lemma serialize_drop_undefined d ps k qs :
  serialize d (JObject (ps ++ (k, JUndefined) :: qs)) = serialize d (JObject (ps ++ qs)).
Proof. by rewrite !serialize_object, !members_app. Qed.

End Json.

#[export] Hint Rewrite Json.serialize_object Json.serialize_array : delegates_rw.
