(* ===== verification/JsonParse.v ===== *)
(** * Reading [index.json] back: [JSON.parse]

    The index is written for readers that call [JSON.parse] on it. This
    file models that reader on the byte strings of [Json]: the JSON grammar
    of ECMA-404 as ECMAScript's [JSON.parse] accepts it, by recursive
    descent with fuel (each call consumes fuel, the top level gives one
    more than the length of the text, which [JsonFuel] shows is
    always enough). Whitespace is space, tab, line feed and carriage return.
    A number token is checked against the number grammar and converted by
    [number_text], ToString(Number(token)), a parameter of the reader (the
    decimal-to-double conversion is not modelled). A string is the bytes
    between its quotes: a raw byte below 0x20 is refused; a backslash escapes the
    quote, itself, the slash, [b], [f], [n], [r], [t], or begins [uXXXX],
    which is written as the UTF-8 bytes of the code unit; a surrogate code unit has no UTF-8 form in
    this byte model and is refused, where [JSON.parse] accepts it. An
    object's members are added with CreateDataProperty, [JsObject.set]:
    a repeated key keeps its first position and takes its last value. *)

From S2P Require Import Prelude JsValue Json.

Module JsonParse.
Import Json.


Abbreviation ord := Ascii.nat_of_ascii.

(** ** Tokens *)

Definition is_ws (c : Ascii.ascii) : bool :=
  let n := ord c in (n =? 32) || (n =? 10) || (n =? 13) || (n =? 9).

Fixpoint skip_ws (s : string) : string :=
  match s with
  | String c s' => if is_ws c then skip_ws s' else s
  | EmptyString => EmptyString
  end.

Definition is_digit (c : Ascii.ascii) : bool := (48 <=? ord c) && (ord c <=? 57).

(** The bytes a number token is made of. *)
Definition num_char (c : Ascii.ascii) : bool :=
  is_digit c || (ord c =? 45) || (ord c =? 43) || (ord c =? 46)
  || (ord c =? 101) || (ord c =? 69).

(** The longest prefix of number bytes, and the rest. *)
Fixpoint span_num (s : string) : string * string :=
  match s with
  | String c s' =>
      if num_char c then let '(t, r) := span_num s' in (String c t, r)
      else (EmptyString, s)
  | EmptyString => (EmptyString, EmptyString)
  end.

Fixpoint drop_digits (s : string) : string :=
  match s with
  | String c s' => if is_digit c then drop_digits s' else s
  | EmptyString => EmptyString
  end.

(** [digit+] *)
Definition digits1 (s : string) : option string :=
  match s with
  | String c s' => if is_digit c then Some (drop_digits s') else None
  | EmptyString => None
  end.

(** [-?] *)
Definition lex_sign (s : string) : string :=
  match s with
  | String c s' => if ord c =? 45 then s' else s
  | EmptyString => s
  end.

(** [0 | [1-9] digit*] *)
Definition lex_int (s : string) : option string :=
  match s with
  | String c s' => if ord c =? 48 then Some s' else digits1 s
  | EmptyString => None
  end.

(** [(. digit+)?] *)
Definition lex_frac (s : string) : option string :=
  match s with
  | String c s' => if ord c =? 46 then digits1 s' else Some s
  | EmptyString => Some s
  end.

(** [([eE] [+-]? digit+)?] *)
Definition lex_exp (s : string) : option string :=
  match s with
  | String c s' =>
      if (ord c =? 101) || (ord c =? 69) then
        match s' with
        | String d s'' => if (ord d =? 43) || (ord d =? 45) then digits1 s'' else digits1 s'
        | EmptyString => None
        end
      else Some s
  | EmptyString => Some s
  end.

(** The JSON number grammar, [-? int frac? exp?], on a whole token. *)
Definition number_lexeme (t : string) : bool :=
  match (lex_int (lex_sign t) ≫= lex_frac) ≫= lex_exp with
  | Some EmptyString => true
  | _ => false
  end.

Definition hex_val (c : Ascii.ascii) : option nat :=
  let n := ord c in
  if (48 <=? n) && (n <=? 57) then Some (n - 48)
  else if (97 <=? n) && (n <=? 102) then Some (n - 87)
  else if (65 <=? n) && (n <=? 70) then Some (n - 55)
  else None.

Definition hex4 (a b c d : Ascii.ascii) : option nat :=
  x1 ← hex_val a; x2 ← hex_val b; x3 ← hex_val c; x4 ← hex_val d;
  Some (((x1 * 16 + x2) * 16 + x3) * 16 + x4).

(** The UTF-8 bytes of a UTF-16 code unit; [None] for a surrogate,
    0xD800 to 0xDFFF, the units whose quotient by 0x800 is 27. *)
Definition utf8_unit (u : nat) : option string :=
  if u <? 128 then Some (chr u)
  else if u <? 2048 then Some (chr (192 + u / 64) +:+ chr (128 + u mod 64))
  else if u / 2048 =? 27 then None
  else Some (chr (224 + u / 4096) +:+ chr (128 + (u / 64) mod 64) +:+ chr (128 + u mod 64)).

(** The one-letter escapes. *)
Definition unescape1 (e : Ascii.ascii) : option Ascii.ascii :=
  let n := ord e in
  if (n =? 34) || (n =? 92) || (n =? 47) then Some e
  else if n =? 98 then Some (Ascii.ascii_of_nat 8)
  else if n =? 102 then Some (Ascii.ascii_of_nat 12)
  else if n =? 110 then Some (Ascii.ascii_of_nat 10)
  else if n =? 114 then Some (Ascii.ascii_of_nat 13)
  else if n =? 116 then Some (Ascii.ascii_of_nat 9)
  else None.

(** The bytes of a string token after its opening quote, through its
    closing quote: the text they denote and what follows. *)
Fixpoint read_chars (s : string) : option (string * string) :=
  match s with
  | EmptyString => None
  | String c s' =>
      if ord c =? 34 then Some (EmptyString, s')
      else if ord c =? 92 then
        match s' with
        | String e s'' =>
            if ord e =? 117 then
              match s'' with
              | String a (String b (String c' (String d r))) =>
                  match hex4 a b c' d ≫= utf8_unit, read_chars r with
                  | Some t, Some (x, r') => Some (t +:+ x, r')
                  | _, _ => None
                  end
              | _ => None
              end
            else
              match unescape1 e, read_chars s'' with
              | Some e', Some (x, r') => Some (String e' x, r')
              | _, _ => None
              end
        | EmptyString => None
        end
      else if ord c <? 32 then None
      else
        match read_chars s' with
        | Some (x, r) => Some (String c x, r)
        | None => None
        end
  end.

(** ** Values *)

Section Reader.
Variable number_text : string -> string.

Fixpoint parse_value (n : nat) (s : string) : option (jsval * string) :=
  match n with
  | 0 => None
  | S n' =>
      match skip_ws s with
      | EmptyString => None
      | String c r as s' =>
          if (ord c =? 45) || is_digit c then
            let '(t, r') := span_num s' in
            if number_lexeme t then Some (JNumber (number_text t), r') else None
          else if ord c =? 34 then
            match read_chars r with Some (x, r') => Some (JString x, r') | None => None end
          else if ord c =? 91 then
            match skip_ws r with
            | String d r' => if ord d =? 93 then Some (JArray [], r') else parse_elems n' [] r
            | EmptyString => None
            end
          else if ord c =? 123 then
            match skip_ws r with
            | String d r' => if ord d =? 125 then Some (JObject [], r') else parse_members n' [] r
            | EmptyString => None
            end
          else if ord c =? 110 then option_map (pair JNull) (drop_prefix "null" s')
          else if ord c =? 116 then option_map (pair (JBool true)) (drop_prefix "true" s')
          else if ord c =? 102 then option_map (pair (JBool false)) (drop_prefix "false" s')
          else None
      end
  end
(** The elements of an array after [acc], through its closing bracket. *)
with parse_elems (n : nat) (acc : list jsval) (s : string) : option (jsval * string) :=
  match n with
  | 0 => None
  | S n' =>
      match parse_value n' s with
      | Some (v, r) =>
          match skip_ws r with
          | String d r' =>
              if ord d =? 44 then parse_elems n' (acc ++ [v]) r'
              else if ord d =? 93 then Some (JArray (acc ++ [v]), r')
              else None
          | EmptyString => None
          end
      | None => None
      end
  end
(** The members of an object after [acc], through its closing brace. *)
with parse_members (n : nat) (acc : JsObject.props) (s : string) : option (jsval * string) :=
  match n with
  | 0 => None
  | S n' =>
      match skip_ws s with
      | String q r =>
          if ord q =? 34 then
            match read_chars r with
            | Some (k, r1) =>
                match skip_ws r1 with
                | String col r2 =>
                    if ord col =? 58 then
                      match parse_value n' r2 with
                      | Some (v, r3) =>
                          let acc' := JsObject.set acc k v in
                          match skip_ws r3 with
                          | String d r4 =>
                              if ord d =? 44 then parse_members n' acc' r4
                              else if ord d =? 125 then Some (JObject acc', r4)
                              else None
                          | EmptyString => None
                          end
                      | None => None
                      end
                    else None
                | EmptyString => None
                end
            | None => None
            end
          else None
      | EmptyString => None
      end
  end.

(** [JSON.parse(s)]: one value and nothing but whitespace after it;
    [None] is the [SyntaxError]. *)
Definition parse (s : string) : option jsval :=
  match parse_value (S (String.length s)) s with
  | Some (v, r) => match skip_ws r with EmptyString => Some v | _ => None end
  | None => None
  end.

End Reader.

(** ** What a serialised value reads back as

    [JSON.stringify] leaves out [undefined] members and writes
    [undefined] elements as [null]; the value read back is [json_of v]. *)

Definition json_elem (json_of : jsval -> jsval) (x : jsval) : jsval :=
  match x with JUndefined => JNull | _ => json_of x end.

Fixpoint json_of (v : jsval) : jsval :=
  match v with
  | JArray xs =>
      JArray ((fix go (xs : list jsval) : list jsval :=
                 match xs with
                 | [] => []
                 | x :: xs' => json_elem json_of x :: go xs'
                 end) xs)
  | JObject ps =>
      JObject ((fix go (ps : list (string * jsval)) : list (string * jsval) :=
                  match ps with
                  | [] => []
                  | (k, JUndefined) :: ps' => go ps'
                  | (k, x) :: ps' => (k, json_of x) :: go ps'
                  end) ps)
  | _ => v
  end.

(** The values [JSON.parse] gives back unchanged: every number written by
    its ToString text, which is a number token; every object without a
    repeated key. *)
Fixpoint json_ok (number_text : string -> string) (v : jsval) : bool :=
  match v with
  | JNumber t => number_lexeme t && String.eqb (number_text t) t
  | JArray xs =>
      (fix go (xs : list jsval) : bool :=
         match xs with [] => true | x :: xs' => json_ok number_text x && go xs' end) xs
  | JObject ps =>
      bool_decide (NoDup (JsObject.keys ps))
      && (fix go (ps : list (string * jsval)) : bool :=
            match ps with [] => true | (_, x) :: ps' => json_ok number_text x && go ps' end) ps
  | _ => true
  end.

(** ** Token lemmas *)

(** Boolean comparisons on byte codes as arithmetic for [lia]. *)
Ltac nat_bool :=
  rewrite ?Bool.orb_true_iff, ?Bool.andb_true_iff, ?Nat.eqb_eq, ?Nat.leb_le, ?Nat.ltb_lt in *.

Ltac nat_bool_false := apply Bool.not_true_iff_false; intros ?; nat_bool; lia.

Fixpoint all_ws (w : string) : bool :=
  match w with String c w' => is_ws c && all_ws w' | EmptyString => true end.

Fixpoint all_num (p : string) : bool :=
  match p with String c p' => num_char c && all_num p' | EmptyString => true end.

(** The bytes a serialised value starts with. *)
Definition value_char (c : Ascii.ascii) : bool :=
  (ord c =? 45) || is_digit c || (ord c =? 34) || (ord c =? 91) || (ord c =? 123)
  || (ord c =? 110) || (ord c =? 116) || (ord c =? 102).

Definition starts_value (t : string) : bool :=
  match t with String c _ => value_char c | EmptyString => false end.

(** What may follow a token without extending a number. *)
Definition stop (r : string) : bool :=
  match r with String c _ => negb (num_char c) | EmptyString => true end.

Lemma all_ws_app a b : all_ws (a +:+ b) = all_ws a && all_ws b.
Proof. induction a as [|c a IH]; [done|]. rewrite sapp_cons. simpl. by rewrite IH, andb_assoc. Qed.

Lemma all_ws_indent n : all_ws (indent n) = true.
Proof. induction n as [|n IH]; [done|]. simpl. by rewrite all_ws_app, IH. Qed.

Lemma all_ws_layout n : all_ws (newline +:+ indent n) = true.
Proof. by rewrite all_ws_app, all_ws_indent. Qed.

Lemma skip_ws_ws w s : all_ws w = true -> skip_ws (w +:+ s) = skip_ws s.
Proof.
  induction w as [|c w IH]; [done|]. rewrite sapp_cons. simpl.
  intros [-> ?]%andb_true_iff. auto.
Qed.

Lemma value_char_facts c :
  value_char c = true -> is_ws c = false /\ num_char c = (ord c =? 45) || is_digit c
                         /\ ord c <> 93 /\ ord c <> 125.
Proof.
  unfold value_char, is_ws, num_char, is_digit. intros H. nat_bool.
  split_and!; [nat_bool_false| |lia|lia].
  destruct (Nat.leb_spec 48 (ord c)), (Nat.leb_spec (ord c) 57); simpl;
    repeat match goal with |- context [?a =? ?b] => destruct (Nat.eqb_spec a b) end; simpl; lia.
Qed.

Lemma skip_ws_start t z : starts_value t = true -> skip_ws (t +:+ z) = t +:+ z.
Proof.
  intros Ht. destruct t as [|c t]; [done|].
  apply value_char_facts in Ht as [Hc _]. rewrite sapp_cons. simpl. by rewrite Hc.
Qed.

Lemma skip_ws_value w t z :
  all_ws w = true -> starts_value t = true -> skip_ws (w +:+ t +:+ z) = t +:+ z.
Proof. intros Hw Ht. rewrite skip_ws_ws by done. by apply skip_ws_start. Qed.

Lemma stop_close g c r : all_ws g = true -> num_char c = false -> stop (g +:+ String c r) = true.
Proof.
  destruct g as [|c' g]; simpl; [by intros _ ->|]. intros [Hw _]%andb_true_iff _.
  unfold is_ws, num_char, is_digit in *. nat_bool. apply negb_true_iff. nat_bool_false.
Qed.

(** *** Number tokens *)

Lemma all_num_app a b : all_num (a +:+ b) = all_num a && all_num b.
Proof. induction a as [|c a IH]; [done|]. rewrite sapp_cons. simpl. by rewrite IH, andb_assoc. Qed.

Lemma span_num_app p r : all_num p = true -> stop r = true -> span_num (p +:+ r) = (p, r).
Proof.
  intros Hp Hr. induction p as [|c p IH].
  - destruct r as [|c r]; [done|]. simpl in *. by destruct (num_char c).
  - simpl in Hp. apply andb_true_iff in Hp as [Hc Hp].
    rewrite sapp_cons. simpl. by rewrite Hc, IH.
Qed.

(** [s] is a run of number bytes followed by [s']. *)
Definition num_pre (s s' : string) : Prop := exists p, s = p +:+ s' /\ all_num p = true.

Lemma num_pre_refl s : num_pre s s.
Proof. by exists EmptyString. Qed.

Lemma num_pre_trans s1 s2 s3 : num_pre s1 s2 -> num_pre s2 s3 -> num_pre s1 s3.
Proof.
  intros (p & -> & Hp) (q & -> & Hq). exists (p +:+ q).
  by rewrite sapp_assoc, all_num_app, Hp, Hq.
Qed.

Lemma num_pre_cons c s s' : num_char c = true -> num_pre s s' -> num_pre (String c s) s'.
Proof. intros Hc (p & -> & Hp). exists (String c p). simpl. by rewrite Hc, Hp. Qed.

Lemma digit_num c : is_digit c = true -> num_char c = true.
Proof. unfold num_char. by intros ->. Qed.

Lemma drop_digits_pre s : num_pre s (drop_digits s).
Proof.
  induction s as [|c s IH]; simpl; [apply num_pre_refl|].
  destruct (is_digit c) eqn:E; [apply num_pre_cons; [by apply digit_num|done]|apply num_pre_refl].
Qed.

Lemma digits1_pre s s' : digits1 s = Some s' -> num_pre s s'.
Proof.
  destruct s as [|c s]; simpl; [done|]. destruct (is_digit c) eqn:E; [|done].
  intros [= <-]. apply num_pre_cons; [by apply digit_num|apply drop_digits_pre].
Qed.

(** A number byte other than a digit, by its code. *)
Lemma num_char_code c :
  ord c = 45 \/ ord c = 43 \/ ord c = 46 \/ ord c = 101 \/ ord c = 69 \/ ord c = 48 ->
  num_char c = true.
Proof. unfold num_char, is_digit. intros H. nat_bool. lia. Qed.

Ltac num_code := apply num_char_code; nat_bool; lia.

Lemma lex_sign_pre s : num_pre s (lex_sign s).
Proof.
  destruct s as [|c s]; simpl; [apply num_pre_refl|].
  destruct (Nat.eqb_spec (ord c) 45); [apply num_pre_cons; [num_code|apply num_pre_refl]|apply num_pre_refl].
Qed.

Lemma lex_int_pre s s' : lex_int s = Some s' -> num_pre s s'.
Proof.
  destruct s as [|c s]; simpl; [done|].
  destruct (Nat.eqb_spec (ord c) 48); [intros [= <-]|apply (digits1_pre (String c s))].
  apply num_pre_cons; [num_code|apply num_pre_refl].
Qed.

Lemma lex_frac_pre s s' : lex_frac s = Some s' -> num_pre s s'.
Proof.
  destruct s as [|c s]; simpl; [intros [= <-]; apply num_pre_refl|].
  destruct (Nat.eqb_spec (ord c) 46); [|intros [= <-]; apply num_pre_refl].
  intros H. apply num_pre_cons; [num_code|by apply digits1_pre].
Qed.

Lemma lex_exp_pre s s' : lex_exp s = Some s' -> num_pre s s'.
Proof.
  destruct s as [|c s]; simpl; [intros [= <-]; apply num_pre_refl|].
  destruct ((ord c =? 101) || (ord c =? 69)) eqn:E; [|intros [= <-]; apply num_pre_refl].
  destruct s as [|d s]; [done|]. intros H. apply num_pre_cons; [num_code|].
  destruct ((ord d =? 43) || (ord d =? 45)) eqn:E'; [|by apply digits1_pre].
  apply num_pre_cons; [num_code|by apply digits1_pre].
Qed.

(** A number token is made of number bytes and starts with a sign or a digit. *)
Lemma number_lexeme_shape t :
  number_lexeme t = true ->
  all_num t = true /\ exists c t', t = String c t' /\ (ord c =? 45) || is_digit c = true.
Proof.
  unfold number_lexeme. intros H. split.
  - destruct (lex_int (lex_sign t)) as [s1|] eqn:E1; [|done]. simpl in H.
    destruct (lex_frac s1) as [s2|] eqn:E2; [|done]. simpl in H.
    destruct (lex_exp s2) as [[|]|] eqn:E3; try done.
    destruct (num_pre_trans _ _ _ (lex_sign_pre t)
               (num_pre_trans _ _ _ (lex_int_pre _ _ E1)
                 (num_pre_trans _ _ _ (lex_frac_pre _ _ E2) (lex_exp_pre _ _ E3)))) as (p & -> & Hp).
    by rewrite sapp_nil_r.
  - destruct t as [|c t]; [done|]. exists c, t. split; [done|]. simpl in H.
    destruct (Nat.eqb_spec (ord c) 45); [done|]. simpl. unfold lex_int in H.
    destruct (Nat.eqb_spec (ord c) 48); [unfold is_digit; nat_bool; lia|].
    simpl in H. by destruct (is_digit c).
Qed.

(** *** String tokens *)

(** The code units below 0x20 without a short escape come back from
    their [\u00XX] form. *)
Lemma read_chars_u00 m z :
  m < 32 ->
  read_chars (backslash +:+ "u00" +:+ hex_digit (m / 16) +:+ hex_digit (m mod 16) +:+ z)
  = match read_chars z with Some (x, r) => Some (String (Ascii.ascii_of_nat m) x, r) | None => None end.
Proof. intros Hm. do 32 (destruct m as [|m]; [reflexivity|]). lia. Qed.

(** QuoteJSONString's escape of one byte reads back as that byte. *)
Lemma read_chars_escape_char c z :
  read_chars (escape_char c +:+ z)
  = match read_chars z with Some (x, r) => Some (String c x, r) | None => None end.
Proof.
  assert (Hc : c = Ascii.ascii_of_nat (ord c)) by (symmetry; apply Ascii.ascii_nat_embedding).
  unfold escape_char.
  destruct (Nat.eqb_spec (ord c) 8) as [E|]; [rewrite Hc, E; reflexivity|].
  destruct (Nat.eqb_spec (ord c) 9) as [E|]; [rewrite Hc, E; reflexivity|].
  destruct (Nat.eqb_spec (ord c) 10) as [E|]; [rewrite Hc, E; reflexivity|].
  destruct (Nat.eqb_spec (ord c) 12) as [E|]; [rewrite Hc, E; reflexivity|].
  destruct (Nat.eqb_spec (ord c) 13) as [E|]; [rewrite Hc, E; reflexivity|].
  destruct (Nat.eqb_spec (ord c) 34) as [E|]; [rewrite Hc, E; reflexivity|].
  destruct (Nat.eqb_spec (ord c) 92) as [E|]; [rewrite Hc, E; reflexivity|].
  destruct (Nat.ltb_spec (ord c) 32) as [Hlt|Hge].
  - rewrite !sapp_assoc, read_chars_u00 by done. by rewrite <- Hc.
  - rewrite sapp_cons, sapp_nil_l. simpl.
    destruct (Nat.eqb_spec (ord c) 34); [lia|]. destruct (Nat.eqb_spec (ord c) 92); [lia|].
    destruct (Nat.ltb_spec (ord c) 32); [lia|]. done.
Qed.

(** A quoted string reads back as itself, whatever follows. *)
Lemma read_chars_escape x z : read_chars (escape x +:+ dquote +:+ z) = Some (x, z).
Proof.
  induction x as [|c x IH]; [reflexivity|]. cbn [escape].
  by rewrite sapp_assoc, read_chars_escape_char, IH.
Qed.

End JsonParse.
