(* ===== verification/JsonFuel.v ===== *)
(** * The reader's fuel is enough

    [JsonParse.parse] runs the recursive descent with one unit of fuel
    more than the length of its text. Fuel is an artefact of the model:
    [JSON.parse] has none. This file shows that the model never fails
    for want of it. A call that returns has read [len s - len r] bytes,
    at least one, and gives the same result with any fuel above that
    count ([fuel_bound], by induction on the fuel, for the three
    functions of the reader at once). Hence [parse] reads a text exactly
    when some fuel does. *)

From S2P Require Import Prelude JsValue Json JsonParse.

Module JsonFuel.
Import JsonParse.

Local Abbreviation len := String.length.

(** ** What the lexer consumes *)

Lemma skip_ws_le s : len (skip_ws s) <= len s.
Proof. induction s as [|c s IH]; simpl; [lia|]. destruct (is_ws c); simpl; lia. Qed.

Lemma span_num_len s t r : span_num s = (t, r) -> len t + len r = len s.
Proof.
  revert t r. induction s as [|c s IH]; intros t r; simpl; [by intros [= <- <-]|].
  destruct (num_char c); [|intros [= <- <-]; done].
  destruct (span_num s) as [t' r'] eqn:E. intros [= <- <-]. simpl. by rewrite (IH t' r' eq_refl).
Qed.

Lemma number_lexeme_nonempty t : number_lexeme t = true -> 1 <= len t.
Proof. destruct t; [done|simpl; lia]. Qed.

Lemma drop_prefix_len w s r : drop_prefix w s = Some r -> len w + len r = len s.
Proof.
  revert s. induction w as [|a w IH]; intros [|b s]; simpl; try (by intros [= <-]); try done.
  destruct (Ascii.eqb a b); [|done]. intros H. by rewrite (IH s H).
Qed.

Lemma read_chars_lt s x r : read_chars s = Some (x, r) -> len r < len s.
Proof.
  revert x r. induction s as [s IH] using (induction_ltof1 _ len); intros x r.
  unfold ltof in IH. destruct s as [|c s]; simpl; [done|].
  destruct (ord c =? 34); [intros [= _ <-]; lia|].
  destruct (ord c =? 92).
  - destruct s as [|e s]; [done|].
    destruct (ord e =? 117).
    + destruct s as [|a [|b [|c' [|d r0]]]]; try done.
      destruct (hex4 a b c' d ≫= utf8_unit), (read_chars r0) as [[x' r']|] eqn:E; try done.
      intros [= _ <-]. pose proof (IH r0 ltac:(simpl; lia) _ _ E). simpl. lia.
    + destruct (unescape1 e), (read_chars s) as [[x' r']|] eqn:E; try done.
      intros [= _ <-]. pose proof (IH s ltac:(simpl; lia) _ _ E). simpl. lia.
  - destruct (ord c <? 32); [done|].
    destruct (read_chars s) as [[x' r']|] eqn:E; [|done].
    intros [= _ <-]. pose proof (IH s ltac:(simpl; lia) _ _ E). lia.
Qed.

(** ** The reader *)

Section Fuel.
Variable number_text : string -> string.

(** A call that returned [r] from [s] read at least one byte, and any
    fuel above the count of bytes it read gives the same result. *)
Definition fuel_stable {X} (f : nat -> X -> string -> option (jsval * string)) (n : nat) : Prop :=
  forall x s v r, f n x s = Some (v, r) ->
    len r < len s /\ forall m, len s - len r < m -> f m x s = Some (v, r).

(** The values [parse_value] reads without a recursive call. *)
Definition scalar (c : Ascii.ascii) (r0 : string) : option (jsval * string) :=
  if (ord c =? 45) || is_digit c then
    let '(t, r') := span_num (String c r0) in
    if number_lexeme t then Some (JNumber (number_text t), r') else None
  else if ord c =? 34 then
    match read_chars r0 with Some (x, r') => Some (JString x, r') | None => None end
  else if ord c =? 110 then option_map (pair JNull) (drop_prefix "null" (String c r0))
  else if ord c =? 116 then option_map (pair (JBool true)) (drop_prefix "true" (String c r0))
  else if ord c =? 102 then option_map (pair (JBool false)) (drop_prefix "false" (String c r0))
  else None.

Lemma parse_value_S n s :
  parse_value number_text (S n) s =
    match skip_ws s with
    | EmptyString => None
    | String c r0 =>
        if ord c =? 91 then
          match skip_ws r0 with
          | String d r' => if ord d =? 93 then Some (JArray [], r')
                           else parse_elems number_text n [] r0
          | EmptyString => None
          end
        else if ord c =? 123 then
          match skip_ws r0 with
          | String d r' => if ord d =? 125 then Some (JObject [], r')
                           else parse_members number_text n [] r0
          | EmptyString => None
          end
        else scalar c r0
    end.
Proof.
  cbn [parse_value]. destruct (skip_ws s) as [|c r0]; [done|]. unfold scalar.
  destruct (ord c =? 91) eqn:E91; [apply Nat.eqb_eq in E91; unfold is_digit; by rewrite E91|].
  destruct (ord c =? 123) eqn:E123; [apply Nat.eqb_eq in E123; unfold is_digit; by rewrite E123|].
  destruct ((ord c =? 45) || is_digit c); [done|]. by destruct (ord c =? 34).
Qed.

Lemma scalar_lt c r0 v r : scalar c r0 = Some (v, r) -> len r < len (String c r0).
Proof.
  unfold scalar. destruct ((ord c =? 45) || is_digit c).
  { destruct (span_num (String c r0)) as [t r'] eqn:Hs.
    destruct (number_lexeme t) eqn:Hn; [|done]. intros [= _ <-].
    pose proof (span_num_len _ _ _ Hs). pose proof (number_lexeme_nonempty t Hn). lia. }
  destruct (ord c =? 34).
  { destruct (read_chars r0) as [[x r']|] eqn:E; [|done]. intros [= _ <-].
    pose proof (read_chars_lt _ _ _ E). simpl. lia. }
  repeat match goal with
  | |- context [if ?b then _ else _] => destruct b
  | |- context [drop_prefix ?w ?s] =>
      let E := fresh in destruct (drop_prefix w s) eqn:E; [|done];
      apply drop_prefix_len in E; simpl in *; intros [= _ <-]; lia
  end; done.
Qed.

Local Abbreviation pv := (fun n (_ : unit) s => parse_value number_text n s).

(** One more unit of fuel for [parse_value], given the bound for the
    array and object readers it calls. *)
Lemma fuel_value_S n :
  fuel_stable (parse_elems number_text) n -> fuel_stable (parse_members number_text) n ->
  fuel_stable pv (S n).
Proof.
  intros IHe IHm [] s v r. cbn beta. rewrite parse_value_S.
  pose proof (skip_ws_le s) as Hle. destruct (skip_ws s) as [|c r0] eqn:Hs; [done|].
  simpl in Hle. pose proof (skip_ws_le r0) as Hle0.
  destruct (ord c =? 91) eqn:E91; [|destruct (ord c =? 123) eqn:E123].
  - destruct (skip_ws r0) as [|d r'] eqn:Hs0; [done|]. simpl in Hle0.
    destruct (ord d =? 93) eqn:E93.
    + intros [= <- <-]. split; [lia|]. intros [|m] Hm; [lia|].
      by rewrite parse_value_S, Hs, E91, Hs0, E93.
    + intros H. destruct (IHe [] r0 v r H) as [Hlt Hm]. split; [lia|].
      intros [|m] Hm'; [lia|]. rewrite parse_value_S, Hs, E91, Hs0, E93. apply Hm. lia.
  - destruct (skip_ws r0) as [|d r'] eqn:Hs0; [done|]. simpl in Hle0.
    destruct (ord d =? 125) eqn:E125.
    + intros [= <- <-]. split; [lia|]. intros [|m] Hm; [lia|].
      by rewrite parse_value_S, Hs, E91, E123, Hs0, E125.
    + intros H. destruct (IHm [] r0 v r H) as [Hlt Hm]. split; [lia|].
      intros [|m] Hm'; [lia|]. rewrite parse_value_S, Hs, E91, E123, Hs0, E125. apply Hm. lia.
  - intros H. pose proof (scalar_lt _ _ _ _ H). split; [simpl in *; lia|].
    intros [|m] Hm; [lia|]. by rewrite parse_value_S, Hs, E91, E123.
Qed.

Lemma fuel_elems_S n :
  fuel_stable pv n -> fuel_stable (parse_elems number_text) n ->
  fuel_stable (parse_elems number_text) (S n).
Proof.
  intros IHv IHe acc s v r. cbn [parse_elems].
  destruct (parse_value number_text n s) as [[v1 r1]|] eqn:Hv; [|done].
  destruct (IHv tt s v1 r1 Hv) as [Hlt1 Hm1].
  pose proof (skip_ws_le r1) as Hle1. destruct (skip_ws r1) as [|d r'] eqn:Hs1; [done|].
  simpl in Hle1. destruct (ord d =? 44) eqn:E44; [|destruct (ord d =? 93) eqn:E93; [|done]].
  - intros H. destruct (IHe _ _ _ _ H) as [Hlt Hm]. split; [lia|].
    intros [|m] Hm'; [lia|]. cbn [parse_elems]. rewrite (Hm1 m) by lia.
    rewrite Hs1, E44. apply Hm. lia.
  - intros [= <- <-]. split; [lia|]. intros [|m] Hm'; [lia|]. cbn [parse_elems].
    rewrite (Hm1 m) by lia. by rewrite Hs1, E44, E93.
Qed.

Lemma fuel_members_S n :
  fuel_stable pv n -> fuel_stable (parse_members number_text) n ->
  fuel_stable (parse_members number_text) (S n).
Proof.
  intros IHv IHm acc s v r. cbn [parse_members].
  pose proof (skip_ws_le s) as Hle. destruct (skip_ws s) as [|q r0] eqn:Hs; [done|].
  simpl in Hle. destruct (ord q =? 34) eqn:E34; [|done].
  destruct (read_chars r0) as [[k r1]|] eqn:Hk; [|done].
  pose proof (read_chars_lt _ _ _ Hk) as Hlk.
  pose proof (skip_ws_le r1) as Hle1. destruct (skip_ws r1) as [|col r2] eqn:Hs1; [done|].
  simpl in Hle1. destruct (ord col =? 58) eqn:E58; [|done].
  destruct (parse_value number_text n r2) as [[v1 r3]|] eqn:Hv; [|done].
  destruct (IHv tt r2 v1 r3 Hv) as [Hlt3 Hm3].
  pose proof (skip_ws_le r3) as Hle3. destruct (skip_ws r3) as [|d r4] eqn:Hs3; [done|].
  simpl in Hle3. destruct (ord d =? 44) eqn:E44; [|destruct (ord d =? 125) eqn:E125; [|done]].
  - intros H. destruct (IHm _ _ _ _ H) as [Hlt Hm]. split; [lia|].
    intros [|m] Hm'; [lia|]. cbn [parse_members]. rewrite Hs, E34, Hk, Hs1, E58.
    rewrite (Hm3 m) by lia. rewrite Hs3, E44. apply Hm. lia.
  - intros [= <- <-]. split; [lia|]. intros [|m] Hm'; [lia|]. cbn [parse_members].
    rewrite Hs, E34, Hk, Hs1, E58. rewrite (Hm3 m) by lia. by rewrite Hs3, E44, E125.
Qed.

(** The three functions of the reader, by induction on the fuel. *)
Lemma fuel_bound n :
  fuel_stable pv n /\ fuel_stable (parse_elems number_text) n /\
  fuel_stable (parse_members number_text) n.
Proof.
  induction n as [|n (IHv & IHe & IHm)]; [split_and!; by intros ????|].
  split_and!; [by apply fuel_value_S|by apply fuel_elems_S|by apply fuel_members_S].
Qed.

(** The reader never fails for want of fuel: [parse] reads [v]
    from a text exactly when some fuel reads [v] from it with nothing
    but whitespace after it. So [parse] gives [None] only on a text that
    is not JSON, as [JSON.parse] throws only then. *)
Theorem parse_fuel_enough s v :
  parse number_text s = Some v <->
  exists n r, parse_value number_text n s = Some (v, r) /\ skip_ws r = EmptyString.
Proof.
  unfold parse. split.
  - destruct (parse_value number_text (S (len s)) s) as [[v' r]|] eqn:Hp; [|done].
    destruct (skip_ws r) eqn:Hr; [|done]. intros [= <-]. by exists (S (len s)), r.
  - intros (n & r & Hp & Hr). destruct (proj1 (fuel_bound n) tt s v r Hp) as [_ Hm].
    rewrite (Hm (S (len s))) by lia. by rewrite Hr.
Qed.

End Fuel.

End JsonFuel.

(** ** Examples *)
Module JsonFuelExamples.
Import JsonParse.

(** A text nested ten deep reads back with the fuel [parse] gives, and
    the fuel it needs is not the length of the text. *)
Example nested_reads :
  let t := "[[[[[[[[[[0]]]]]]]]]]" in
  parse (fun x => x) t = Some (JArray [JArray [JArray [JArray [JArray [JArray [JArray
    [JArray [JArray [JArray [JNumber "0"]]]]]]]]]]) /\
  parse_value (fun x => x) 20 t = None.
Proof. vm_compute. split; reflexivity. Qed.
End JsonFuelExamples.
