(* ===== verification/JsonRoundtrip.v ===== *)
(** * [JSON.parse] reads back what [JSON.stringify] writes

    For every value whose numbers are written by their ToString text and
    whose objects have no repeated key, [JsonParse.parse] of
    [Json.stringify v] is [JsonParse.json_of v]: the value itself with its
    [undefined] members left out and its [undefined] elements read as
    [null]. The proof goes through the predicate [parses t v] (the text
    [t] starts a value and, followed by anything that cannot extend a
    number, reads as [v] with any fuel above its length), established for
    every serialised value by induction on [jsval], with one lemma for the
    elements of an array and one for the members of an object. *)

From S2P Require Import Prelude JsValue Json JsonParse.

Module JsonRoundtrip.
Import Json JsonParse.
Import (notations) Stdlib.Strings.Ascii.

(** The members [serialize] writes, with the value each reads back as. *)
Fixpoint triples (d : nat) (ps : list (string * jsval)) : list (string * string * jsval) :=
  match ps with
  | [] => []
  | (k, x) :: ps' =>
      match serialize (S d) x with
      | Some t => (k, t, json_of x) :: triples d ps'
      | None => triples d ps'
      end
  end.

Definition member_text (kt : string * string * jsval) : string := member kt.1.1 kt.1.2.
Definition member_prop (kt : string * string * jsval) : string * jsval := (kt.1.1, kt.2).

Lemma members_triples d ps : members d ps = map member_text (triples d ps).
Proof. induction ps as [|[k x] ps IH]; simpl; [done|]. destruct (serialize (S d) x); simpl; by rewrite IH. Qed.

Lemma json_of_object d ps : json_of (JObject ps) = JObject (map member_prop (triples d ps)).
Proof.
  simpl. f_equal. induction ps as [|[k x] ps IH]; [done|]. rewrite IH. by destruct x.
Qed.

Lemma json_of_array xs : json_of (JArray xs) = JArray (map (json_elem json_of) xs).
Proof. reflexivity. Qed.

Lemma triples_keys d ps : map (fun kt => kt.1.1) (triples d ps) `sublist_of` JsObject.keys ps.
Proof.
  induction ps as [|[k x] ps IH]; simpl; [done|].
  destruct (serialize (S d) x); simpl; by constructor.
Qed.

Lemma concat_cons2 sep t t2 ts :
  String.concat sep (t :: t2 :: ts) = t +:+ sep +:+ String.concat sep (t2 :: ts).
Proof. done. Qed.

Section Roundtrip.
Variable number_text : string -> string.

Lemma json_ok_array xs : json_ok number_text (JArray xs) = forallb (json_ok number_text) xs.
Proof. simpl. induction xs as [|x xs IH]; simpl; by rewrite ?IH. Qed.

Lemma json_ok_object ps :
  json_ok number_text (JObject ps)
  = bool_decide (NoDup (JsObject.keys ps)) && forallb (fun kx => json_ok number_text kx.2) ps.
Proof. simpl. f_equal. induction ps as [|[k x] ps IH]; simpl; by rewrite ?IH. Qed.

(** [t] starts a value and reads as [v], whatever may follow it. *)
Definition parses (t : string) (v : jsval) : Prop :=
  starts_value t = true /\
  forall n r, stop r = true -> String.length t < n ->
    parse_value number_text n (t +:+ r) = Some (v, r).

Lemma parses_length t v : parses t v -> 1 <= String.length t.
Proof. intros [Ht _]. destruct t; simpl in *; [done|lia]. Qed.

Lemma parse_value_ws n w s :
  all_ws w = true -> parse_value number_text n (w +:+ s) = parse_value number_text n s.
Proof. intros Hw. destruct n; [done|]. cbn [parse_value]. by rewrite skip_ws_ws. Qed.

Lemma parses_null : parses "null" JNull.
Proof. split; [done|]. intros [|n] r _ Hn; [simpl in Hn; lia|reflexivity]. Qed.

Lemma parses_bool (b : bool) : parses (if b then "true" else "false") (JBool b).
Proof. split; [by destruct b|]. intros [|n] r _ Hn; [destruct b; simpl in Hn; lia|by destruct b]. Qed.

Lemma parses_number t :
  number_lexeme t = true -> number_text t = t -> parses t (JNumber t).
Proof.
  intros Hl Ht. destruct (number_lexeme_shape t Hl) as (Hnum & c & t' & -> & Hc). split.
  { simpl. unfold value_char. by rewrite Hc. }
  intros [|n] r Hr Hn; [simpl in Hn; lia|]. cbn [parse_value].
  rewrite skip_ws_start by (simpl; unfold value_char; by rewrite Hc).
  rewrite sapp_cons. cbn -[span_num]. rewrite Hc, <- sapp_cons, span_num_app by done.
  cbn. by rewrite Hl, Ht.
Qed.

Lemma parses_string x : parses (quote x) (JString x).
Proof.
  split; [done|]. intros [|n] r _ Hn; [simpl in Hn; lia|]. unfold quote. rewrite !sapp_assoc.
  transitivity (match read_chars (escape x +:+ dquote +:+ r) with
                | Some (y, r') => Some (JString y, r') | None => None end); [done|].
  by rewrite read_chars_escape.
Qed.

Lemma dquote_app z : dquote +:+ z = String "034"%char z.
Proof. reflexivity. Qed.

Lemma skip_ws_lit c z : is_ws c = false -> skip_ws (String c EmptyString +:+ z) = String c z.
Proof. simpl. by intros ->. Qed.

(** After an opening bracket or brace that is not closed at once, the
    elements or members follow. *)
Lemma parse_open n z c z' :
  skip_ws z = String c z' -> ord c <> 93 -> ord c <> 125 ->
  parse_value number_text (S n) ("[" +:+ z) = parse_elems number_text n [] z /\
  parse_value number_text (S n) ("{" +:+ z) = parse_members number_text n [] z.
Proof.
  intros Hz H93 H125. rewrite !sapp_cons, !sapp_nil_l. simpl. rewrite Hz.
  destruct (Nat.eqb_spec (ord c) 93), (Nat.eqb_spec (ord c) 125); done.
Qed.

(** The elements of a non-empty array, separated by a comma and layout
    [g], ended by layout [g'] and the closing bracket. *)
Lemma parse_elems_ok ts vs :
  Forall2 parses ts vs -> ts <> [] ->
  forall n acc w g g' r, all_ws w = true -> all_ws g = true -> all_ws g' = true ->
  String.length (w +:+ String.concat ("," +:+ g) ts +:+ g' +:+ "]") < n ->
  parse_elems number_text n acc (w +:+ String.concat ("," +:+ g) ts +:+ g' +:+ "]" +:+ r)
  = Some (JArray (acc ++ vs), r).
Proof.
  induction 1 as [|t v ts vs [Hs Hp] Hall IH]; [done|].
  intros _ [|n] acc w g g' r Hw Hg Hg' Hn; [lia|].
  pose proof (parses_length t v (conj Hs Hp)). cbn [parse_elems].
  rewrite parse_value_ws by done. destruct ts as [|t2 ts].
  - inversion Hall; subst. cbn [String.concat] in *. rewrite !slength_app in Hn. simpl in Hn.
    rewrite Hp; [|by apply (stop_close g' "]"%char r)|lia].
    rewrite skip_ws_ws by done. reflexivity.
  - rewrite concat_cons2, !sapp_assoc in *. rewrite !slength_app in Hn. simpl in Hn.
    rewrite Hp; [|done|lia].
    rewrite (skip_ws_lit ","%char) by done. cbn -[String.concat parse_elems].
    rewrite (IH ltac:(done) n (acc ++ [v]) g g g' r Hg Hg Hg'); [by rewrite <- app_assoc|].
    rewrite !slength_app. simpl in *. lia.
Qed.

Lemma member_length k t :
  String.length (member k t) = String.length (escape k) + 4 + String.length t.
Proof. unfold member, quote. rewrite !slength_app. simpl. lia. Qed.

(** One member: its quoted key, the colon, and a value that reads back. *)
Lemma parse_member_head n acc w k t v z :
  all_ws w = true -> parses t v -> stop z = true -> String.length t < n ->
  parse_members number_text (S n) acc (w +:+ member k t +:+ z) =
    match skip_ws z with
    | String d r4 =>
        if ord d =? 44 then parse_members number_text n (JsObject.set acc k v) r4
        else if ord d =? 125 then Some (JObject (JsObject.set acc k v), r4) else None
    | EmptyString => None
    end.
Proof.
  intros Hw [_ Hp] Hz Hn. cbn [parse_members]. rewrite skip_ws_value by done.
  unfold member, quote. rewrite !sapp_assoc, dquote_app. simpl.
  rewrite read_chars_escape, (skip_ws_lit ":"%char) by done. simpl.
  by rewrite (parse_value_ws n " "), Hp.
Qed.

(** The members of a non-empty object without repeated keys, separated by
    a comma and layout [g], ended by layout [g'] and the closing brace. *)
Lemma parse_members_ok l :
  Forall (fun kt => parses kt.1.2 kt.2) l -> l <> [] ->
  forall n acc w g g' r, all_ws w = true -> all_ws g = true -> all_ws g' = true ->
  NoDup (JsObject.keys acc ++ map (fun kt => kt.1.1) l) ->
  String.length (w +:+ String.concat ("," +:+ g) (map member_text l) +:+ g' +:+ "}") < n ->
  parse_members number_text n acc
    (w +:+ String.concat ("," +:+ g) (map member_text l) +:+ g' +:+ "}" +:+ r)
  = Some (JObject (acc ++ map member_prop l), r).
Proof.
  induction 1 as [|[[k t] v] l Hkt Hall IH]; [done|].
  intros _ [|n] acc w g g' r Hw Hg Hg' Hnd Hn; [lia|]. simpl in Hkt.
  pose proof (parses_length t v Hkt). cbn [map] in *.
  change (member_text (k, t, v)) with (member k t) in *.
  assert (Hk : ~ In k (JsObject.keys acc)).
  { intros Hin. apply NoDup_app in Hnd as (_ & Hd & _).
    apply (Hd k); [by apply list_elem_of_In|apply list_elem_of_here]. }
  destruct l as [|kt2 l].
  - cbn [String.concat map] in *. rewrite !slength_app, member_length in Hn. simpl in Hn.
    rewrite (parse_member_head n acc w k t v); [|done|done|by apply (stop_close g' "}"%char r)|lia].
    rewrite skip_ws_ws by done. simpl. by rewrite JsObject.set_notin.
  - cbn [map] in *. rewrite concat_cons2, !sapp_assoc in *. rewrite !slength_app, member_length in Hn. simpl in Hn.
    rewrite (parse_member_head n acc w k t v); [|done|done|done|lia].
    rewrite (skip_ws_lit ","%char) by done. cbn -[String.concat parse_members map].
    rewrite JsObject.set_notin by done.
    rewrite (IH ltac:(done) n (acc ++ [(k, v)]) g g g' r Hg Hg Hg'); [by rewrite <- app_assoc| |].
    + unfold JsObject.keys in *. by rewrite map_app, <- app_assoc.
    + rewrite !slength_app. simpl in *. lia.
Qed.

Lemma wrap_cons op cl d t ts :
  wrap op cl d (t :: ts) = op +:+ newline +:+ indent (S d)
    +:+ String.concat ("," +:+ newline +:+ indent (S d)) (t :: ts)
    +:+ newline +:+ indent d +:+ cl.
Proof. done. Qed.

Lemma concat_head sep t ts y :
  String.concat sep (t :: ts) +:+ y
  = t +:+ match ts with [] => y | _ => sep +:+ String.concat sep ts +:+ y end.
Proof. destruct ts; [done|]. by rewrite concat_cons2, !sapp_assoc. Qed.

(** An opening bracket or brace followed by a value is not closed at once. *)
Lemma parse_open_list n w sep t ts y :
  all_ws w = true -> starts_value t = true ->
  parse_value number_text (S n) ("[" +:+ w +:+ String.concat sep (t :: ts) +:+ y)
    = parse_elems number_text n [] (w +:+ String.concat sep (t :: ts) +:+ y) /\
  parse_value number_text (S n) ("{" +:+ w +:+ String.concat sep (t :: ts) +:+ y)
    = parse_members number_text n [] (w +:+ String.concat sep (t :: ts) +:+ y).
Proof.
  intros Hw Ht. destruct t as [|c t']; [done|]. pose proof (value_char_facts c Ht) as (_ & _ & ? & ?).
  eapply parse_open; [|done|done]. by rewrite concat_head, skip_ws_value, sapp_cons.
Qed.

(** [JSON.stringify]'s layout of an array reads back as the array. *)
Lemma parses_wrap_array d ts vs : Forall2 parses ts vs -> parses (wrap "[" "]" d ts) (JArray vs).
Proof.
  intros Hts. destruct Hts as [|t v ts vs Htv Hts].
  { split; [done|]. intros [|n] r _ Hn; [simpl in Hn; lia|reflexivity]. }
  split; [done|]. intros [|n] r _ Hn; [simpl in Hn; lia|].
  pose proof (proj1 (parse_open_list n (newline +:+ indent (S d)) ("," +:+ newline +:+ indent (S d))
                        t ts (newline +:+ indent d +:+ "]" +:+ r) (all_ws_layout _) (proj1 Htv))) as Ho.
  pose proof (parse_elems_ok (t :: ts) (v :: vs) ltac:(by constructor) ltac:(done) n []
                (newline +:+ indent (S d)) (newline +:+ indent (S d)) (newline +:+ indent d) r
                (all_ws_layout _) (all_ws_layout _) (all_ws_layout _)) as He.
  rewrite wrap_cons in *. rewrite !sapp_assoc in *. rewrite Ho, He; [done|].
  rewrite !slength_app in *. simpl in *. lia.
Qed.

(** [JSON.stringify]'s layout of an object without repeated keys reads
    back as the object. *)
Lemma parses_wrap_object d l :
  Forall (fun kt => parses kt.1.2 kt.2) l -> NoDup (map (fun kt => kt.1.1) l) ->
  parses (wrap "{" "}" d (map member_text l)) (JObject (map member_prop l)).
Proof.
  intros Hl Hnd. destruct l as [|[[k t] v] l].
  { split; [done|]. intros [|n] r _ Hn; [simpl in Hn; lia|reflexivity]. }
  split; [done|]. intros [|n] r _ Hn; [simpl in Hn; lia|]. cbn [map] in *.
  pose proof (proj2 (parse_open_list n (newline +:+ indent (S d)) ("," +:+ newline +:+ indent (S d))
                        (member_text (k, t, v)) (map member_text l)
                        (newline +:+ indent d +:+ "}" +:+ r) (all_ws_layout _) eq_refl)) as Ho.
  pose proof (parse_members_ok ((k, t, v) :: l) Hl ltac:(done) n []
                (newline +:+ indent (S d)) (newline +:+ indent (S d)) (newline +:+ indent d) r
                (all_ws_layout _) (all_ws_layout _) (all_ws_layout _) Hnd) as He.
  cbn [map] in He. rewrite wrap_cons in *. rewrite !sapp_assoc in *. rewrite Ho, He; [done|].
  rewrite !slength_app in *. simpl in *. lia.
Qed.

(** What [serialize] writes of [v] reads back as [json_of v]. *)
Definition ser_ok (v : jsval) : Prop :=
  forall d s, json_ok number_text v = true -> serialize d v = Some s -> parses s (json_of v).

Lemma elements_parses d xs :
  Forall ser_ok xs -> forallb (json_ok number_text) xs = true ->
  Forall2 parses (elements d xs) (map (json_elem json_of) xs).
Proof.
  induction 1 as [|x xs Hx Hxs IH]; simpl; [constructor|]. intros [Hok Hoks]%andb_true_iff.
  constructor; [|by apply IH].
  destruct x; [apply parses_null|..]; (apply (Hx (S d)); [done|reflexivity]).
Qed.

Lemma triples_parses d ps :
  Forall (fun kx => ser_ok kx.2) ps -> forallb (fun kx => json_ok number_text kx.2) ps = true ->
  Forall (fun kt => parses kt.1.2 kt.2) (triples d ps).
Proof.
  induction 1 as [|[k x] ps Hx Hps IH]; simpl; [constructor|]. intros [Hok Hoks]%andb_true_iff.
  destruct (serialize (S d) x) as [t|] eqn:E; [constructor|]; auto. exact (Hx (S d) t Hok E).
Qed.

Lemma serialize_parses v : ser_ok v.
Proof.
  revert v. refine (jsval_rect' ser_ok (Forall ser_ok) (Forall (fun kx => ser_ok kx.2))
                      _ _ _ _ _ _ _ _ _ _ _).
  - by intros d s _.
  - intros d s _ [= <-]. apply parses_null.
  - intros b d s _ [= <-]. apply parses_bool.
  - intros t d s Hok [= <-]. apply andb_true_iff in Hok as [Hl Ht%String.eqb_eq].
    by apply parses_number.
  - intros x d s _ [= <-]. apply parses_string.
  - intros xs IH d s Hok. rewrite serialize_array, json_of_array, json_ok_array in *.
    intros [= <-]. by apply parses_wrap_array, elements_parses.
  - intros ps IH d s Hok. rewrite serialize_object, (json_of_object d), json_ok_object in *.
    intros [= <-]. apply andb_true_iff in Hok as [Hnd%bool_decide_eq_true_1 Hok].
    rewrite members_triples. apply parses_wrap_object; [by apply triples_parses|].
    exact (sublist_NoDup _ _ Hnd (triples_keys d ps)).
  - constructor.
  - by constructor.
  - constructor.
  - by constructor.
Qed.

(** [JSON.parse] reads the text [JSON.stringify(v, null, 2)] writes back
    as [v] with its [undefined] members left out and its [undefined]
    elements as [null], for every [v] whose numbers are written by their
    ToString text and whose objects have no repeated key. *)
Theorem parse_stringify v s :
  json_ok number_text v = true -> stringify v = Some s -> parse number_text s = Some (json_of v).
Proof.
  intros Hok Hs. destruct (serialize_parses v 0 s Hok Hs) as [_ Hp].
  unfold parse. rewrite <- (sapp_nil_r s) at 2. rewrite Hp; [done|done|lia].
Qed.

End Roundtrip.
End JsonRoundtrip.

(** ** Examples *)
Module JsonRoundtripExamples.
Import JsonParse.

(** An index entry as the script writes it, with a member left
    [undefined]; the numbers are their own ToString text. *)
Definition sample_index : jsval :=
  JArray [JObject [("path", JString "0xA/profile.md");
                   ("metadata", JObject [("name", JString "A"); ("address", JString "0xA")]);
                   ("metrics", JObject [("votes", JNumber "12"); ("share", JNumber "0.5")]);
                   ("note", JUndefined)]].

Example sample_index_reads_back :
  exists s, Json.stringify sample_index = Some s
            /\ parse (fun t => t) s = Some (json_of sample_index).
Proof.
  eexists. split; [reflexivity|].
  apply (JsonRoundtrip.parse_stringify (fun t => t)); [vm_compute; reflexivity|reflexivity].
Qed.
End JsonRoundtripExamples.
