(* ===== verification/Paths.v ===== *)
(** * Node's [path.posix] on segment lists

    The script computes five paths: [delegateDirectory] and
    [indexFilePath] (lines 29-31, [path.join(__dirname, '..', ...)]), the
    absolute [filePath] of a document (line 61), its folder (line 66,
    [path.dirname]) and the folder's name (line 96,
    [path.basename(path.dirname(relativePath))]); [relativePath] is
    [path.join(file)] (line 73). A path is its list of segments: an
    absolute one lists the segments below [/], a relative one is rendered
    with [/] separators. [normalize] is Node's [normalizeString]: empty
    and [.] segments vanish and [..] removes the segment before it, or
    stays at the front of a relative path. *)

From S2P Require Import Prelude.

Module Path.

Abbreviation segs := (list string).

Fixpoint normalize_aux (above_root : bool) (acc : segs) (p : segs) : segs :=
  match p with
  | [] => rev acc
  | s :: p' =>
      if String.eqb s "" || String.eqb s "." then normalize_aux above_root acc p'
      else if String.eqb s ".." then
        match acc with
        | a :: acc' =>
            if String.eqb a ".." then normalize_aux above_root (".." :: acc) p'
            else normalize_aux above_root acc' p'
        | [] => normalize_aux above_root (if above_root then [".."] else []) p'
        end
      else normalize_aux above_root (s :: acc) p'
  end.

(** [path.join(base, ...rel)] for an absolute [base]. *)
Definition join_abs (base rel : segs) : segs := normalize_aux false [] (base ++ rel).

(** [path.join(rel)] for a relative path: the empty result is ["."]. *)
Definition join_rel (rel : segs) : segs :=
  match normalize_aux true [] rel with
  | [] => ["."]
  | r => r
  end.

(** [path.dirname] of an absolute path, and of a relative one. *)
Definition dirname_abs (p : segs) : segs := removelast p.
Definition dirname_rel (p : segs) : segs :=
  match removelast p with
  | [] => ["."]
  | d => d
  end.

(** [path.basename] *)
Definition basename (p : segs) : string := List.last p "".


Definition render_rel (p : segs) : string := String.concat "/" p.
Definition render_abs (p : segs) : string := "/" +:+ String.concat "/" p.

(** The character [a] occurs in [s]. *)
Fixpoint has_char (a : Ascii.ascii) (s : string) : bool :=
  match s with
  | EmptyString => false
  | String b s' => Ascii.eqb a b || has_char a s'
  end.

Definition slash : Ascii.ascii := Ascii.ascii_of_nat 47.

(** A segment as a directory walk produces it: a POSIX file name, which
    is not empty, not [.] or [..], and holds no [/]. *)
Definition clean_segment (s : string) : bool :=
  negb (String.eqb s "" || String.eqb s "." || String.eqb s ".." || has_char slash s).
Definition clean (p : segs) : bool := forallb clean_segment p.

Lemma normalize_aux_clean ar acc p :
  clean p = true -> normalize_aux ar acc p = rev acc ++ p.
Proof.
  revert acc. induction p as [|s p IH]; intros acc Hc; simpl in *.
  - by rewrite app_nil_r.
  - apply andb_prop in Hc as [Hs Hp]. unfold clean_segment in Hs.
    destruct (String.eqb s ""), (String.eqb s "."), (String.eqb s ".."); try discriminate.
    simpl. rewrite IH by done. simpl. by rewrite <- app_assoc.
Qed.

Lemma normalize_aux_app ar acc p q :
  clean p = true -> normalize_aux ar acc (p ++ q) = normalize_aux ar (rev p ++ acc) q.
Proof.
  revert acc. induction p as [|s p IH]; intros acc Hc; simpl in *; [done|].
  apply andb_prop in Hc as [Hs Hp]. unfold clean_segment in Hs.
  destruct (String.eqb s ""), (String.eqb s "."), (String.eqb s ".."); try discriminate.
  simpl. rewrite IH by done. by rewrite <- app_assoc.
Qed.

Lemma join_abs_clean base rel :
  clean base = true -> clean rel = true -> join_abs base rel = base ++ rel.
Proof.
  intros Hb Hr. unfold join_abs. rewrite normalize_aux_clean; [done|].
  unfold clean. rewrite forallb_app. by apply andb_true_intro.
Qed.

Lemma join_rel_clean rel : clean rel = true -> rel <> [] -> join_rel rel = rel.
Proof.
  intros Hc Hne. unfold join_rel. rewrite normalize_aux_clean by done.
  simpl. by destruct rel.
Qed.

(** [path.join(dir, '..', ...rest)] goes up from a clean [dir]. *)
Lemma join_abs_parent dir rest :
  clean dir = true -> clean rest = true ->
  join_abs dir (".." :: rest) = removelast dir ++ rest.
Proof.
  intros Hd Hr. unfold join_abs. rewrite normalize_aux_app by done.
  rewrite app_nil_r. simpl.
  destruct dir as [|d0 dir'] using rev_ind; simpl.
  - by rewrite normalize_aux_clean.
  - rewrite rev_app_distr. simpl.
    unfold clean in Hd. rewrite forallb_app in Hd. simpl in Hd.
    apply andb_prop in Hd as [_ Hd0]. rewrite andb_true_r in Hd0.
    unfold clean_segment in Hd0.
    destruct (String.eqb d0 ".."); [by rewrite orb_true_r in Hd0|].
    rewrite normalize_aux_clean by done. rewrite rev_involutive.
    by rewrite removelast_last.
Qed.

Lemma basename_snoc p x : basename (p ++ [x]) = x.
Proof. unfold basename. apply List.last_last. Qed.

Lemma dirname_abs_snoc p x : dirname_abs (p ++ [x]) = p.
Proof. apply removelast_last. Qed.

(** ** Rendering clean paths *)

Lemma has_char_app a s t : has_char a (s +:+ t) = has_char a s || has_char a t.
Proof. induction s as [|b s IH]; [done|]. simpl. by rewrite IH, orb_assoc. Qed.

Lemma clean_segment_facts x : clean_segment x = true -> x <> "" /\ has_char slash x = false.
Proof.
  unfold clean_segment. intros H. apply negb_true_iff, orb_false_iff in H as [H Hs].
  apply orb_false_iff in H as [H _]. apply orb_false_iff in H as [H _].
  split; [by apply String.eqb_neq|done].
Qed.

Lemma render_rel_cons x p :
  render_rel (x :: p) = match p with [] => x | _ => x +:+ String slash (render_rel p) end.
Proof. by destruct p. Qed.

(** A [/] splits two slash-free prefixes at the same place. *)
Lemma app_slash_inj a b r1 r2 :
  has_char slash a = false -> has_char slash b = false ->
  a +:+ String slash r1 = b +:+ String slash r2 -> a = b /\ r1 = r2.
Proof.
  revert b. induction a as [|c a IH]; intros [|d b] Ha Hb; cbn [has_char] in Ha, Hb;
    rewrite ?sapp_nil_l, ?sapp_cons.
  - by intros [= ->].
  - intros [= <- _]. by rewrite Ascii.eqb_refl in Hb.
  - intros [= -> _]. by rewrite Ascii.eqb_refl in Ha.
  - apply orb_false_iff in Ha as [_ Ha]. apply orb_false_iff in Hb as [_ Hb].
    intros [= -> Hab]. destruct (IH b Ha Hb Hab) as [-> ->]. done.
Qed.

Lemma render_rel_slash x p : p <> [] -> has_char slash (render_rel (x :: p)) = true.
Proof.
  intros Hp. rewrite render_rel_cons. destruct p; [done|].
  rewrite has_char_app. apply orb_true_iff. right. cbn [has_char]. by rewrite Ascii.eqb_refl.
Qed.

(** On clean paths, the rendering with [/] separators is injective. *)
Lemma render_rel_inj p q : clean p = true -> clean q = true -> render_rel p = render_rel q -> p = q.
Proof.
  revert q. induction p as [|x p IH]; intros [|y q] Hp Hq; try done.
  - simpl in Hq. apply andb_prop in Hq as [Hy _]. destruct (clean_segment_facts y Hy) as [Hy0 _].
    rewrite render_rel_cons. destruct q; [done|]. intros Hr. symmetry in Hr.
    apply (f_equal String.length) in Hr. rewrite slength_app in Hr. simpl in Hr. lia.
  - simpl in Hp. apply andb_prop in Hp as [Hx _]. destruct (clean_segment_facts x Hx) as [Hx0 _].
    rewrite render_rel_cons. destruct p; [done|]. intros Hr.
    apply (f_equal String.length) in Hr. rewrite slength_app in Hr. simpl in Hr. lia.
  - simpl in Hp, Hq. apply andb_prop in Hp as [Hx Hp]. apply andb_prop in Hq as [Hy Hq].
    destruct (clean_segment_facts x Hx) as [_ Hxs]. destruct (clean_segment_facts y Hy) as [_ Hys].
    destruct p as [|x' p], q as [|y' q].
    + unfold render_rel. cbn. by intros ->.
    + intros Hr. pose proof (render_rel_slash y (y' :: q) ltac:(done)) as Hs.
      rewrite <- Hr in Hs. unfold render_rel in Hs. cbn [String.concat] in Hs. congruence.
    + intros Hr. pose proof (render_rel_slash x (x' :: p) ltac:(done)) as Hs.
      rewrite Hr in Hs. unfold render_rel in Hs. cbn [String.concat] in Hs. congruence.
    + rewrite !(render_rel_cons _ (_ :: _)). intros Hr.
      destruct (app_slash_inj _ _ _ _ Hxs Hys Hr) as [-> Hr']. f_equal. by apply IH.
Qed.

End Path.

#[export] Hint Rewrite Path.basename_snoc Path.dirname_abs_snoc : delegates_rw.
