(* ===== verification/FileSystem.v ===== *)
(** * The file system as the script sees it through [fs]

    The script calls [fs.existsSync] (line 36), [fs.readFileSync] (lines
    62 and 78), [fs.readdirSync] (line 67) and [fs.writeFileSync] (lines
    52 and 114). The tree is a finite map from absolute paths (segment
    lists below [/]) to nodes; a well-formed tree has its root and the
    parent of every node as directories. A failing call throws Node's
    system error, here [ENOENT], [EISDIR] or [ENOTDIR] with the call and
    the path. Contents are the UTF-8 text the [utf8] decoding yields.
    Links and permissions are not modelled. *)

From S2P Require Import Prelude Paths.

Inductive node : Type :=
| File (contents : string)
| Dir.

Inductive errno : Type := ENOENT | EISDIR | ENOTDIR.

#[export] Instance node_eq_dec : EqDecision node.
Proof. solve_decision. Defined.

Module FS.
Import Path.

Abbreviation tree := (gmap segs node).

(** The root is a directory, so is the parent of every node, and every
    name is a POSIX file name: not empty, [.] or [..], and without [/]. *)
Definition wf (t : tree) : Prop :=
  t !! [] = Some Dir /\
  (forall p x n, t !! (p ++ [x]) = Some n -> t !! p = Some Dir) /\
  (forall p n, t !! p = Some n -> Path.clean p = true).

(** [wf] as a check that runs on a concrete tree. *)
Definition wfb (t : tree) : bool :=
  bool_decide (t !! [] = Some Dir) &&
  forallb (fun '(p, _) =>
             Path.clean p &&
             match p with [] => true | _ => bool_decide (t !! removelast p = Some Dir) end)
          (map_to_list t).

(** [fs.existsSync(p)] *)
Definition exists_sync (t : tree) (p : segs) : bool :=
  match t !! p with Some _ => true | None => false end.

(** [fs.readFileSync(p, 'utf8')] *)
Definition read_file_sync (t : tree) (p : segs) : errno + string :=
  match t !! p with
  | Some (File c) => inr c
  | Some Dir => inl EISDIR
  | None => inl ENOENT
  end.

(** The entry names of a directory: the last segment of each path one
    level below it. *)
Fixpoint strip_prefix (dir q : segs) : option segs :=
  match dir, q with
  | [], _ => Some q
  | d :: dir', s :: q' => if String.eqb d s then strip_prefix dir' q' else None
  | _ :: _, [] => None
  end.

Definition child_name (dir q : segs) : option string :=
  match strip_prefix dir q with
  | Some [x] => Some x
  | _ => None
  end.

Definition children (t : tree) (dir : segs) : list string :=
  omap (fun '(q, _) => child_name dir q) (map_to_list t).

(** [fs.readdirSync(p, 'utf-8')] *)
Definition readdir_sync (t : tree) (p : segs) : errno + list string :=
  match t !! p with
  | Some Dir => inr (children t p)
  | Some (File _) => inl ENOTDIR
  | None => inl ENOENT
  end.

(** [fs.writeFileSync(p, data)]: the parent must be a directory; a
    directory cannot be overwritten; a file is replaced whole. *)
Definition write_file_sync (t : tree) (p : segs) (data : string) : errno + tree :=
  match t !! removelast p, t !! p with
  | Some Dir, Some Dir => inl EISDIR
  | Some Dir, _ => inr (<[p := File data]> t)
  | Some (File _), _ => inl ENOTDIR
  | None, _ => inl ENOENT
  end.


Lemma strip_prefix_spec dir q r : strip_prefix dir q = Some r <-> q = dir ++ r.
Proof.
  revert q. induction dir as [|d dir IH]; intros q; simpl.
  - split; [by intros [= ->]|by intros ->].
  - destruct q as [|s q]; [split; [discriminate|intros [=]]|].
    destruct (String.eqb_spec d s) as [->|Hne].
    + rewrite IH. split; [by intros ->|by intros [= ->]].
    + split; [discriminate|intros [= -> _]; congruence].
Qed.

Lemma child_name_spec dir q x : child_name dir q = Some x <-> q = dir ++ [x].
Proof.
  unfold child_name. split.
  - destruct (strip_prefix dir q) as [[|y [|]]|] eqn:E; try discriminate.
    intros [= <-]. by apply strip_prefix_spec.
  - intros ->. assert (strip_prefix dir (dir ++ [x]) = Some [x]) as -> by
      by apply strip_prefix_spec.
    done.
Qed.

Lemma elem_of_children t dir x : x ∈ children t dir <-> is_Some (t !! (dir ++ [x])).
Proof.
  unfold children. rewrite list_elem_of_omap. split.
  - intros ([q n] & Hin & Hc). apply child_name_spec in Hc as ->.
    apply elem_of_map_to_list in Hin. eauto.
  - intros [n Hn]. exists (dir ++ [x], n). split.
    + by apply elem_of_map_to_list.
    + by apply child_name_spec.
Qed.

Lemma write_file_sync_ok t p data t' :
  write_file_sync t p data = inr t' ->
  t' = <[p := File data]> t /\ t !! removelast p = Some Dir /\ t !! p <> Some Dir.
Proof.
  unfold write_file_sync.
  destruct (t !! removelast p) as [[c|]|], (t !! p) as [[c'|]|]; by intros [= <-].
Qed.

(** Writing a file keeps the tree well formed. *)
Lemma write_file_sync_wf t p data t' :
  wf t -> p <> [] -> Path.clean p = true -> write_file_sync t p data = inr t' -> wf t'.
Proof.
  intros (Hroot & Hpar & Hcl) Hp Hpc Hw. apply write_file_sync_ok in Hw as (-> & Hd & Hnd).
  split; [|split].
  - rewrite lookup_insert_ne; [done|congruence].
  - intros q x n Hq. destruct (decide (q ++ [x] = p)) as [<-|Hne].
    + rewrite removelast_last in Hd. destruct (decide (q = q ++ [x])) as [E|].
      * exfalso. apply (f_equal length) in E. rewrite length_app in E. simpl in E. lia.
      * by rewrite lookup_insert_ne.
    + rewrite lookup_insert_ne in Hq by done. apply Hpar in Hq.
      destruct (decide (p = q)) as [->|]; [|by rewrite lookup_insert_ne].
      exfalso. exact (Hnd Hq).
  - intros q n Hq. destruct (decide (p = q)) as [->|]; [done|].
    rewrite lookup_insert_ne in Hq by done. by eapply Hcl.
Qed.

Lemma wfb_wf t : wfb t = true -> wf t.
Proof.
  unfold wfb. intros [Hroot Hall]%andb_prop. apply bool_decide_eq_true in Hroot.
  rewrite forallb_forall in Hall.
  assert (forall p n, t !! p = Some n -> Path.clean p = true /\
            match p with [] => true | _ => bool_decide (t !! removelast p = Some Dir) end = true)
    as Hpn.
  { intros p n Hp. apply andb_prop. apply (Hall (p, n)).
    apply list_elem_of_In, elem_of_map_to_list, Hp. }
  split; [done|split].
  - intros p x n Hp. apply Hpn in Hp as [_ Hp].
    destruct (p ++ [x]) eqn:E; [by destruct p|].
    rewrite <- E, removelast_last in Hp. by apply bool_decide_eq_true in Hp.
  - intros p n Hp. by apply Hpn in Hp as [? _].
Qed.

(** Every prefix of a node's path is a directory of the tree. *)
Lemma wf_prefix_dir t p q : wf t -> q <> [] -> is_Some (t !! (p ++ q)) -> t !! p = Some Dir.
Proof.
  intros (Hroot & Hpar & _). induction q as [|x q IH] using rev_ind; [done|]. intros _ [n Hn].
  rewrite app_assoc in Hn. apply Hpar in Hn.
  destruct q as [|y q]; [by rewrite app_nil_r in Hn|]. apply IH; [done|by eexists].
Qed.

Lemma read_file_sync_ok t p c : read_file_sync t p = inr c <-> t !! p = Some (File c).
Proof.
  unfold read_file_sync. destruct (t !! p) as [[c'|]|]; split; congruence.
Qed.

End FS.
