(* ===== verification/Sort.v ===== *)
(** * [Array.prototype.sort] with a comparator, and [localeCompare]

    Line 111 sorts the entries with
    [indexData.sort((a, b) => a.path.localeCompare(b.path))].
    ECMAScript requires the sort to be stable and leaves the algorithm
    to the engine. V8 sorts short arrays by binary insertion, comparing
    the element being inserted with the sorted prefix and placing it
    before the first element it is [Lt]; [Sort.sort] is that insertion
    sort. [Sort.sort_spec] is what the language promises: a sorted,
    stable permutation. [Sort.sort_correct] shows the insertion sort
    meets it, and [Sort.sort_spec_unique] that only one array meets it,
    so every conforming engine produces the same array.

    A comparator is consistent ([CmpLaws]) when it is antisymmetric in
    the sense of [CompOpp] and its [<=] is transitive; [localeCompare]
    under ICU collation is, but it is not injective: canonically
    equivalent strings compare [Eq]. *)

From S2P Require Import Prelude.

Class CmpLaws {A} (cmp : A -> A -> comparison) : Prop := {
  cmp_opp : forall a b, cmp a b = CompOpp (cmp b a);
  cmp_le_trans : forall a b c, cmp a b <> Gt -> cmp b c <> Gt -> cmp a c <> Gt
}.

(** [String.prototype.localeCompare] of the host's default locale. *)
Class LocaleCompare := locale_compare : string -> string -> comparison.

Module Sort.
Section Sort.
Context {A : Type} (cmp : A -> A -> comparison).

Definition le (a b : A) : Prop := cmp a b <> Gt.

Definition equivb (x y : A) : bool :=
  match cmp x y with Eq => true | _ => false end.

Fixpoint insert (x : A) (l : list A) : list A :=
  match l with
  | [] => [x]
  | y :: l' =>
      match cmp x y with
      | Lt => x :: y :: l'
      | _ => y :: insert x l'
      end
  end.

Definition sort (l : list A) : list A := fold_left (fun acc x => insert x acc) l [].

(** Equal elements keep their relative order. *)
Definition stable (l l' : list A) : Prop :=
  forall x, List.filter (equivb x) l' = List.filter (equivb x) l.

Definition sort_spec (l l' : list A) : Prop :=
  l' ≡ₚ l /\ Sorted le l' /\ stable l l'.

Lemma insert_perm x l : insert x l ≡ₚ x :: l.
Proof.
  induction l as [|y l IH]; simpl; [done|].
  destruct (cmp x y); [|done|]; rewrite IH; apply perm_swap.
Qed.

Lemma fold_insert_perm l acc : fold_left (fun acc x => insert x acc) l acc ≡ₚ l ++ acc.
Proof.
  revert acc. induction l as [|x l IH]; intros acc; simpl; [done|].
  rewrite IH, insert_perm. by rewrite <- Permutation_middle.
Qed.

Lemma sort_perm l : sort l ≡ₚ l.
Proof. unfold sort. by rewrite fold_insert_perm, app_nil_r. Qed.

Context `{!CmpLaws cmp}.

Lemma opp a b : cmp a b = CompOpp (cmp b a).
Proof. apply cmp_opp. Qed.

Lemma cmp_refl a : cmp a a = Eq.
Proof. pose proof (opp a a). by destruct (cmp a a). Qed.

Lemma le_not_lt a b : le a b <-> cmp b a <> Lt.
Proof. unfold le. rewrite (opp a b). by destruct (cmp b a). Qed.

Lemma le_trans a b c : le a b -> le b c -> le a c.
Proof. apply cmp_le_trans. Qed.

#[local] Instance le_Transitive : Transitive le.
Proof. intros ???. apply le_trans. Qed.

Lemma lt_le_trans a b c : cmp a b = Lt -> le b c -> cmp a c = Lt.
Proof.
  intros Hab Hbc. destruct (cmp a c) eqn:E; [| done |]; exfalso;
    (assert (le c a) as Hca by (apply le_not_lt; by rewrite E));
    exact (proj1 (le_not_lt b a) (le_trans _ _ _ Hbc Hca) Hab).
Qed.

Lemma equiv_lt_trans z x w : cmp z x = Eq -> cmp x w = Lt -> cmp z w = Lt.
Proof.
  intros Hzx Hxw. assert (le z x) as Hle by (unfold le; by rewrite Hzx).
  destruct (cmp z w) eqn:E; [| done |]; exfalso;
    (assert (le w z) as Hwz by (apply le_not_lt; by rewrite E));
    exact (proj1 (le_not_lt w x) (le_trans _ _ _ Hwz Hle) Hxw).
Qed.

Lemma insert_HdRel y x l : le y x -> HdRel le y l -> HdRel le y (insert x l).
Proof.
  intros Hyx Hl. destruct l as [|z l]; simpl; [by constructor|].
  inversion Hl; subst. destruct (cmp x z); by constructor.
Qed.

Lemma insert_sorted x l : Sorted le l -> Sorted le (insert x l).
Proof.
  induction l as [|y l IH]; intros Hs; simpl; [by repeat constructor|].
  inversion Hs as [|? ? Hs' Hhd]; subst.
  destruct (cmp x y) eqn:E.
  - constructor; [by apply IH|]. apply insert_HdRel; [|done]. unfold le. by rewrite (opp y x), E.
  - constructor; [done|]. constructor. unfold le. by rewrite E.
  - constructor; [by apply IH|]. apply insert_HdRel; [|done]. unfold le. by rewrite (opp y x), E.
Qed.

Lemma sorted_all_lt x y l :
  cmp x y = Lt -> Sorted le (y :: l) -> forall w, In w (y :: l) -> cmp x w = Lt.
Proof.
  intros E Hs%Sorted_StronglySorted w [<-|Hw]; [done| |apply _].
  apply StronglySorted_inv in Hs as [_ Hall]. rewrite List.Forall_forall in Hall.
  by apply (lt_le_trans x y w E), Hall.
Qed.

(** Inserting [x] puts it after every element equivalent to it. *)
Lemma insert_filter z x l :
  Sorted le l ->
  List.filter (equivb z) (insert x l) = List.filter (equivb z) l ++ List.filter (equivb z) [x].
Proof.
  induction l as [|y l IH]; intros Hs; [done|].
  inversion Hs as [|? ? Hs' Hhd]; subst.
  cbn [insert]. destruct (cmp x y) eqn:E.
  1,3: cbn [List.filter]; destruct (equivb z y); cbn [app]; by rewrite IH.
  change (List.filter (equivb z) (x :: y :: l)) with
    (if equivb z x then x :: List.filter (equivb z) (y :: l) else List.filter (equivb z) (y :: l)).
  change (List.filter (equivb z) [x]) with (if equivb z x then [x] else []).
  destruct (equivb z x) eqn:Ezx; [|by rewrite app_nil_r].
  rewrite (filter_none _ (y :: l)); [done|].
  intros w Hw. unfold equivb in Ezx |- *. destruct (cmp z x) eqn:Ezx'; try discriminate.
  by rewrite (equiv_lt_trans z x w Ezx' (sorted_all_lt x y l E Hs w Hw)).
Qed.

Lemma fold_insert_sorted l acc :
  Sorted le acc -> Sorted le (fold_left (fun acc x => insert x acc) l acc).
Proof.
  revert acc. induction l as [|x l IH]; intros acc Hs; simpl; [done|].
  by apply IH, insert_sorted.
Qed.

Lemma fold_insert_filter z l acc :
  Sorted le acc ->
  List.filter (equivb z) (fold_left (fun acc x => insert x acc) l acc)
  = List.filter (equivb z) acc ++ List.filter (equivb z) l.
Proof.
  revert acc. induction l as [|x l IH]; intros acc Hs; simpl; [by rewrite app_nil_r|].
  rewrite IH by (by apply insert_sorted). rewrite insert_filter by done.
  rewrite <- app_assoc. f_equal. simpl. by destruct (equivb z x).
Qed.

(** The insertion sort is a stable sort. *)
Theorem sort_correct l : sort_spec l (sort l).
Proof.
  split; [apply sort_perm|split].
  - apply fold_insert_sorted. constructor.
  - intros z. unfold sort. by rewrite fold_insert_filter by constructor.
Qed.

Lemma equivb_refl x : equivb x x = true.
Proof. unfold equivb. by rewrite cmp_refl. Qed.

Lemma in_filter_equivb x l : In x l -> List.filter (equivb x) l <> [].
Proof.
  intros Hin Hnil. assert (In x (List.filter (equivb x) l)) as Hx.
  { apply filter_In. split; [done|apply equivb_refl]. }
  by rewrite Hnil in Hx.
Qed.

Lemma sorted_head_le a b l : Sorted le (b :: l) -> In a (b :: l) -> le b a.
Proof.
  intros Hs%Sorted_StronglySorted [<-|Ha]; [unfold le; by rewrite cmp_refl| |apply _].
  apply StronglySorted_inv in Hs as [_ Hall]. rewrite List.Forall_forall in Hall. by apply Hall.
Qed.

(** Two sorted lists with the same equivalence classes, each in the
    same order, are equal. *)
Lemma sorted_stable_unique l1 l2 :
  Sorted le l1 -> Sorted le l2 ->
  (forall x, List.filter (equivb x) l1 = List.filter (equivb x) l2) -> l1 = l2.
Proof.
  revert l2. induction l1 as [|a l1 IH]; intros [|b l2] Hs1 Hs2 Hf; [done|..].
  - exfalso. apply (in_filter_equivb b (b :: l2)); [by left|]. by rewrite <- Hf.
  - exfalso. apply (in_filter_equivb a (a :: l1)); [by left|]. by rewrite Hf.
  - assert (In a (b :: l2)) as Ha.
    { apply (filter_In (equivb a)). rewrite <- Hf. simpl. rewrite equivb_refl. by left. }
    assert (In b (a :: l1)) as Hb.
    { apply (filter_In (equivb b)). rewrite Hf. simpl. rewrite equivb_refl. by left. }
    pose proof (sorted_head_le a b l2 Hs2 Ha) as Hba.
    pose proof (sorted_head_le b a l1 Hs1 Hb) as Hab.
    assert (equivb a b = true) as Eab.
    { unfold equivb. unfold le in Hab, Hba. rewrite (opp b a) in Hba.
      destruct (cmp a b); simpl in *; congruence. }
    pose proof (Hf a) as Ha'. simpl in Ha'. rewrite equivb_refl, Eab in Ha'.
    injection Ha' as <- _. f_equal.
    apply IH; [by inversion Hs1|by inversion Hs2|].
    intros x. pose proof (Hf x) as Hx. simpl in Hx.
    destruct (equivb x a); [by injection Hx|done].
Qed.

(** Only one array is a stable sorted permutation of a given one. *)
Theorem sort_spec_unique l l1 l2 : sort_spec l l1 -> sort_spec l l2 -> l1 = l2.
Proof.
  intros (_ & Hs1 & Hst1) (_ & Hs2 & Hst2). apply sorted_stable_unique; [done..|].
  intros x. by rewrite Hst1, Hst2.
Qed.

Lemma le_antisym_eq a b : le a b -> le b a -> cmp a b = Eq.
Proof. unfold le. rewrite (opp b a). by destruct (cmp a b). Qed.

(** When the comparator tells apart every two distinct elements, the
    result does not depend on the order of the input. *)
Lemma sort_perm_eq l1 l2 :
  (forall x y, x ∈ l1 -> y ∈ l1 -> cmp x y = Eq -> x = y) ->
  l1 ≡ₚ l2 -> sort l1 = sort l2.
Proof.
  intros Hinj Hp. apply (Sorted_unique_strong le).
  - intros x1 x2 H1 H2 H12 H21. apply Hinj; [| |by apply le_antisym_eq].
    + by rewrite <- (sort_perm l1).
    + by rewrite Hp, <- (sort_perm l2).
  - apply sort_correct.
  - apply sort_correct.
  - by rewrite !sort_perm.
Qed.

(** For a consistent comparator, an array is a stable sorted
    permutation of the input exactly when it is the insertion sort of
    the model: every conforming engine's [Array.prototype.sort] (V8's
    binary insertion sort and TimSort among them) returns [Sort.sort]. *)
Theorem sort_characterised l l' : sort_spec l l' <-> l' = sort l.
Proof.
  split.
  - intros Hs. exact (sort_spec_unique l l' (sort l) Hs (sort_correct l)).
  - intros ->. apply sort_correct.
Qed.

End Sort.
End Sort.

(** Sorting two related lists with comparators that agree on related
    elements keeps them related, position by position. *)
Section SortForall2.
Context {A B : Type} (cmpA : A -> A -> comparison) (cmpB : B -> B -> comparison).
Context (R : A -> B -> Prop).
Hypothesis Hcompat : forall a b a' b', R a b -> R a' b' -> cmpA a a' = cmpB b b'.

Lemma insert_Forall2 a b la lb :
  R a b -> Forall2 R la lb -> Forall2 R (Sort.insert cmpA a la) (Sort.insert cmpB b lb).
Proof.
  intros Hab Hl. induction Hl as [|a' b' la lb Hr Hl IH]; simpl; [by repeat constructor|].
  rewrite (Hcompat a b a' b') by done.
  destruct (cmpB b b'); by repeat constructor.
Qed.

Lemma fold_insert_Forall2 la lb acca accb :
  Forall2 R acca accb -> Forall2 R la lb ->
  Forall2 R (fold_left (fun acc x => Sort.insert cmpA x acc) la acca)
            (fold_left (fun acc x => Sort.insert cmpB x acc) lb accb).
Proof.
  intros Hacc Hl. revert acca accb Hacc.
  induction Hl as [|a b la lb Hr Hl IH]; intros acca accb Hacc; simpl; [done|].
  by apply IH, insert_Forall2.
Qed.

Lemma sort_Forall2 la lb : Forall2 R la lb -> Forall2 R (Sort.sort cmpA la) (Sort.sort cmpB lb).
Proof. intros Hl. by apply fold_insert_Forall2. Qed.
End SortForall2.

(** A comparator on a key, as [(a, b) => a.path.localeCompare(b.path)]. *)
Definition cmp_on {B A} (key : B -> A) (cmp : A -> A -> comparison) : B -> B -> comparison :=
  fun x y => cmp (key x) (key y).

#[export] Instance cmp_on_laws {B A} (key : B -> A) cmp :
  CmpLaws cmp -> CmpLaws (cmp_on key cmp).
Proof.
  intros Hl. split; unfold cmp_on.
  - intros a b. apply cmp_opp.
  - intros a b c. apply cmp_le_trans.
Qed.

(** A collation that compares the code units of a sort key of each
    string: [key] is the identity for plain code-unit order, and a
    canonical decomposition for a collator that, like ICU, compares
    canonically equivalent strings as equal. *)
Definition collate_by (key : string -> string) : LocaleCompare :=
  fun a b => String.compare (key a) (key b).

Lemma string_compare_le_trans (a b c : string) :
  String.compare a b <> Gt -> String.compare b c <> Gt -> String.compare a c <> Gt.
Proof.
  intros Hab Hbc.
  assert (String.le a b) as H1 by (unfold String.le, String.leb; by destruct (String.compare a b)).
  assert (String.le b c) as H2 by (unfold String.le, String.leb; by destruct (String.compare b c)).
  pose proof (transitivity H1 H2) as H3. unfold String.le, String.leb in H3.
  by destruct (String.compare a c).
Qed.

#[export] Instance collate_by_laws key : CmpLaws (collate_by key).
Proof.
  split; unfold collate_by.
  - intros a b. apply String.compare_antisym.
  - intros a b c. apply string_compare_le_trans.
Qed.

