(* ===== verification/Glob.v ===== *)
(** * [glob('**/*.md', { cwd, ignore })]

    Lines 45-48 list the documents with the [glob] package:
    pattern [**/*.md] under [cwd = delegateDirectory], ignoring
    [**/README.md], [meta/**] and [templates/**]. With the package's
    default [dot: false], neither the globstar nor [*] matches a name
    that starts with a dot, so hidden directories are not entered and
    hidden files are not listed. The package does not promise an order:
    [Glob.spec] says what a result is (each match once, nothing else),
    [GlobWalk] is the walk the run uses, and [Glob.enum] is one walk,
    executable, that meets the spec. Directories whose name ends in
    [.md] are listed too ([nodir] is not set). *)

From S2P Require Import Prelude Paths FileSystem.

Module Glob.
Import Path.

Definition starts_with_dot (s : string) : bool := String.prefix "." s.

Definition ends_with (suffix s : string) : bool :=
  let n := String.length s in
  let m := String.length suffix in
  (m <=? n) && String.eqb (String.substring (n - m) m s) suffix.

(** [**/*.md] under [dot: false] *)
Definition pattern_match (r : segs) : bool :=
  match r with
  | [] => false
  | _ => forallb (fun s => negb (starts_with_dot s)) r && ends_with ".md" (List.last r "")
  end.

(** [ignore: ['**/README.md', 'meta/**', 'templates/**']] *)
Definition ignored (r : segs) : bool :=
  String.eqb (List.last r "") "README.md"
  || match r with d :: _ => String.eqb d "meta" || String.eqb d "templates" | [] => false end.

Definition matches (t : FS.tree) (cwd r : segs) : bool :=
  FS.exists_sync t (cwd ++ r) && pattern_match r && negb (ignored r).

Definition spec (t : FS.tree) (cwd : segs) (files : list segs) : Prop :=
  NoDup files /\ forall r, r ∈ files <-> matches t cwd r = true.

(** One walk: the paths of the tree below [cwd], filtered. *)
Definition enum (t : FS.tree) (cwd : segs) : list segs :=
  filter (fun r => matches t cwd r = true) (omap (FS.strip_prefix cwd) (map fst (map_to_list t))).

Lemma NoDup_strip_prefix cwd (qs : list segs) :
  NoDup qs -> NoDup (omap (FS.strip_prefix cwd) qs).
Proof.
  induction 1 as [|q qs Hq Hnd IH]; simpl; [constructor|].
  destruct (FS.strip_prefix cwd q) as [r|] eqn:E; [|done].
  constructor; [|done]. intros Hr. apply list_elem_of_omap in Hr as (q' & Hq' & E').
  apply FS.strip_prefix_spec in E, E'. subst. congruence.
Qed.

Lemma enum_spec t cwd : spec t cwd (enum t cwd).
Proof.
  split.
  - apply NoDup_filter, NoDup_strip_prefix, NoDup_fst_map_to_list.
  - intros r. unfold enum. rewrite list_elem_of_filter, list_elem_of_omap.
    split; [by intros [? _]|]. intros Hm. split; [exact Hm|].
    unfold matches, FS.exists_sync in Hm.
    destruct (t !! (cwd ++ r)) as [n|] eqn:E; [|discriminate].
    exists (cwd ++ r). split; [|by apply FS.strip_prefix_spec].
    apply list_elem_of_fmap. exists (cwd ++ r, n). split; [done|].
    by apply elem_of_map_to_list.
Qed.

End Glob.

(** The walk [glob] performs, in whatever order it yields. *)
Class GlobWalk := glob_walk : FS.tree -> Path.segs -> list Path.segs.
Class GlobWalkSpec `{GlobWalk} : Prop :=
  glob_walk_spec : forall t cwd, Glob.spec t cwd (glob_walk t cwd).

#[export] Instance enum_walk : GlobWalk := Glob.enum.
#[export] Instance enum_walk_spec : @GlobWalkSpec enum_walk := Glob.enum_spec.
