(* ===== verification/Runtime.v ===== *)
(** * The process the script runs in

    The world the script reads and changes: the file tree, the heap of
    JavaScript objects, [gray-matter]'s module-level [matter.cache] and
    the console. [M] is the script's effect: the state monad of the
    prelude over this world, whose exceptions are the ones the script can
    meet: Node's system errors from [fs], the YAML engine's exception, a
    [TypeError], [JSON.parse]'s [SyntaxError], and [process.exit] (line
    121), which ends the process. The library calls of the script are
    lifted here: [exists_sync], [read_file_sync], [readdir_sync],
    [write_file_sync] (with Node's syscall names [open] and [scandir] in
    the error), [console.log], [console.error], and allocation and
    property assignment on the heap. *)

From S2P Require Import Prelude JsValue Paths FileSystem.
From Stdlib Require DecimalString.

Inductive exn : Type :=
| SystemError (code : errno) (syscall : string) (path : Path.segs)
| YAMLException (input : string)
| TypeError (message : string)
| SyntaxError (message : string)
| ProcessExit (status : nat).

(** [error instanceof Error] for what a [catch] clause receives. *)
Definition error_message (e : exn) : option string :=
  match e with
  | SyntaxError m | TypeError m => Some m
  | SystemError _ _ _ | YAMLException _ => Some ""
  | ProcessExit _ => None
  end.

Inductive console_line : Type :=
| Stdout (text : string)
| Stderr (text : string)
| StderrWith (text : string) (e : exn).

Record world : Type := mkWorld {
  w_fs : FS.tree;
  w_heap : heap;
  w_cache : gmap string loc;
  w_console : list console_line
}.

Definition set_fs (t : FS.tree) (w : world) : world :=
  mkWorld t (w_heap w) (w_cache w) (w_console w).
Definition set_heap (h : heap) (w : world) : world :=
  mkWorld (w_fs w) h (w_cache w) (w_console w).
Definition set_cache (c : gmap string loc) (w : world) : world :=
  mkWorld (w_fs w) (w_heap w) c (w_console w).
Definition add_line (l : console_line) (w : world) : world :=
  mkWorld (w_fs w) (w_heap w) (w_cache w) (w_console w ++ [l]).

Abbreviation M := (stm world exn).

Definition get_world : M world := gets id.

Definition console_log (s : string) : M unit := modify (add_line (Stdout s)).
Definition console_error (s : string) : M unit := modify (add_line (Stderr s)).
Definition console_error_with (s : string) (e : exn) : M unit :=
  modify (add_line (StderrWith s e)).

Definition exists_sync (p : Path.segs) : M bool := gets (fun w => FS.exists_sync (w_fs w) p).

Definition read_file_sync (p : Path.segs) : M string :=
  fun w => match FS.read_file_sync (w_fs w) p with
           | inr c => (Ok c, w)
           | inl e => (Throw (SystemError e "open" p), w)
           end.

Definition readdir_sync (p : Path.segs) : M (list string) :=
  fun w => match FS.readdir_sync (w_fs w) p with
           | inr l => (Ok l, w)
           | inl e => (Throw (SystemError e "scandir" p), w)
           end.

Definition write_file_sync (p : Path.segs) (data : string) : M unit :=
  fun w => match FS.write_file_sync (w_fs w) p data with
           | inr t => (Ok tt, set_fs t w)
           | inl e => (Throw (SystemError e "open" p), w)
           end.

(** A new object in the heap. *)
Definition alloc (v : jsval) : M loc :=
  fun w => let l := heap_fresh (w_heap w) in (Ok l, set_heap (<[l := v]> (w_heap w)) w).

(** The message of V8's [TypeError] for [v.k = x] in strict code. *)
Definition set_prop_message (v : jsval) (k : string) : string :=
  match v with
  | JUndefined => "Cannot set properties of undefined (setting '" +:+ k +:+ "')"
  | JNull => "Cannot set properties of null (setting '" +:+ k +:+ "')"
  | _ => "Cannot create property '" +:+ k +:+ "'"
  end.

(** [obj.k = x] for the value in the cell [l]. *)
Definition set_prop (l : loc) (k : string) (x : jsval) : M unit :=
  fun w => match w_heap w !! l with
           | Some v =>
               match js_set_prop v k x with
               | Some v' => (Ok tt, set_heap (<[l := v']> (w_heap w)) w)
               | None => (Throw (TypeError (set_prop_message v k)), w)
               end
           | None => (Throw (TypeError ("Cannot set properties of undefined")), w)
           end.

(** [`${n}`] for a natural number. *)
Definition nat_to_string (n : nat) : string :=
  DecimalString.NilEmpty.string_of_uint (Nat.to_uint n).

(** The outcome of each lifted call, by cases on the world. *)
Lemma read_file_sync_run p w :
  read_file_sync p w =
    match FS.read_file_sync (w_fs w) p with
    | inr c => (Ok c, w)
    | inl e => (Throw (SystemError e "open" p), w)
    end.
Proof. reflexivity. Qed.

Lemma set_prop_run l k x w v :
  w_heap w !! l = Some v ->
  set_prop l k x w =
    match js_set_prop v k x with
    | Some v' => (Ok tt, set_heap (<[l := v']> (w_heap w)) w)
    | None => (Throw (TypeError (set_prop_message v k)), w)
    end.
Proof. intros H. unfold set_prop. by rewrite H. Qed.

Lemma console_log_run s w : console_log s w = (Ok tt, add_line (Stdout s) w).
Proof. reflexivity. Qed.

Lemma exists_sync_run p w : exists_sync p w = (Ok (FS.exists_sync (w_fs w) p), w).
Proof. reflexivity. Qed.
