(* ===== verification/FrontMatter.v ===== *)
(** * [gray-matter] and [JSON.parse], the two parsers the script calls

    Line 63 calls [matter(fileContent)] with no options, and line 64 takes
    [parsed.data] as the entry's metadata. [gray-matter] 4 behaves as
    follows for such a call:
    - the empty string gives a fresh file whose [data] is a new [{}];
    - otherwise [toFile] sets [file.content] to the input without a
      leading byte-order mark ([utils.toString]), and that content is the
      key of [matter.cache] ([cache_key]);
    - when the cache holds a file for the key, the call returns
      [Object.assign({}, cached)]: a shallow copy, whose [data] is the
      very object of the cached file;
    - [matter.cache] is a plain [{}]: a content that names a property
      of [Object.prototype] ([toString], [constructor], [__proto__], ...)
      finds that inherited value, which is truthy, so the call returns
      a copy of it, whose [data] is [undefined], and never caches the
      content;
    - otherwise it stores the file (with [data = {}]) in the cache, then
      [parseMatter] parses [file.content] into [file.data]; a parse error
      is thrown after the file was cached.
    [parseMatter] (front-matter detection and the YAML engine) is one
    abstract function, [fm_parse] ([None] when it throws), given as a
    class so that every theorem holds for any engine; [GrayMatter] gives
    the default one. [JSON.parse] (line 80) is the class [JsonParser]:
    the parsed value, or the message of its [SyntaxError]. *)

From S2P Require Import Prelude JsValue Runtime.

Class FrontMatterEngine := fm_parse : string -> option jsval.
Class JsonParser := json_parse : string -> string + jsval.

Section Matter.
Context `{FrontMatterEngine}.

(** U+FEFF in UTF-8. *)
Definition bom : string :=
  String (Ascii.ascii_of_nat 239) (String (Ascii.ascii_of_nat 187)
    (String (Ascii.ascii_of_nat 191) EmptyString)).

(** [utils.toString] ([strip-bom-string]): the content without a
    leading byte-order mark. *)
Definition strip_bom (s : string) : string := default s (drop_prefix bom s).

(** The properties every plain object inherits from [Object.prototype]
    in Node: [matter.cache] is such an object ([matter.cache = {}]), so
    [matter.cache[k]] finds one of these, a function or
    [Object.prototype] itself, for a key that names one and that the
    cache has no own property for. *)
Definition object_prototype_keys : list string :=
  ["constructor"; "__defineGetter__"; "__defineSetter__"; "hasOwnProperty";
   "__lookupGetter__"; "__lookupSetter__"; "isPrototypeOf"; "propertyIsEnumerable";
   "toString"; "valueOf"; "__proto__"; "toLocaleString"].

Definition inherited (k : string) : bool := bool_decide (k ∈ object_prototype_keys).

(** What [matter.cache[k]] finds: an own property (a cached file, here
    its [data] object), an inherited one, or nothing. *)
Inductive cache_hit : Type :=
| Own (l : loc)
| Inherited
| Absent.

Definition cache_get (ca : gmap string loc) (k : string) : cache_hit :=
  match ca !! k with
  | Some l => Own l
  | None => if inherited k then Inherited else Absent
  end.

(** [file.content] of a non-empty input: [toFile] strips the mark. *)
Definition file_content (input : string) : option string :=
  if String.eqb input "" then None else Some (strip_bom input).

(** The own entry of [matter.cache] a text uses: none for the empty
    string, which returns before [toFile], and none for a content that
    names an inherited property, which every lookup finds, so that
    [matter] never stores it; [file.content] otherwise. *)
Definition cache_key (input : string) : option string :=
  match file_content input with
  | Some k => if inherited k then None else Some k
  | None => None
  end.

(** The cache has no own property for the text's content. *)
Definition cache_miss (ca : gmap string loc) (input : string) : Prop :=
  forall k, file_content input = Some k -> ca !! k = None.

(** No own property of the cache has an inherited name: [matter]
    stores under [cache_key]s only. *)
Definition cache_own (ca : gmap string loc) : Prop :=
  forall k l, ca !! k = Some l -> inherited k = false.

(** The cache once a text that missed it was stored. *)
Definition cache_insert (key : option string) (l : loc) (ca : gmap string loc) : gmap string loc :=
  match key with Some k => <[k := l]> ca | None => ca end.

(** [matter(input).data], as the heap cell of its value. A hit on an
    inherited property returns [Object.assign({}, cached)], a file
    without [data]: the cell holds [undefined]. *)
Definition matter (input : string) : M loc :=
  match file_content input with
  | None => alloc (JObject [])
  | Some content =>
      w ← get_world;
      match cache_get (w_cache w) content with
      | Own l => mret l
      | Inherited => alloc JUndefined
      | Absent =>
          l ← alloc (JObject []);
          modify (fun w => set_cache (<[content := l]> (w_cache w)) w);;
          match fm_parse content with
          | Some v => modify (fun w => set_heap (<[l := v]> (w_heap w)) w);; mret l
          | None => throw (YAMLException content)
          end
      end
  end.

(** The value [parsed.data] holds right after a call that does not hit
    an own property of the cache. *)
Definition matter_value (input : string) : option jsval :=
  match file_content input with
  | None => Some (JObject [])
  | Some content => if inherited content then Some JUndefined else fm_parse content
  end.

Lemma cache_key_content c k : cache_key c = Some k -> file_content c = Some k /\ inherited k = false.
Proof. unfold cache_key. destruct (file_content c) as [k'|]; [|done]. by destruct (inherited k') eqn:E; intros [= <-]. Qed.

Lemma matter_value_key c k : cache_key c = Some k -> matter_value c = fm_parse k.
Proof. intros [Hc Hi]%cache_key_content. unfold matter_value. by rewrite Hc, Hi. Qed.

(** A text whose content names an inherited property uses no own
    entry and gets [undefined] for its [data]. *)
Lemma matter_value_inherited c :
  inherited (strip_bom c) = true -> cache_key c = None /\ matter_value c = Some JUndefined.
Proof.
  intros Hi. unfold cache_key, matter_value, file_content.
  destruct (String.eqb_spec c "") as [->|_]; [by vm_compute in Hi|]. by rewrite Hi.
Qed.

(** A text without an own cache entry: the cache stays as it is. *)
Lemma cache_miss_intro ca c :
  cache_own ca -> (forall k, cache_key c = Some k -> ca !! k = None) -> cache_miss ca c.
Proof.
  intros Hown Hk k Hc. destruct (ca !! k) as [l|] eqn:E; [|done].
  unfold cache_key in Hk. rewrite Hc in Hk. specialize (Hown k l E).
  rewrite Hown in Hk. by rewrite (Hk k eq_refl) in E.
Qed.

Lemma cache_own_empty : cache_own ∅.
Proof. intros k l. by rewrite lookup_empty. Qed.

Lemma cache_own_insert ca c l : cache_own ca -> cache_own (cache_insert (cache_key c) l ca).
Proof.
  intros Hown. destruct (cache_key c) as [k|] eqn:Hk; [|done]. cbn [cache_insert].
  apply cache_key_content in Hk as [_ Hi]. intros k' l' Hl'.
  destruct (decide (k' = k)) as [->|Hne]; [done|].
  rewrite lookup_insert_ne in Hl' by done. by apply (Hown k' l').
Qed.

End Matter.

Section JsonParse.
Context `{JsonParser}.

(** [JSON.parse(s)] inside the script's monad. *)
Definition json_parse_m (s : string) : M jsval :=
  match json_parse s with
  | inr v => mret v
  | inl msg => throw (SyntaxError msg)
  end.
End JsonParse.
