(* ===== verification/GrayMatter.v ===== *)
(** * [gray-matter]'s [parseMatter]: where the front matter is

    [FrontMatter] leaves the parse of a text to any [FrontMatterEngine].
    This file gives the one [gray-matter] 4 uses with its defaults
    (delimiters [---], language [yaml], no excerpt): [parse_matter]
    follows [parseMatter] on [file.content], the text [toFile] left
    without its byte-order mark ([FrontMatter.cache_key]):
    - a text that does not start with [---], or whose fourth byte is
      another [-], has no front matter and keeps the empty [data] object;
    - otherwise the rest of the first line, trimmed, names the language
      (default [yaml]) and is cut off;
    - the block runs to the first [\n---], or to the end of the text
      when there is none;
    - a block of blank lines and [#] comment lines (the regular
      expression [/^\s*#[^\n]+/gm] and [trim]) gives the empty object;
    - otherwise the engine of the language parses the block: [yaml] (and
      [yml], in any case) is [js-yaml]'s [safeLoad], [json] is
      [JSON.parse], [javascript] (and [js]) evaluates the block; any
      other name throws, as does an engine that fails; a [null] or
      [undefined] result becomes [{}] ([excerpt]).
    [js-yaml] and the [javascript] engine are the class
    [FrontMatterEngines]; [JSON.parse] is the script's [JsonParser]. The
    whitespace of [\s] and [trim] is its ASCII part. [parse_matter] is
    an instance of [FrontMatterEngine] only where a theorem asks for it,
    so that every other theorem still holds for any engine. *)

From S2P Require Import Prelude JsValue FrontMatter.

Module GrayMatter.

Local Abbreviation ord := Ascii.nat_of_ascii.

(** The engines [gray-matter] registers besides [json]. *)
Class FrontMatterEngines := {
  yaml_load : string -> option jsval;   (** [js-yaml]'s [safeLoad]; [None] when it throws *)
  js_eval : string -> option jsval      (** the [javascript] engine *)
}.

Definition chr (n : nat) : string := String (Ascii.ascii_of_nat n) EmptyString.

(** The ASCII characters of [\s] and of [String.prototype.trim]. *)
Definition js_space (c : Ascii.ascii) : bool :=
  let n := ord c in (n =? 9) || (n =? 10) || (n =? 11) || (n =? 12) || (n =? 13) || (n =? 32).

Fixpoint trim_start (s : string) : string :=
  match s with
  | String c s' => if js_space c then trim_start s' else s
  | EmptyString => EmptyString
  end.

Definition js_trim (s : string) : string :=
  String.string_of_list_ascii (rev (String.list_ascii_of_string
    (trim_start (String.string_of_list_ascii (rev (String.list_ascii_of_string (trim_start s))))))).

(** [s.search(/\r?\n/)]: where the first line break starts. *)
Fixpoint search_newline (s : string) : option nat :=
  match s with
  | EmptyString => None
  | String c s' =>
      if ord c =? 10 then Some 0
      else if (ord c =? 13) && (match s' with String d _ => ord d =? 10 | _ => false end)
      then Some 0
      else option_map S (search_newline s')
  end.

(** [s.slice(0, s.search(/\r?\n/))]: with no line break, [search] is
    [-1] and the slice drops the last character. *)
Definition first_line_raw (s : string) : string :=
  match search_newline s with
  | Some i => String.substring 0 i s
  | None => String.substring 0 (String.length s - 1) s
  end.

(** One line of the block is removed by the comment expression and
    [trim] when it is blank, or blank up to a [#] followed by at least
    one character. *)
Definition blank_line (l : string) : bool :=
  match trim_start l with
  | EmptyString => true
  | String c rest => (ord c =? 35) && negb (String.eqb rest EmptyString)
  end.

(** The lines of a text, split at [\n]. *)
Fixpoint lines_of (s : string) : list string :=
  match s with
  | EmptyString => [EmptyString]
  | String c s' =>
      if ord c =? 10 then EmptyString :: lines_of s'
      else match lines_of s' with
           | l :: ls => String c l :: ls
           | [] => [String c EmptyString]
           end
  end.

(** [file.matter.replace(/^\s*#[^\n]+/gm, '').trim() === ''] *)
Definition blank_block (m : string) : bool := forallb blank_line (lines_of m).

Fixpoint ascii_lower (s : string) : string :=
  match s with
  | String c s' =>
      String (if (65 <=? ord c) && (ord c <=? 90) then Ascii.ascii_of_nat (ord c + 32) else c)
             (ascii_lower s')
  | EmptyString => EmptyString
  end.

Section Engines.
Context `{FrontMatterEngines} `{JsonParser}.

Definition json_engine (s : string) : option jsval :=
  match json_parse s with inr v => Some v | inl _ => None end.

Definition engine_named (name : string) : option (string -> option jsval) :=
  if String.eqb name "yaml" then Some yaml_load
  else if String.eqb name "json" then Some json_engine
  else if String.eqb name "javascript" then Some js_eval
  else None.

(** [getEngine]: [opts.engines[name] || opts.engines[aliase(name)]]. *)
Definition get_engine (name : string) : option (string -> option jsval) :=
  match engine_named name with
  | Some e => Some e
  | None =>
      let l := ascii_lower name in
      if String.eqb l "js" || String.eqb l "javascript" then Some js_eval
      else if String.eqb l "yaml" || String.eqb l "yml" then Some yaml_load
      else None
  end.

(** [excerpt(file, opts)], which [parseMatter] calls after the engine:
    its first statement, [if (file.data == null) file.data = {}],
    replaces a [null] or [undefined] result by a new empty object. *)
Definition excerpt_data (d : option jsval) : option jsval :=
  match d with Some JNull | Some JUndefined => Some (JObject []) | _ => d end.

(** [parseMatter(file).data] for the content of a non-empty input met
    for the first time: [None] when [gray-matter] throws. *)
Definition parse_matter (content : string) : option jsval :=
  match drop_prefix "---" content with
  | None => Some (JObject [])
  | Some str =>
      if match str with String c _ => ord c =? 45 | EmptyString => false end
      then Some (JObject [])
      else
        let len := String.length str in
        let raw := first_line_raw str in
        let name := js_trim raw in
        let lang := if String.eqb name "" then "yaml" else name in
        let str' := if String.eqb name "" then str
                    else String.substring (String.length raw) (len - String.length raw) str in
        let close_index := default len (String.index 0 (chr 10 +:+ "---") str') in
        let block := String.substring 0 close_index str' in
        if blank_block block then Some (JObject [])
        else match get_engine lang with Some p => excerpt_data (p block) | None => None end
  end.

(** A text that does not open with the delimiter has no front matter. *)
Lemma parse_matter_plain c :
  String.prefix "---" c = false -> parse_matter c = Some (JObject []).
Proof. intros Hp. unfold parse_matter. by rewrite drop_prefix_None. Qed.

Lemma substring_all s : String.substring 0 (String.length s) s = s.
Proof. induction s as [|c s IH]; [done|]. simpl. by rewrite IH. Qed.

(** A text that opens with the delimiter and never closes it is one
    front-matter block in the default language. *)
Lemma parse_matter_unclosed body :
  String.index 0 (chr 10 +:+ "---") (chr 10 +:+ body) = None ->
  parse_matter ("---" +:+ chr 10 +:+ body)
  = if blank_block (chr 10 +:+ body) then Some (JObject [])
    else excerpt_data (yaml_load (chr 10 +:+ body)).
Proof.
  intros Hi. unfold parse_matter. rewrite drop_prefix_app.
  assert (Hraw : first_line_raw (chr 10 +:+ body) = EmptyString) by reflexivity.
  cbv zeta. rewrite Hraw.
  change ((js_trim EmptyString =? EmptyString)%string) with true. cbv iota.
  rewrite Hi. cbn [default]. rewrite substring_all.
  change (match chr 10 +:+ body with String c _ => ord c =? 45 | EmptyString => false end)
    with false. cbv iota.
  by destruct (blank_block (chr 10 +:+ body)).
Qed.

(** [gray-matter] with its default options, as the script calls it. *)
Definition gray_matter_engine : FrontMatterEngine := parse_matter.

End Engines.

End GrayMatter.
