(* ===== verification/Engines.v ===== *)
(** * Concrete stand-ins for the libraries, for the examples

    The theorems hold for every front-matter engine, [JSON.parse],
    collation and walk order. The examples that instantiate them use the
    engines below: a front-matter engine that rejects a text starting
    with [!] and otherwise yields an object with the text under [body];
    a [JSON.parse] that knows [{}] and [null] and rejects anything else;
    code-unit order for [localeCompare], and a collation that, like ICU's
    root collation, gives the soft hyphen U+00AD no weight; the
    enumeration [Glob.enum] for the walk. *)

From S2P Require Import Prelude JsValue Sort FrontMatter.

Definition toy_front_matter : FrontMatterEngine :=
  fun c => if String.prefix "!" c then None else Some (JObject [("body", JString c)]).

Definition toy_json_parse : JsonParser :=
  fun s => if String.eqb s "{}" then inr (JObject [])
           else if String.eqb s "null" then inr JNull
           else inl "Unexpected token".

Definition code_unit_order : LocaleCompare := collate_by id.

(** The UTF-8 encoding of U+00AD (the bytes C2 AD) removed. *)
Fixpoint strip_soft_hyphen (s : string) : string :=
  match s with
  | EmptyString => EmptyString
  | String a s1 =>
      match s1 with
      | String b s2 =>
          if Ascii.eqb a (Ascii.ascii_of_nat 194) && Ascii.eqb b (Ascii.ascii_of_nat 173)
          then strip_soft_hyphen s2 else String a (strip_soft_hyphen s1)
      | EmptyString => String a EmptyString
      end
  end.

Definition soft_hyphen_order : LocaleCompare := collate_by strip_soft_hyphen.
