(* ===== verification/Generator.v ===== *)
(** * [generateDelegateIndex], line by line

    [Generator.delegateDirectory] and [Generator.indexFilePath] are lines
    29-31; [Generator.load_metrics] is the metrics block of lines 70 and 76-93;
    [Generator.process_file] is the body of the [for] loop (lines 61-107);
    [Generator.body] is the [try] block (lines 35-118) and
    [Generator.generateDelegateIndex] adds the [catch] (lines 119-122).
    [Generator.run] is the process: its final world and exit status. The
    libraries are the classes of [FrontMatter], [Sort] and [Glob]; the
    script's own directory [__dirname] is a section variable. *)

From S2P Require Import Prelude JsValue Json Paths FileSystem Sort Glob Runtime FrontMatter.

Module Generator.
Section Generator.
Context `{FrontMatterEngine} `{JsonParser} `{LocaleCompare} `{GlobWalk}.

(** [__dirname], the directory of the script. *)
Variable script_dir : Path.segs.

(** [path.join(__dirname, '..')] *)
Definition delegateDirectory : Path.segs := Path.join_abs script_dir [".."].
(** [path.join(__dirname, '..', 'index.json')] *)
Definition indexFilePath : Path.segs := Path.join_abs script_dir [".."; "index.json"].

Definition metricsFileName : string := "metrics.json".

(** [IndexEntry]: the metadata is a reference to the front-matter
    object; an absent [metrics] is [None] ([undefined]). *)
Record entry : Type := mkEntry {
  e_path : string;
  e_metadata : loc;
  e_metrics : option jsval
  }.

(** Lines 70 and 76-93: read and parse a sibling [metrics.json]; a
    parse error is reported and leaves [undefined]. *)
Definition load_metrics (delegateFolderPath : Path.segs) (directoryContents : list string)
    (relativePath : string) : M (option jsval) :=
  if existsb (String.eqb metricsFileName) directoryContents then
    let metricsFilePath := Path.join_abs delegateFolderPath [metricsFileName] in
    metricsFileContent ← read_file_sync metricsFilePath;
    catch (metrics ← json_parse_m metricsFileContent; mret (Some metrics))
      (fun error =>
         match error_message error with
         | Some msg =>
             console_error ("Error parsing metrics file for " +:+ relativePath +:+ ": " +:+ msg)
         | None =>
             console_error ("Error parsing metrics file for " +:+ relativePath
                            +:+ ": An unknown error occurred")
         end;;
         mret None)
  else mret None.

(** Lines 61-107: one document. *)
Definition process_file (file : Path.segs) : M entry :=
  let filePath := Path.join_abs delegateDirectory file in
  fileContent ← read_file_sync filePath;
  metadata ← matter fileContent;
  let delegateFolderPath := Path.dirname_abs filePath in
  directoryContents ← readdir_sync delegateFolderPath;
  let relativePath := Path.join_rel file in
  delegateMetrics ← load_metrics delegateFolderPath directoryContents (Path.render_rel relativePath);
  let dirName := Path.basename (Path.dirname_rel relativePath) in
  (if String.prefix "0x" dirName then set_prop metadata "address" (JString dirName)
   else mret tt);;
  mret (mkEntry (Path.render_rel relativePath) metadata delegateMetrics).

(** [(a, b) => a.path.localeCompare(b.path)] *)
Definition entry_cmp : entry -> entry -> comparison := cmp_on e_path locale_compare.

(** The object [JSON.stringify] sees for an entry: keys in the order
    of the literal of lines 103-107. *)
Definition entry_value (h : heap) (e : entry) : jsval :=
  JObject [("path", JString (e_path e));
           ("metadata", default JUndefined (h !! e_metadata e));
           ("metrics", default JUndefined (e_metrics e))].

Definition index_value (h : heap) (es : list entry) : jsval :=
  JArray (map (entry_value h) es).

(** [fs.writeFileSync(p, JSON.stringify(v, null, 2))] *)
Definition write_json (p : Path.segs) (v : jsval) : M unit :=
  match Json.stringify v with
  | Some s => write_file_sync p s
  | None => throw (TypeError "The data argument must be of type string")
  end.

(** Lines 35-118. *)
Definition body : M unit :=
  ex ← exists_sync delegateDirectory;
  if negb ex then
    console_log ("Delegates directory not found: " +:+ Path.render_abs delegateDirectory
                 +:+ ". Skipping generation.")
  else
    console_log ("Searching for markdown files in: " +:+ Path.render_abs delegateDirectory);;
    files ← gets (fun w => glob_walk (w_fs w) delegateDirectory);
    match files with
    | [] =>
        console_log "No markdown files found in the delegates directory.";;
        write_json indexFilePath (JArray [])
    | _ =>
        console_log ("Found " +:+ nat_to_string (length files) +:+ " files. Processing...");;
        indexData ← for_push process_file [] files;
        let sorted := Sort.sort entry_cmp indexData in
        w ← get_world;
        write_json indexFilePath (index_value (w_heap w) sorted);;
        console_log ("Successfully generated delegates index file at: "
                     +:+ Path.render_abs indexFilePath)
    end.

(** Lines 33-123. *)
Definition generateDelegateIndex : M unit :=
  catch body
    (fun error => console_error_with "Error generating delegates index:" error;;
                  throw (ProcessExit 1)).

(** The process: the world it leaves and its exit status. An exception
    other than [process.exit] cannot escape the [catch]. *)
Definition run (w : world) : world * nat :=
  match generateDelegateIndex w with
  | (Ok _, w') => (w', 0)
  | (Throw (ProcessExit n), w') => (w', n)
  | (Throw _, w') => (w', 1)
  end.

End Generator.
End Generator.
