(* ===== verification/Refinement.v ===== *)
(** * What the script computes, as a pure function of the tree

    [Refinement.expected_entry] is the contract of the loop body of lines
    61-107 for one document [f]: its path, its front matter with the
    [address] of a [0x] folder, and its parsed [metrics.json]; the
    [Refinement.expected_index] sorts the documents by path and lists
    their entries. The lemmas here relate one step of the stateful run
    to this contract (reading a document, loading its metrics, writing
    the index), and [Refinement.run_loop_ok] turns a loop result into the
    whole run. [Aliasing.run_refines] uses them to show that the run
    writes exactly [JSON.stringify(expected_index, null, 2)] when every
    document can be processed and no two documents share a cache key
    ([no_alias]). That side condition is needed: [gray-matter] hands
    documents with one cache key one shared [data] object, and line 100
    mutates it (see [Aliasing]). *)

From S2P Require Import Prelude JsValue Json Paths FileSystem Sort Glob Runtime FrontMatter Engines Generator.

Module Refinement.
Import Generator.

Section Refinement.
Context `{FrontMatterEngine} `{JsonParser} `{LocaleCompare} `{GlobWalk}.
Variable script_dir : Path.segs.

Local Abbreviation dd := (delegateDirectory script_dir).
Local Abbreviation idx := (indexFilePath script_dir).

(** ** The specification of one document *)

Definition doc_content (t : FS.tree) (f : Path.segs) : option string :=
  match t !! (dd ++ f) with Some (File c) => Some c | _ => None end.

Definition dir_name (f : Path.segs) : string := Path.basename (Path.dirname_rel f).

Definition folder (f : Path.segs) : Path.segs := dd ++ removelast f.
Definition metrics_path (f : Path.segs) : Path.segs := folder f ++ [metricsFileName].

Definition metrics_outcome (t : FS.tree) (f : Path.segs) : option (string + jsval) :=
  match t !! metrics_path f with Some (File m) => Some (json_parse m) | _ => None end.

Definition metrics_value (t : FS.tree) (f : Path.segs) : option jsval :=
  match metrics_outcome t f with Some (inr v) => Some v | _ => None end.

Definition metrics_log (t : FS.tree) (f : Path.segs) : list console_line :=
  match metrics_outcome t f with
  | Some (inl msg) =>
      [Stderr ("Error parsing metrics file for " +:+ Path.render_rel f +:+ ": " +:+ msg)]
  | _ => []
  end.

(** Lines 95-101 on the metadata object [v] of document [f]. *)
Definition address_update (f : Path.segs) (v : jsval) : option jsval :=
  if String.prefix "0x" (dir_name f) then js_set_prop v "address" (JString (dir_name f))
  else Some v.

(** The metadata object after line 100; [None] when the document
    cannot be read, its front matter does not parse, or the address
    cannot be set on it. *)
Definition meta_value (t : FS.tree) (f : Path.segs) : option jsval :=
  c ← doc_content t f;
  v ← matter_value c;
  address_update f v.

(** A document the loop body processes without throwing. *)
Definition doc_ok (t : FS.tree) (f : Path.segs) : bool :=
  match meta_value t f, t !! metrics_path f with
  | Some _, Some Dir => false
  | Some _, _ => true
  | None, _ => false
  end.

Definition expected_entry (t : FS.tree) (f : Path.segs) : jsval :=
  JObject [("path", JString (Path.render_rel f));
           ("metadata", default JUndefined (meta_value t f));
           ("metrics", default JUndefined (metrics_value t f))].

Definition path_cmp : Path.segs -> Path.segs -> comparison :=
  cmp_on Path.render_rel locale_compare.

Definition expected_index (t : FS.tree) (files : list Path.segs) : jsval :=
  JArray (map (expected_entry t) (Sort.sort path_cmp files)).

(** The entry of [gray-matter]'s cache a document's text uses. *)
Definition doc_key (t : FS.tree) (f : Path.segs) : option string :=
  doc_content t f ≫= cache_key.

Lemma doc_key_content t f c : doc_content t f = Some c -> doc_key t f = cache_key c.
Proof. unfold doc_key. by intros ->. Qed.

(** Two documents use one entry of [gray-matter]'s cache: their texts
    are non-empty, equal once a leading byte-order mark is removed, and
    not named like an [Object.prototype] property. *)
Definition shares_content (t : FS.tree) (f g : Path.segs) : Prop :=
  exists k, doc_key t f = Some k /\ doc_key t g = Some k.

Definition no_alias (t : FS.tree) (files : list Path.segs) : Prop :=
  forall f g, f ∈ files -> g ∈ files -> f <> g -> ~ shares_content t f g.

Definition shares_content_b (t : FS.tree) (f g : Path.segs) : bool :=
  match doc_key t f, doc_key t g with
  | Some k, Some k' => String.eqb k k'
  | _, _ => false
  end.

Definition no_alias_b (t : FS.tree) (files : list Path.segs) : bool :=
  forallb (fun f => forallb (fun g => bool_decide (f = g) || negb (shares_content_b t f g)) files)
          files.

Lemma no_alias_b_spec t files : no_alias_b t files = true -> no_alias t files.
Proof.
  unfold no_alias_b. intros Hb f g Hf Hg Hne (k & Ef & Eg).
  pose proof (forallb_pairs _ _ Hb f g Hf Hg) as Hfg. cbn beta in Hfg.
  rewrite bool_decide_eq_false_2 in Hfg by done. simpl in Hfg.
  unfold shares_content_b in Hfg. by rewrite Ef, Eg, String.eqb_refl in Hfg.
Qed.

(** ** Paths of a clean script directory *)

Hypothesis Hsd_clean : Path.clean script_dir = true.

Lemma clean_app p q : Path.clean (p ++ q) = Path.clean p && Path.clean q.
Proof. apply forallb_app. Qed.

Lemma clean_removelast p : Path.clean p = true -> Path.clean (removelast p) = true.
Proof.
  destruct p as [|x p] using rev_ind; [done|].
  rewrite removelast_last, clean_app. by intros [? _]%andb_prop.
Qed.

Lemma dd_eq : dd = removelast script_dir.
Proof.
  unfold delegateDirectory. rewrite Path.join_abs_parent by done. apply app_nil_r.
Qed.

Lemma dd_clean : Path.clean dd = true.
Proof. rewrite dd_eq. by apply clean_removelast. Qed.

Lemma idx_eq : idx = dd ++ ["index.json"].
Proof. unfold indexFilePath. rewrite Path.join_abs_parent by done. by rewrite dd_eq. Qed.

Lemma matched_facts t f :
  FS.wf t -> Glob.matches t dd f = true ->
  f <> [] /\ Path.clean f = true /\ is_Some (t !! (dd ++ f)).
Proof.
  intros (_ & _ & Hcl) Hm. unfold Glob.matches, FS.exists_sync in Hm.
  destruct (t !! (dd ++ f)) as [n|] eqn:E; [|discriminate].
  apply andb_prop in Hm as [Hm _]. apply andb_prop in Hm as [_ Hp].
  split; [by destruct f|]. split; [|by eexists].
  apply Hcl in E. rewrite clean_app in E. by apply andb_prop in E as [_ ?].
Qed.

Lemma folder_dir t f :
  FS.wf t -> f <> [] -> is_Some (t !! (dd ++ f)) -> t !! folder f = Some Dir.
Proof.
  intros (_ & Hpar & _) Hf [n Hn]. unfold folder.
  rewrite (app_removelast_last "" Hf), app_assoc in Hn. by eapply Hpar.
Qed.

Lemma folder_clean f : Path.clean f = true -> Path.clean (folder f) = true.
Proof.
  intros Hf. unfold folder. rewrite clean_app, dd_clean. by apply clean_removelast.
Qed.

(** ** The library calls on a document *)

Lemma read_doc w f c :
  doc_content (w_fs w) f = Some c -> read_file_sync (dd ++ f) w = (Ok c, w).
Proof.
  intros Hc. unfold doc_content in Hc. rewrite read_file_sync_run. unfold FS.read_file_sync.
  destruct (w_fs w !! (dd ++ f)) as [[]|]; by simplify_eq.
Qed.

Lemma matter_fresh c w v :
  matter_value c = Some v -> cache_miss (w_cache w) c ->
  matter c w =
    (Ok (heap_fresh (w_heap w)),
     mkWorld (w_fs w) (<[heap_fresh (w_heap w) := v]> (w_heap w))
             (cache_insert (cache_key c) (heap_fresh (w_heap w)) (w_cache w)) (w_console w)).
Proof.
  unfold matter, matter_value, cache_miss, cache_key. intros Hv Hc.
  destruct (file_content c) as [k|]; [|by simplify_eq].
  destruct w as [t h ca co]. simpl in *.
  unfold_stm. cbn. unfold cache_get. rewrite (Hc k eq_refl).
  destruct (inherited k); [by simplify_eq|].
  unfold_stm. cbn. rewrite Hv. cbn.
  unfold set_heap, set_cache. simpl. by rewrite insert_insert_eq.
Qed.

Lemma dirname_folder f : f <> [] -> Path.dirname_abs (dd ++ f) = folder f.
Proof. intros Hf. unfold Path.dirname_abs. by rewrite removelast_app. Qed.

Lemma readdir_folder w f :
  FS.wf (w_fs w) -> f <> [] -> is_Some (w_fs w !! (dd ++ f)) ->
  readdir_sync (folder f) w = (Ok (FS.children (w_fs w) (folder f)), w).
Proof.
  intros Hwf Hf Hn. unfold readdir_sync, FS.readdir_sync.
  by rewrite (folder_dir _ _ Hwf Hf Hn).
Qed.

Lemma load_metrics_run w f :
  FS.wf (w_fs w) -> Path.clean f = true -> w_fs w !! folder f = Some Dir ->
  w_fs w !! metrics_path f <> Some Dir ->
  load_metrics (folder f) (FS.children (w_fs w) (folder f)) (Path.render_rel f) w =
    (Ok (metrics_value (w_fs w) f),
     mkWorld (w_fs w) (w_heap w) (w_cache w) (w_console w ++ metrics_log (w_fs w) f)).
Proof.
  intros Hwf Hf Hdir Hnd. unfold load_metrics, metrics_value, metrics_log, metrics_outcome.
  assert (existsb (String.eqb metricsFileName) (FS.children (w_fs w) (folder f))
          = bool_decide (is_Some (w_fs w !! metrics_path f))) as ->.
  { apply eq_bool_prop_intro. rewrite Is_true_true, existsb_string_eqb_In, bool_decide_spec.
    rewrite <- list_elem_of_In. apply FS.elem_of_children. }
  rewrite Path.join_abs_clean by (done || by apply folder_clean). fold (metrics_path f).
  destruct (w_fs w !! metrics_path f) as [[m|]|] eqn:E; simpl; [|done|].
  - rewrite bind_unfold, read_file_sync_run. unfold FS.read_file_sync. rewrite E.
    unfold catch, json_parse_m. destruct (json_parse m) as [msg|v]; simpl.
    + reflexivity.
    + destruct w. simpl. by rewrite app_nil_r.
  - destruct w. simpl. by rewrite app_nil_r.
Qed.

Lemma set_prop_fresh w l v k x v' :
  w_heap w !! l = Some v -> js_set_prop v k x = Some v' ->
  set_prop l k x w = (Ok tt, set_heap (<[l := v']> (w_heap w)) w).
Proof. intros Hl Hs. by rewrite (set_prop_run _ _ _ _ v), Hs. Qed.

Lemma meta_value_inv t f mv :
  meta_value t f = Some mv ->
  exists c v, doc_content t f = Some c /\ matter_value c = Some v /\ address_update f v = Some mv.
Proof.
  unfold meta_value. destruct (doc_content t f) as [c|] eqn:Ec; [|discriminate]. simpl.
  destruct (matter_value c) as [v|] eqn:Ev; [|discriminate]. simpl. intros Hm.
  by exists c, v.
Qed.

(** The loop body on a document whose text is not cached yet: one
    fresh object, holding the document's metadata. *)
Lemma process_file_fresh w f c mv :
  FS.wf (w_fs w) -> Glob.matches (w_fs w) dd f = true ->
  doc_content (w_fs w) f = Some c -> cache_miss (w_cache w) c ->
  meta_value (w_fs w) f = Some mv -> w_fs w !! metrics_path f <> Some Dir ->
  process_file script_dir f w =
    (Ok (mkEntry (Path.render_rel f) (heap_fresh (w_heap w)) (metrics_value (w_fs w) f)),
     mkWorld (w_fs w) (<[heap_fresh (w_heap w) := mv]> (w_heap w))
             (cache_insert (cache_key c) (heap_fresh (w_heap w)) (w_cache w))
             (w_console w ++ metrics_log (w_fs w) f)).
Proof.
  intros Hwf Hm Hc Hfresh Hmv Hnd.
  destruct (matched_facts _ _ Hwf Hm) as (Hne & Hcl & Hn).
  destruct (meta_value_inv _ _ _ Hmv) as (c' & v & Hc' & Hv & Hset). simplify_eq.
  unfold process_file. cbv zeta.
  rewrite Path.join_abs_clean by (done || apply dd_clean).
  rewrite (dirname_folder f Hne).
  rewrite (bind_ok _ _ _ _ _ (read_doc _ _ _ Hc)).
  rewrite (bind_ok _ _ _ _ _ (matter_fresh _ _ _ Hv Hfresh)).
  rewrite (bind_ok _ _ _ _ _ (readdir_folder (mkWorld _ _ _ _) _ Hwf Hne Hn)).
  rewrite Path.join_rel_clean by done.
  rewrite (bind_ok _ _ _ _ _ (load_metrics_run (mkWorld _ _ _ _) _ Hwf Hcl
            (folder_dir _ _ Hwf Hne Hn) Hnd)).
  cbn [w_fs w_heap w_cache w_console]. fold (dir_name f). unfold address_update in *.
  destruct (String.prefix "0x" (dir_name f)).
  - rewrite (bind_ok _ _ _ _ _ (set_prop_fresh (mkWorld _ _ _ _) _ v _ _ _
              ltac:(apply lookup_insert_eq) Hset)).
    unfold set_heap. cbn. by rewrite insert_insert_eq.
  - simplify_eq. reflexivity.
Qed.

Lemma doc_ok_inv t f :
  doc_ok t f = true ->
  exists c mv, doc_content t f = Some c /\ meta_value t f = Some mv /\ t !! metrics_path f <> Some Dir.
Proof.
  unfold doc_ok. destruct (meta_value t f) as [mv|] eqn:Em; [|discriminate].
  destruct (meta_value_inv _ _ _ Em) as (c & _ & Hc & _).
  intros Hok. exists c, mv. repeat split; [done..|].
  destruct (t !! metrics_path f) as [[]|]; congruence.
Qed.

(** The relation between an entry the loop pushed and its document,
    whose object in the index is to be [F f]. *)
Definition entry_of (h : heap) (F : Path.segs -> jsval) (e : entry) (f : Path.segs) : Prop :=
  e_path e = Path.render_rel f /\ entry_value h e = F f.

(** Sorting the pushed entries by path sorts their documents by path. *)
Lemma index_value_sorted h F es files :
  Forall2 (entry_of h F) es files ->
  index_value h (Sort.sort entry_cmp es) = JArray (map F (Sort.sort path_cmp files)).
Proof.
  intros Hrel. unfold index_value. f_equal.
  assert (Forall2 (entry_of h F) (Sort.sort entry_cmp es) (Sort.sort path_cmp files)) as Hs.
  { apply (sort_Forall2 entry_cmp path_cmp); [|done].
    intros e f e' f' [He _] [He' _]. unfold entry_cmp, path_cmp, cmp_on. by rewrite He, He'. }
  induction Hs as [|e f es' fs' [_ Hv] _ IH]; simpl; [done|]. by rewrite Hv, IH.
Qed.

Lemma write_index w s :
  w_fs w !! dd = Some Dir -> w_fs w !! idx <> Some Dir ->
  write_file_sync idx s w = (Ok tt, set_fs (<[idx := File s]> (w_fs w)) w).
Proof.
  intros Hdd Hidx. unfold write_file_sync, FS.write_file_sync.
  rewrite idx_eq in *. rewrite removelast_last, Hdd.
  destruct (w_fs w !! (dd ++ ["index.json"])) as [[]|]; [done|congruence|done].
Qed.

(** The run around a loop that returned: the lines of 37-58, the sort
    and write of lines 110-114, and the line of 116-118. *)
Lemma run_loop_ok w files es w3 s :
  w_fs w !! dd = Some Dir -> w_fs w !! idx <> Some Dir ->
  glob_walk (w_fs w) dd = files -> files <> [] ->
  for_push (process_file script_dir) [] files
    (add_line (Stdout ("Found " +:+ nat_to_string (length files) +:+ " files. Processing..."))
      (add_line (Stdout ("Searching for markdown files in: " +:+ Path.render_abs dd)) w))
    = (Ok es, w3) ->
  w_fs w3 = w_fs w ->
  Json.stringify (index_value (w_heap w3) (Sort.sort entry_cmp es)) = Some s ->
  run script_dir w =
    (add_line (Stdout ("Successfully generated delegates index file at: " +:+ Path.render_abs idx))
       (set_fs (<[idx := File s]> (w_fs w)) w3), 0).
Proof.
  intros Hdd Hidx Hglob Hne Hloop Hfs Hs.
  unfold run, generateDelegateIndex, body, catch.
  rewrite (bind_ok _ _ _ _ _ (exists_sync_run _ _)).
  unfold FS.exists_sync. rewrite Hdd. cbn [negb].
  rewrite (bind_ok _ _ _ _ _ (console_log_run _ _)).
  rewrite bind_unfold. cbn [gets]. change (w_fs (add_line ?l w)) with (w_fs w). rewrite Hglob.
  destruct files as [|f0 rest]; [done|].
  rewrite (bind_ok _ _ _ _ _ (console_log_run _ _)).
  rewrite (bind_ok _ _ _ _ _ Hloop).
  rewrite bind_unfold. cbn [get_world gets id].
  unfold write_json. rewrite Hs.
  rewrite (bind_ok _ _ _ _ _ (write_index w3 s ltac:(by rewrite Hfs) ltac:(by rewrite Hfs))).
  rewrite console_log_run. by rewrite Hfs.
Qed.

End Refinement.
End Refinement.

(** ** Examples *)
Module RefinementExamples.
#[local] Existing Instances toy_front_matter toy_json_parse code_unit_order.

Definition sample_dir : Path.segs := ["repo"; "scripts"].

Definition sample_tree : FS.tree :=
  list_to_map [([], Dir); (["repo"], Dir); (["repo"; "scripts"], Dir);
               (["repo"; "scripts"; "generate-delegates-index.ts"], File "script");
               (["repo"; "0xABC"], Dir); (["repo"; "0xABC"; "delegate.md"], File "Alice");
               (["repo"; "0xABC"; "metrics.json"], File "{}");
               (["repo"; "README.md"], File "readme");
               (["repo"; "b"], Dir); (["repo"; "b"; "doc.md"], File "Bob");
               (["repo"; "b"; "metrics.json"], File "oops");
               (["repo"; "a"], Dir); (["repo"; "a"; "doc.md"], File "Carol")].

Definition sample_world : world := mkWorld sample_tree ∅ ∅ [].

Definition sample_files : list Path.segs :=
  glob_walk sample_tree (Generator.delegateDirectory sample_dir).

End RefinementExamples.
