(* ===== verification/Loop.v ===== *)
(** * The loop under [gray-matter]'s cache

    The general case of lines 60-108, where documents may share a text.
    [Loop.cache_inv] is the invariant of the cache: no cached text names
    an [Object.prototype] property, every cached text parses, and its object is live and of the kind its parse gave (an
    object or array takes the [address], anything else throws). Under it,
    [Loop.process_file_ok] and [Loop.process_file_err] say exactly when
    the loop body returns, [Loop.loop_ok] and [Loop.loop_err] lift them to
    the loop, and the loop's entries for documents with one non-empty
    text point to one object. *)

From S2P Require Import Prelude JsValue Json Paths FileSystem Sort Glob Runtime FrontMatter Engines Generator Refinement.

Module Loop.
Import Generator Refinement.

Section Loop.
Context `{FrontMatterEngine} `{JsonParser} `{LocaleCompare} `{GlobWalk}.
Variable script_dir : Path.segs.
Hypothesis Hsd_clean : Path.clean script_dir = true.

Local Abbreviation dd := (delegateDirectory script_dir).

(** No cached content names an inherited property, every cached
    content parses, and its object is live and of the kind its parse
    gave. *)
Definition cache_inv (h : heap) (ca : gmap string loc) : Prop :=
  cache_own ca /\
  forall k l, ca !! k = Some l ->
    exists v0 v, fm_parse k = Some v0 /\ h !! l = Some v /\ js_settable v = js_settable v0.

(** A text whose cache entry, if any, is not taken misses the cache. *)
Lemma cache_inv_miss h ca c :
  cache_inv h ca -> (forall k, cache_key c = Some k -> ca !! k = None) -> cache_miss ca c.
Proof. intros [Hown _]. by apply cache_miss_intro. Qed.

(** What the loop guarantees of the entry it pushed for a document, in
    the heap [h] and cache [ca] of a later world. *)
Definition loop_entry (t : FS.tree) (h : heap) (ca : gmap string loc) (e : entry) (f : Path.segs)
  : Prop :=
  e_path e = Path.render_rel f /\ e_metrics e = metrics_value script_dir t f /\
  is_Some (h !! e_metadata e) /\
  forall k, doc_key script_dir t f = Some k -> ca !! k = Some (e_metadata e).

Lemma loop_entry_mono t h h' ca ca' e f :
  dom h ⊆ dom h' -> ca ⊆ ca' -> loop_entry t h ca e f -> loop_entry t h' ca' e f.
Proof.
  intros Hh Hc (Hp & Hmt & Hs & Hca). split; [done|]. split; [done|]. split.
  - apply elem_of_dom. apply elem_of_dom in Hs. set_solver.
  - intros k Hk. eapply lookup_weaken; [by apply Hca|done].
Qed.

Lemma cache_inv_empty h : cache_inv h ∅.
Proof. split; [apply cache_own_empty|]. intros c l. by rewrite lookup_empty. Qed.

(** Writing a value of the same kind into a live object keeps it. *)
Lemma cache_inv_set h ca l v v' :
  cache_inv h ca -> h !! l = Some v -> js_settable v' = js_settable v ->
  cache_inv (<[l := v']> h) ca.
Proof.
  intros [Hown Hinv] Hl Hk. split; [done|]. intros c l' Hc.
  destruct (Hinv c l' Hc) as (v0 & u & Hv0 & Hu & Hku).
  exists v0. destruct (decide (l = l')) as [<-|Hne].
  - exists v'. rewrite lookup_insert_eq. split; [done|]. split; [done|]. congruence.
  - exists u. by rewrite lookup_insert_ne.
Qed.

Lemma cache_inv_fresh h ca l c v0 :
  cache_inv h ca -> h !! l = None -> matter_value c = Some v0 ->
  cache_inv (<[l := v0]> h) (cache_insert (cache_key c) l ca).
Proof.
  intros [Hown Hinv] Hl Hv0. split; [by apply cache_own_insert|]. intros c' l' Hc'.
  assert (forall c'' l'', ca !! c'' = Some l'' ->
            exists v0' v, fm_parse c'' = Some v0' /\ <[l := v0]> h !! l'' = Some v /\
                          js_settable v = js_settable v0') as Hold.
  { intros c'' l'' Hc''. destruct (Hinv c'' l'' Hc'') as (v0' & u & ? & Hu & ?).
    exists v0', u. rewrite lookup_insert_ne; [done|]. intros ->. congruence. }
  destruct (cache_key c) as [k|] eqn:Hk; [|by apply Hold]. cbn in Hc'.
  rewrite (matter_value_key c k Hk) in Hv0.
  destruct (decide (k = c')) as [<-|Hne].
  - rewrite lookup_insert_eq in Hc'. injection Hc' as <-. exists v0, v0.
    by rewrite lookup_insert_eq.
  - rewrite lookup_insert_ne in Hc' by done. by apply Hold.
Qed.

(** A cache hit returns the cached object itself. *)
Lemma matter_cached c k w l :
  cache_key c = Some k -> w_cache w !! k = Some l -> matter c w = (Ok l, w).
Proof.
  intros [Hc _]%cache_key_content El. unfold matter. rewrite Hc.
  unfold_stm. cbn. unfold cache_get. by rewrite El.
Qed.

(** [matter] on a text that parses: a fresh object, or the one the
    cache holds for the text's key; either way an object of the parsed
    kind, with the file tree and console untouched. *)
Lemma matter_ok c w v0 :
  cache_inv (w_heap w) (w_cache w) -> matter_value c = Some v0 ->
  exists l w', matter c w = (Ok l, w') /\
    w' = mkWorld (w_fs w) (w_heap w') (w_cache w') (w_console w) /\
    cache_inv (w_heap w') (w_cache w') /\ w_cache w ⊆ w_cache w' /\ w_heap w ⊆ w_heap w' /\
    (forall k, cache_key c = Some k -> w_cache w' !! k = Some l) /\
    exists v, w_heap w' !! l = Some v /\ js_settable v = js_settable v0.
Proof.
  intros Hinv Hv0.
  destruct (cache_key c) as [k|] eqn:Hk; [destruct (w_cache w !! k) as [l|] eqn:El|].
  1: { destruct (proj2 Hinv k l El) as (v0' & v & Hv0' & Hv & Hkind).
       rewrite (matter_value_key c k Hk) in Hv0. simplify_eq.
       exists l, w. split; [by apply (matter_cached c k)|]. split; [by destruct w|].
       do 3 (split; [done|]). split; [by intros k' [= <-]|eauto]. }
  all: assert (Hfresh : cache_miss (w_cache w) c)
         by (apply (cache_inv_miss _ _ _ Hinv); intros k' Hk'; congruence).
  all: rewrite (matter_fresh c w v0 Hv0 Hfresh); pose proof (heap_fresh_None (w_heap w)) as Hl.
  all: eexists _, _; split; [reflexivity|]; cbn [w_fs w_heap w_cache w_console].
  all: split; [done|]; split; [by apply cache_inv_fresh|].
  all: split; [|split; [by apply insert_subseteq|split]]; rewrite ?Hk; cbn [cache_insert].
  all: try (exists v0; by rewrite lookup_insert_eq).
  - by apply insert_subseteq.
  - intros k' [= <-]. apply lookup_insert_eq.
  - done.
  - done.
Qed.

Lemma dom_insert_mono (h h' : heap) l v :
  h ⊆ h' -> dom h ⊆ dom (<[l := v]> h').
Proof. intros Hs. rewrite dom_insert_L. apply subseteq_dom in Hs. set_solver. Qed.

(** The loop body on a document it can process: an entry for the
    document whose metadata is the object [matter] returned, which the
    cache holds for the document's text when it is not empty. *)
Lemma process_file_ok w f :
  cache_inv (w_heap w) (w_cache w) -> FS.wf (w_fs w) ->
  Glob.matches (w_fs w) dd f = true -> doc_ok script_dir (w_fs w) f = true ->
  exists e w', process_file script_dir f w = (Ok e, w') /\
    w_fs w' = w_fs w /\ cache_inv (w_heap w') (w_cache w') /\
    w_cache w ⊆ w_cache w' /\ dom (w_heap w) ⊆ dom (w_heap w') /\
    loop_entry (w_fs w) (w_heap w') (w_cache w') e f /\
    w_console w' = w_console w ++ metrics_log script_dir (w_fs w) f.
Proof.
  intros Hinv Hwf Hm Hok.
  destruct (matched_facts script_dir _ _ Hwf Hm) as (Hne & Hcl & Hn).
  destruct (doc_ok_inv script_dir _ _ Hok) as (c & mv & Hc & Hmv & Hnd).
  destruct (meta_value_inv script_dir _ _ _ Hmv) as (c' & v0 & Hc' & Hv0 & Hset). simplify_eq.
  destruct (matter_ok c w v0 Hinv Hv0)
    as (l & [t1 h1 ca1 co1] & Hmat & Hw1 & Hinv1 & Hcsub & Hhsub & Hcl1 & v & Hlv & Hkind).
  cbn [w_fs w_heap w_cache w_console] in *. injection Hw1 as -> ->.
  unfold process_file. cbv zeta.
  rewrite Path.join_abs_clean by (done || apply (dd_clean script_dir Hsd_clean)).
  rewrite (dirname_folder script_dir f Hne).
  rewrite (bind_ok _ _ _ _ _ (read_doc script_dir _ _ _ Hc)).
  rewrite (bind_ok _ _ _ _ _ Hmat).
  rewrite (bind_ok _ _ _ _ _ (readdir_folder script_dir (mkWorld _ _ _ _) _ Hwf Hne Hn)).
  rewrite Path.join_rel_clean by done.
  rewrite (bind_ok _ _ _ _ _ (load_metrics_run script_dir Hsd_clean (mkWorld _ _ _ _) _ Hwf Hcl
            (folder_dir script_dir _ _ Hwf Hne Hn) Hnd)).
  cbn [w_fs w_heap w_cache w_console]. fold (dir_name f). unfold address_update in *.
  destruct (String.prefix "0x" (dir_name f)).
  - assert (js_settable v = true) as Hsv.
    { rewrite Hkind. apply (js_set_prop_Some _ "address" (JString (dir_name f))). by rewrite Hset. }
    apply (js_set_prop_Some _ "address" (JString (dir_name f))) in Hsv as [v' Hv'].
    rewrite (bind_ok _ _ _ _ _ (set_prop_fresh (mkWorld _ _ _ _) _ v _ _ _ Hlv Hv')).
    eexists _, _. split; [reflexivity|]. cbn.
    split; [done|]. split; [apply (cache_inv_set _ _ _ v); [done..|by eapply js_set_prop_kind]|].
    split; [done|]. split; [by apply dom_insert_mono|]. split; [|done]. unfold loop_entry. cbn.
    do 2 (split; [done|]). split; [by rewrite lookup_insert_eq|].
    intros k Hk. unfold doc_key in Hk. rewrite Hc in Hk. by apply Hcl1.
  - eexists _, _. split; [reflexivity|]. cbn.
    do 3 (split; [done|]). split; [by apply subseteq_dom|]. split; [|done]. unfold loop_entry. cbn.
    do 2 (split; [done|]). split; [by rewrite Hlv|].
    intros k Hk. unfold doc_key in Hk. rewrite Hc in Hk. by apply Hcl1.
Qed.

(** The loop body on a document whose text hits the cache: it updates
    the cached object [u] in place. *)
Lemma process_file_cached w f c k l u u' :
  FS.wf (w_fs w) -> Glob.matches (w_fs w) dd f = true ->
  doc_content script_dir (w_fs w) f = Some c -> cache_key c = Some k -> w_cache w !! k = Some l ->
  w_heap w !! l = Some u -> address_update f u = Some u' ->
  w_fs w !! metrics_path script_dir f <> Some Dir ->
  process_file script_dir f w =
    (Ok (mkEntry (Path.render_rel f) l (metrics_value script_dir (w_fs w) f)),
     mkWorld (w_fs w) (<[l := u']> (w_heap w)) (w_cache w)
             (w_console w ++ metrics_log script_dir (w_fs w) f)).
Proof.
  intros Hwf Hm Hc Hne Hl Hu Hset Hnd.
  destruct (matched_facts script_dir _ _ Hwf Hm) as (Hfne & Hcl & Hn).
  unfold process_file. cbv zeta.
  rewrite Path.join_abs_clean by (done || apply (dd_clean script_dir Hsd_clean)).
  rewrite (dirname_folder script_dir f Hfne).
  rewrite (bind_ok _ _ _ _ _ (read_doc script_dir _ _ _ Hc)).
  rewrite (bind_ok _ _ _ _ _ (matter_cached c k w l Hne Hl)).
  rewrite (bind_ok _ _ _ _ _ (readdir_folder script_dir _ _ Hwf Hfne Hn)).
  rewrite Path.join_rel_clean by done.
  rewrite (bind_ok _ _ _ _ _ (load_metrics_run script_dir Hsd_clean _ _ Hwf Hcl
            (folder_dir script_dir _ _ Hwf Hfne Hn) Hnd)).
  fold (dir_name f). unfold address_update in Hset.
  destruct (String.prefix "0x" (dir_name f)).
  - rewrite (bind_ok _ _ _ _ _ (set_prop_fresh (mkWorld _ _ _ _) _ u _ _ _ Hu Hset)). done.
  - simplify_eq. by rewrite insert_id.
Qed.

(** A text that does not parse is not in the cache, so [matter] parses
    it and throws. *)
Lemma matter_err c w :
  cache_inv (w_heap w) (w_cache w) -> matter_value c = None ->
  exists e w', matter c w = (Throw e, w') /\ w_fs w' = w_fs w.
Proof.
  intros [_ Hinv] Hv. unfold matter_value in Hv. unfold matter.
  destruct (file_content c) as [k|]; [|done].
  destruct (inherited k) eqn:Hi; [done|].
  unfold_stm. cbn. unfold cache_get. rewrite Hi.
  destruct (w_cache w !! k) as [l|] eqn:El.
  - destruct (Hinv k l El) as (v0 & _ & Hv0 & _). congruence.
  - unfold_stm. cbn. rewrite Hv. by eexists _, _.
Qed.

(** A directory named [metrics.json] makes [readFileSync] throw at line 71. *)
Lemma load_metrics_dir w f :
  Path.clean f = true -> w_fs w !! metrics_path script_dir f = Some Dir ->
  exists e, load_metrics (folder script_dir f) (FS.children (w_fs w) (folder script_dir f))
                         (Path.render_rel f) w = (Throw e, w).
Proof.
  intros Hcl Hd. unfold load_metrics.
  assert (existsb (String.eqb metricsFileName) (FS.children (w_fs w) (folder script_dir f)) = true)
    as ->.
  { apply existsb_string_eqb_In, list_elem_of_In, FS.elem_of_children.
    fold (metrics_path script_dir f). by rewrite Hd. }
  rewrite Path.join_abs_clean by (done || by apply folder_clean).
  fold (metrics_path script_dir f).
  rewrite bind_unfold, read_file_sync_run. unfold FS.read_file_sync. rewrite Hd. by eexists.
Qed.

(** The loop body throws on a document it cannot process, and leaves the
    file tree as it was. *)
Lemma process_file_err w f :
  cache_inv (w_heap w) (w_cache w) -> FS.wf (w_fs w) ->
  Glob.matches (w_fs w) dd f = true -> doc_ok script_dir (w_fs w) f = false ->
  exists e w', process_file script_dir f w = (Throw e, w') /\ w_fs w' = w_fs w.
Proof.
  intros Hinv Hwf Hm Hbad.
  destruct (matched_facts script_dir _ _ Hwf Hm) as (Hne & Hcl & Hn).
  unfold process_file. cbv zeta.
  rewrite Path.join_abs_clean by (done || apply (dd_clean script_dir Hsd_clean)).
  rewrite (dirname_folder script_dir f Hne).
  destruct (doc_content script_dir (w_fs w) f) as [c|] eqn:Hc.
  2:{ rewrite bind_unfold, read_file_sync_run. unfold doc_content in Hc. unfold FS.read_file_sync.
      destruct (w_fs w !! (dd ++ f)) as [[]|]; simplify_eq; by eexists _, _. }
  rewrite (bind_ok _ _ _ _ _ (read_doc script_dir _ _ _ Hc)).
  destruct (matter_value c) as [v0|] eqn:Hv0.
  2:{ destruct (matter_err c w Hinv Hv0) as (e & w1 & Hmat & Hfs).
      rewrite (bind_throw _ _ _ _ _ Hmat). by eexists _, _. }
  destruct (matter_ok c w v0 Hinv Hv0)
    as (l & [t1 h1 ca1 co1] & Hmat & Hw1 & _ & _ & _ & _ & v & Hlv & Hkind).
  cbn [w_fs w_heap w_cache w_console] in *. injection Hw1 as -> ->.
  rewrite (bind_ok _ _ _ _ _ Hmat).
  rewrite (bind_ok _ _ _ _ _ (readdir_folder script_dir (mkWorld _ _ _ _) _ Hwf Hne Hn)).
  rewrite Path.join_rel_clean by done.
  destruct (decide (w_fs w !! metrics_path script_dir f = Some Dir)) as [Hd|Hnd].
  { destruct (load_metrics_dir (mkWorld (w_fs w) h1 ca1 (w_console w)) f Hcl Hd) as [e He].
    rewrite (bind_throw _ _ _ _ _ He). by eexists _, _. }
  rewrite (bind_ok _ _ _ _ _ (load_metrics_run script_dir Hsd_clean (mkWorld _ _ _ _) _ Hwf Hcl
            (folder_dir script_dir _ _ Hwf Hne Hn) Hnd)).
  cbn [w_fs w_heap w_cache w_console]. fold (dir_name f).
  unfold doc_ok, meta_value, address_update in Hbad. rewrite Hc in Hbad. cbn [mbind option_bind] in Hbad.
  rewrite Hv0 in Hbad. cbn [mbind option_bind] in Hbad. fold (dir_name f) in Hbad.
  destruct (String.prefix "0x" (dir_name f)).
  - destruct (js_set_prop v0 "address" (JString (dir_name f))) eqn:Hs0.
    { destruct (w_fs w !! metrics_path script_dir f) as [[]|]; done. }
    assert (js_set_prop v "address" (JString (dir_name f)) = None) as Hs.
    { destruct (js_set_prop v _ _) eqn:Hs; [|done]. exfalso.
      assert (js_settable v0 = true) as Hk0.
      { rewrite <- Hkind. apply (js_set_prop_Some v "address" (JString (dir_name f))). by rewrite Hs. }
      apply (js_set_prop_Some _ "address" (JString (dir_name f))) in Hk0 as [? ?]. congruence. }
    rewrite bind_unfold, (set_prop_run _ _ _ (mkWorld _ h1 _ _) v Hlv), Hs. by eexists _, _.
  - destruct (w_fs w !! metrics_path script_dir f) as [[]|]; done.
Qed.

(** The loop of lines 60-108 over documents it can all process: one
    entry per document, in order. *)
Lemma loop_ok files : forall acc w,
  cache_inv (w_heap w) (w_cache w) -> FS.wf (w_fs w) ->
  (forall f, f ∈ files -> Glob.matches (w_fs w) dd f = true /\ doc_ok script_dir (w_fs w) f = true) ->
  exists es w', for_push (process_file script_dir) acc files w = (Ok (acc ++ es), w') /\
    w_fs w' = w_fs w /\ cache_inv (w_heap w') (w_cache w') /\
    w_cache w ⊆ w_cache w' /\ dom (w_heap w) ⊆ dom (w_heap w') /\
    Forall2 (loop_entry (w_fs w) (w_heap w') (w_cache w')) es files /\
    w_console w' = w_console w ++ concat (map (metrics_log script_dir (w_fs w)) files).
Proof.
  induction files as [|f files IH]; intros acc w Hinv Hwf Hok.
  { exists [], w. rewrite !app_nil_r. split_and!; done. }
  destruct (Hok f ltac:(set_solver)) as [Hm Hdok].
  destruct (process_file_ok w f Hinv Hwf Hm Hdok)
    as (e & w1 & Hstep & Hfs1 & Hinv1 & Hc1 & Hd1 & He & Hcon1).
  destruct (IH (acc ++ [e]) w1 Hinv1 ltac:(by rewrite Hfs1))
    as (es & w' & Hrun & Hfs' & Hinv' & Hc' & Hd' & Hrel & Hcon).
  { intros g Hg. rewrite Hfs1. apply Hok. set_solver. }
  exists (e :: es), w'. rewrite Hfs1 in Hrel, Hcon.
  split; [simpl; rewrite (bind_ok _ _ _ _ _ Hstep), Hrun; by rewrite <- app_assoc|].
  split; [congruence|]. split; [done|]. split; [by etrans|]. split; [by etrans|].
  split; [constructor; [by eapply loop_entry_mono|done]|].
  rewrite Hcon, Hcon1. simpl. by rewrite app_assoc.
Qed.

(** The loop stops with an exception at a document it cannot process,
    with the file tree as it was. *)
Lemma loop_err files : forall acc w,
  cache_inv (w_heap w) (w_cache w) -> FS.wf (w_fs w) ->
  (forall f, f ∈ files -> Glob.matches (w_fs w) dd f = true) ->
  (exists f, f ∈ files /\ doc_ok script_dir (w_fs w) f = false) ->
  exists e w', for_push (process_file script_dir) acc files w = (Throw e, w') /\ w_fs w' = w_fs w.
Proof.
  induction files as [|f files IH]; intros acc w Hinv Hwf Hm (g & Hg & Hbad).
  { set_solver. }
  destruct (doc_ok script_dir (w_fs w) f) eqn:Hf.
  - destruct (process_file_ok w f Hinv Hwf ltac:(apply Hm; set_solver) Hf)
      as (e & w1 & Hstep & Hfs1 & Hinv1 & _).
    destruct (IH (acc ++ [e]) w1 Hinv1) as (e' & w' & Hrun & Hfs');
      rewrite ?Hfs1; [done|intros f' ?; apply Hm; set_solver| |].
    + exists g. split; [|done]. apply elem_of_cons in Hg as [->|]; [congruence|done].
    + exists e', w'. split; [|congruence]. simpl. by rewrite (bind_ok _ _ _ _ _ Hstep).
  - destruct (process_file_err w f Hinv Hwf ltac:(apply Hm; set_solver) Hf) as (e & w1 & Hstep & Hfs).
    exists e, w1. simpl. by rewrite (bind_throw _ _ _ _ _ Hstep).
Qed.

Context `{!GlobWalkSpec}.

(** The run when some document cannot be processed. *)
Lemma run_fails_doc w :
  FS.wf (w_fs w) -> w_cache w = ∅ -> FS.exists_sync (w_fs w) dd = true ->
  (exists f, f ∈ glob_walk (w_fs w) dd /\ doc_ok script_dir (w_fs w) f = false) ->
  exists e w', run script_dir w = (w', 1) /\ w_fs w' = w_fs w /\
    exists lines, w_console w' = lines ++ [StderrWith "Error generating delegates index:" e].
Proof.
  intros Hwf Hcache Hex Hbad.
  destruct (glob_walk_spec (w_fs w) dd) as [_ Hmatch].
  unfold run, generateDelegateIndex, body, catch.
  rewrite (bind_ok _ _ _ _ _ (exists_sync_run _ _)), Hex. cbn [negb].
  rewrite (bind_ok _ _ _ _ _ (console_log_run _ _)).
  rewrite bind_unfold. cbn [gets]. change (w_fs (add_line ?l w)) with (w_fs w).
  destruct (glob_walk (w_fs w) dd) as [|f0 rest] eqn:Ef.
  { destruct Hbad as (g & Hg & _). set_solver. }
  rewrite (bind_ok _ _ _ _ _ (console_log_run _ _)).
  rewrite bind_unfold.
  match goal with |- context [for_push (process_file script_dir) [] (f0 :: rest) ?w2] =>
    destruct (loop_err (f0 :: rest) [] w2) as (e & w' & Hloop & Hfs);
    [cbn; rewrite Hcache; apply cache_inv_empty|done|intros f Hf; by apply Hmatch|done|] end.
  rewrite Hloop. cbn.
  eexists _, _. split; [reflexivity|]. split; [exact Hfs|]. by eexists.
Qed.

(** C4: when a document found by the glob cannot be processed (it is
    a directory, its front matter does not parse, the address cannot be
    set on its metadata, or a directory is named [metrics.json] beside
    it), the process exits with status 1, leaves the file tree as it was,
    and the last console line is the error of line 120. *)
Theorem run_fails w :
  FS.wf (w_fs w) -> w_cache w = ∅ -> FS.exists_sync (w_fs w) dd = true ->
  (exists f, f ∈ glob_walk (w_fs w) dd /\ doc_ok script_dir (w_fs w) f = false) ->
  exists e w', run script_dir w = (w', 1) /\ w_fs w' = w_fs w /\
    exists lines, w_console w' = lines ++ [StderrWith "Error generating delegates index:" e].
Proof. exact (run_fails_doc w). Qed.

End Loop.
End Loop.

(** ** Examples *)
Module LoopExamples.
Import RefinementExamples.
#[local] Existing Instances toy_front_matter toy_json_parse code_unit_order.

(** A delegate whose front matter does not parse. *)
Definition broken_world : world :=
  mkWorld (list_to_map [([], Dir); (["repo"], Dir); (["repo"; "scripts"], Dir);
                        (["repo"; "0xA"], Dir); (["repo"; "0xA"; "delegate.md"], File "Alice");
                        (["repo"; "x"], Dir); (["repo"; "x"; "doc.md"], File "!broken")])
          ∅ ∅ [].

Lemma run_fails_witness :
  exists e w', Generator.run sample_dir broken_world = (w', 1) /\ w_fs w' = w_fs broken_world /\
    exists lines, w_console w' = lines ++ [StderrWith "Error generating delegates index:" e].
Proof.
  apply (Loop.run_fails sample_dir eq_refl broken_world).
  - apply FS.wfb_wf. vm_compute. reflexivity.
  - reflexivity.
  - vm_compute. reflexivity.
  - exists ["x"; "doc.md"]. split.
    + apply (bool_decide_eq_true_1 (_ ∈ glob_walk _ _)). vm_compute. reflexivity.
    + vm_compute. reflexivity.
Defined.
End LoopExamples.
