(* ===== verification/LoopSteps.v ===== *)
(** * The [for] loop of lines 59-108 as a small-step relation

    [Prelude.for_push] runs the loop in one go. Here the loop is a
    transition system: a state is the documents still to read, the
    entries pushed so far and the world, or the exception a body threw;
    one step reads one document, and is labelled by it. [LoopSteps.lstep]
    is the executable step, [LoopSteps.loop_step] the relation, and
    [LoopSteps.lsteps] a run with the documents it read. The generic part
    shows that the step is deterministic and executable, that every state
    reaches a final one within as many steps as documents are left, and
    that the final state reached is the outcome of [for_push]. The
    section [Script] applies it to the script's body [process_file]:
    every document the glob returns is read, in the glob's order, until
    the first one the body cannot process. *)

From S2P Require Import Prelude JsValue Json Paths FileSystem Sort Glob Runtime FrontMatter Engines Generator Refinement Loop.

Module LoopSteps.

Section Steps.
Context {St Ex A B : Type} (body : A -> stm St Ex B).

Inductive lstate : Type :=
  | Running (rest : list A) (acc : list B) (s : St)
  | Failed (e : Ex) (s : St).

Definition terminal (st : lstate) : bool :=
  match st with Running [] _ _ | Failed _ _ => true | Running (_ :: _) _ _ => false end.

(** One iteration: the body runs on the next element; its result is
    pushed, or its exception leaves the loop. *)
Inductive loop_step : lstate -> A -> lstate -> Prop :=
  | step_push x rest acc s y s' :
      body x s = (Ok y, s') -> loop_step (Running (x :: rest) acc s) x (Running rest (acc ++ [y]) s')
  | step_throw x rest acc s e s' :
      body x s = (Throw e, s') -> loop_step (Running (x :: rest) acc s) x (Failed e s').

Definition lstep (st : lstate) : option (A * lstate) :=
  match st with
  | Running (x :: rest) acc s =>
      Some (x, match body x s with
               | (Ok y, s') => Running rest (acc ++ [y]) s'
               | (Throw e, s') => Failed e s'
               end)
  | _ => None
  end.

(** A run of the loop, with the elements it read. *)
Inductive lsteps : lstate -> list A -> lstate -> Prop :=
  | lsteps_nil st : lsteps st [] st
  | lsteps_cons st x st1 xs st2 :
      loop_step st x st1 -> lsteps st1 xs st2 -> lsteps st (x :: xs) st2.

(** At most [n] steps, stopping at a final state. *)
Fixpoint exec (n : nat) (st : lstate) : list A * lstate :=
  match n with
  | 0 => ([], st)
  | S n' =>
      match lstep st with
      | Some (x, st') => let '(xs, st'') := exec n' st' in (x :: xs, st'')
      | None => ([], st)
      end
  end.

(** Where [for_push] leaves the loop. *)
Definition final_state (r : outcome Ex (list B)) (s : St) : lstate :=
  match r with Ok bs => Running [] bs s | Throw e => Failed e s end.

Lemma lstep_spec st x st' : loop_step st x st' <-> lstep st = Some (x, st').
Proof.
  split.
  - intros []; simpl; by match goal with H : body _ _ = _ |- _ => rewrite H end.
  - destruct st as [[|y rest] acc s|e s]; simpl; [done| |done].
    intros [= <- <-]. destruct (body y s) as [[b|e] s'] eqn:Hb; by constructor.
Qed.

Lemma loop_step_det st x1 x2 st1 st2 :
  loop_step st x1 st1 -> loop_step st x2 st2 -> x1 = x2 /\ st1 = st2.
Proof. rewrite !lstep_spec. intros H1 H2. rewrite H1 in H2. by injection H2. Qed.

Lemma terminal_stuck st : terminal st = true <-> lstep st = None.
Proof. by destruct st as [[|x rest] acc s|e s]. Qed.

Lemma lsteps_app st1 xs st2 ys st3 :
  lsteps st1 xs st2 -> lsteps st2 ys st3 -> lsteps st1 (xs ++ ys) st3.
Proof. induction 1; simpl; [done|]. intros H3. econstructor; eauto. Qed.

(** The small steps end where [for_push] ends, after reading the
    elements up to the one that threw, or all of them. *)
Lemma lsteps_for_push xs : forall acc s,
  exists read, lsteps (Running xs acc s) read (uncurry final_state (for_push body acc xs s)) /\
    read `prefix_of` xs /\ (read = xs \/ exists e s', for_push body acc xs s = (Throw e, s')).
Proof.
  induction xs as [|x xs IH]; intros acc s; simpl.
  - exists []. split; [constructor|]. split; [apply prefix_nil|by left].
  - rewrite bind_unfold. destruct (body x s) as [[y|e] s1] eqn:Hb.
    + destruct (IH (acc ++ [y]) s1) as (read & Hr & Hp & Hall).
      exists (x :: read). split; [econstructor; [by constructor|done]|].
      split; [by apply prefix_cons|]. destruct Hall as [->|?]; [by left|by right].
    + exists [x]. split; [econstructor; [by constructor|constructor]|].
      split; [apply prefix_cons, prefix_nil|]. right. by eexists _, _.
Qed.

(** Runs are deterministic: a run to a final state is the only one. *)
Lemma lsteps_final_unique st xs1 xs2 st1 st2 :
  lsteps st xs1 st1 -> lsteps st xs2 st2 -> terminal st1 = true -> terminal st2 = true ->
  xs1 = xs2 /\ st1 = st2.
Proof.
  intros H1. revert xs2 st2. induction H1 as [st|st x st' xs st'' Hs Hr IH]; intros xs2 st2 H2 T1 T2.
  - inversion H2 as [|? y st3 ? ? Hs2]; [done|]. apply terminal_stuck in T1.
    apply lstep_spec in Hs2. congruence.
  - inversion H2 as [st0 Heq Hx Heq'|? y st3 ys ? Hs2 Hr2]; subst.
    + apply terminal_stuck in T2. apply lstep_spec in Hs. congruence.
    + destruct (loop_step_det _ _ _ _ _ Hs Hs2) as [<- <-].
      destruct (IH _ _ Hr2 T1 T2) as [<- <-]. done.
Qed.

Lemma exec_lsteps n st : lsteps st (exec n st).1 (exec n st).2.
Proof.
  revert st. induction n as [|n IH]; intros st; simpl; [constructor|].
  destruct (lstep st) as [[x st']|] eqn:Hs; [|constructor].
  specialize (IH st'). destruct (exec n st') as [xs st'']. simpl in *.
  econstructor; [by apply lstep_spec|done].
Qed.

(** The executable loop stops within as many steps as there are
    elements, in the state [for_push] leaves. *)
Lemma exec_for_push xs : forall acc s,
  (exec (length xs) (Running xs acc s)).2 = uncurry final_state (for_push body acc xs s).
Proof.
  induction xs as [|x xs IH]; intros acc s; [done|]. simpl. rewrite bind_unfold.
  destruct (body x s) as [[y|e] s1]; simpl.
  - specialize (IH (acc ++ [y]) s1). destruct (exec (length xs) _) as [r st]. done.
  - destruct xs; [done|]. simpl. done.
Qed.

Lemma final_state_terminal (p : outcome Ex (list B) * St) : terminal (uncurry final_state p) = true.
Proof. by destruct p as [[] ?]. Qed.

End Steps.

Arguments Running {St Ex A B}.
Arguments Failed {St Ex A B}.

(** ** The script's loop *)
Section Script.
Import Generator Refinement Loop.
Context `{FrontMatterEngine} `{JsonParser}.
Variable script_dir : Path.segs.
Hypothesis Hsd_clean : Path.clean script_dir = true.

Local Abbreviation dd := (delegateDirectory script_dir).
Local Abbreviation ok t := (fun g => doc_ok script_dir t g = true).

(** The two ways the loop of lines 59-108 ends, from any point of it:
    every document read in order, or the documents up to the first one
    the body cannot process. *)
Definition loop_ends (t : FS.tree) (files : list Path.segs) (acc : list entry)
    (read : list Path.segs) (st : @lstate world exn Path.segs entry) : Prop :=
  (Forall (ok t) files /\ read = files /\
   exists es w', st = Running [] (acc ++ es) w' /\ map e_path es = map Path.render_rel files)
  \/ (exists pre f post e w', files = pre ++ f :: post /\ read = pre ++ [f] /\
        Forall (ok t) pre /\ doc_ok script_dir t f = false /\ st = Failed e w' /\ w_fs w' = t).

Lemma loop_ends_cons_ok t f files acc e read st :
  doc_ok script_dir t f = true -> e_path e = Path.render_rel f ->
  loop_ends t files (acc ++ [e]) read st -> loop_ends t (f :: files) acc (f :: read) st.
Proof.
  intros Hf He [(Hall & -> & es & w' & -> & Hes)|(pre & g & post & ex & w' & -> & -> & Hpre & Hg & -> & Hw)].
  - left. split; [by constructor|]. split; [done|]. exists (e :: es), w'.
    rewrite <- app_assoc. simpl. by rewrite He, Hes.
  - right. exists (f :: pre), g, post, ex, w'. split_and!; [done|done|by constructor|done|done|done].
Qed.

Lemma script_lsteps files : forall acc w,
  cache_inv (w_heap w) (w_cache w) -> FS.wf (w_fs w) ->
  (forall f, f ∈ files -> Glob.matches (w_fs w) dd f = true) ->
  exists read st, lsteps (process_file script_dir) (Running files acc w) read st /\
    terminal st = true /\ loop_ends (w_fs w) files acc read st.
Proof.
  induction files as [|f files IH]; intros acc w Hinv Hwf Hm.
  { exists [], (Running [] acc w). split; [constructor|]. split; [done|].
    left. split; [done|]. split; [done|]. exists [], w. by rewrite app_nil_r. }
  destruct (doc_ok script_dir (w_fs w) f) eqn:Hf.
  - destruct (process_file_ok script_dir Hsd_clean w f Hinv Hwf ltac:(apply Hm; set_solver) Hf)
      as (e & w1 & Hstep & Hfs1 & Hinv1 & _ & _ & (Hp & _) & _).
    destruct (IH (acc ++ [e]) w1 Hinv1 ltac:(by rewrite Hfs1)) as (read & st & Hr & Ht & Hend).
    { intros g Hg. rewrite Hfs1. apply Hm. set_solver. }
    exists (f :: read), st. split; [econstructor; [by constructor|done]|]. split; [done|].
    rewrite Hfs1 in Hend. by eapply loop_ends_cons_ok.
  - destruct (process_file_err script_dir Hsd_clean w f Hinv Hwf ltac:(apply Hm; set_solver) Hf)
      as (ex & w1 & Hstep & Hfs1).
    exists [f], (Failed ex w1). split; [econstructor; [by constructor|constructor]|]. split; [done|].
    right. exists [], f, files, ex, w1. split_and!; done.
Qed.

Section Run.
Context `{GlobWalk} `{!GlobWalkSpec}.
Local Abbreviation files w := (glob_walk (w_fs w) dd).

(** C21: the loop of lines 59-108, started with an empty [gray-matter]
    cache on the documents the glob returned, always reaches a final
    state, in the state [for_push] leaves, reading one document per step
    in the glob's order: every document, with one entry per document in
    that order, or the documents up to and including the first one that
    cannot be processed, whose exception ends the loop with the file tree
    untouched. *)
Theorem loop_reads_every_document w :
  FS.wf (w_fs w) -> w_cache w = ∅ ->
  exists read st, lsteps (process_file script_dir) (Running (files w) [] w) read st /\
    terminal st = true /\
    st = uncurry final_state (for_push (process_file script_dir) [] (files w) w) /\
    loop_ends (w_fs w) (files w) [] read st.
Proof.
  intros Hwf Hc.
  assert (Hinv : cache_inv (w_heap w) (w_cache w)) by (rewrite Hc; apply cache_inv_empty).
  destruct (script_lsteps (files w) [] w Hinv Hwf) as (read & st & Hr & Ht & Hend).
  { intros f Hf. by apply (glob_walk_spec (w_fs w) dd). }
  exists read, st. split_and!; [done|done| |done].
  destruct (lsteps_for_push (process_file script_dir) (files w) [] w) as (read' & Hr' & _).
  by destruct (lsteps_final_unique _ _ _ _ _ _ Hr Hr' Ht (final_state_terminal _)).
Qed.

End Run.
End Script.

End LoopSteps.

(** ** Examples *)
Module LoopStepsExamples.
Import LoopSteps RefinementExamples.
#[local] Existing Instances toy_front_matter toy_json_parse.

(** The executable loop on the sample repository reads its three
    documents in the walk's order and stops. *)
Example sample_loop_reads_all :
  let r := exec (Generator.process_file sample_dir) 3 (Running sample_files [] sample_world) in
  r.1 = sample_files /\ terminal r.2 = true.
Proof. vm_compute. split; reflexivity. Qed.

Lemma loop_reads_every_document_witness :
  exists read st,
    lsteps (Generator.process_file sample_dir) (Running sample_files [] sample_world) read st /\
    terminal st = true /\
    st = uncurry final_state
           (for_push (Generator.process_file sample_dir) [] sample_files sample_world) /\
    loop_ends sample_dir (w_fs sample_world) sample_files [] read st.
Proof.
  apply (loop_reads_every_document sample_dir eq_refl sample_world).
  - apply FS.wfb_wf. vm_compute. reflexivity.
  - reflexivity.
Defined.
End LoopStepsExamples.
