(* ===== verification/Aliasing.v ===== *)
(** * What the run writes when documents share a text

    [gray-matter] returns the cached [data] object for a content it has
    seen (lines 63-64), and line 100 writes the [address] into that
    object. The cache key is the text without a leading byte-order mark
    ([cache_key]; a text named like an [Object.prototype] property has
    none), so every document whose text has the key [k]
    gets the same object: the parse of [k] with line 100 applied for each
    of those documents in the order the loop meets them
    ([Aliasing.shared_meta]); the last [0x] folder wins. [Aliasing.final_index] is the index with that metadata,
    and [Aliasing.run_exact] shows that the run writes exactly it for
    every tree whose documents can all be processed, with no side
    condition on shared texts. The loop invariant [run_inv] records the
    value of each cached object after the documents processed so far. *)

From S2P Require Import Prelude JsValue Json Paths FileSystem Sort Glob Runtime FrontMatter Engines Generator Refinement Loop.

Module Aliasing.
Import Generator Refinement Loop.

Section Aliasing.
Context `{FrontMatterEngine} `{JsonParser} `{LocaleCompare} `{GlobWalk}.
Variable script_dir : Path.segs.
Hypothesis Hsd_clean : Path.clean script_dir = true.

Local Abbreviation dd := (delegateDirectory script_dir).
Local Abbreviation idx := (indexFilePath script_dir).

(** ** The specification *)

(** Line 100 of document [f] on the shared object of the cache entry [k]. *)
Definition addr_step (t : FS.tree) (k : string) (v : jsval) (f : Path.segs) : jsval :=
  if bool_decide (doc_key script_dir t f = Some k) then default v (address_update f v) else v.

(** The object all documents of the cache entry [k] share. *)
Definition shared_meta (t : FS.tree) (files : list Path.segs) (k : string) : option jsval :=
  v0 ← fm_parse k; Some (fold_left (addr_step t k) files v0).

(** The metadata of [f] once the loop is over: its own object for an
    empty text, the shared one of its cache entry otherwise. *)
Definition final_meta (t : FS.tree) (files : list Path.segs) (f : Path.segs) : option jsval :=
  c ← doc_content script_dir t f;
  match cache_key c with None => meta_value script_dir t f | Some k => shared_meta t files k end.

Definition final_entry (t : FS.tree) (files : list Path.segs) (f : Path.segs) : jsval :=
  JObject [("path", JString (Path.render_rel f));
           ("metadata", default JUndefined (final_meta t files f));
           ("metrics", default JUndefined (metrics_value script_dir t f))].

Definition final_index (t : FS.tree) (files : list Path.segs) : jsval :=
  JArray (map (final_entry t files) (Sort.sort path_cmp files)).

(** ** The loop invariant *)

(** Each cached object holds the parse of its content with line 100 of
    the documents processed so far ([pre]) applied. *)
Definition cache_ok (t : FS.tree) (pre : list Path.segs) (h : heap) (ca : gmap string loc) : Prop :=
  forall k l, ca !! k = Some l ->
    exists v0, fm_parse k = Some v0 /\ h !! l = Some (fold_left (addr_step t k) pre v0).

Definition cache_inj (ca : gmap string loc) : Prop :=
  forall c c' l, ca !! c = Some l -> ca !! c' = Some l -> c = c'.

(** An object no cache entry points to. *)
Definition owned (ca : gmap string loc) (l : loc) : Prop := forall c, ca !! c <> Some l.

(** The entry pushed for [f]: an empty text has an object of its own,
    any other text the object of its cache entry. *)
Definition entry_inv (t : FS.tree) (h : heap) (ca : gmap string loc) (e : entry) (f : Path.segs)
  : Prop :=
  e_path e = Path.render_rel f /\ e_metrics e = metrics_value script_dir t f /\
  exists c, doc_content script_dir t f = Some c /\
    (cache_key c = None -> exists mv, meta_value script_dir t f = Some mv /\
                             h !! e_metadata e = Some mv /\ owned ca (e_metadata e)) /\
    (forall k, cache_key c = Some k -> ca !! k = Some (e_metadata e)).

Definition run_inv (t : FS.tree) (pre : list Path.segs) (h : heap) (ca : gmap string loc)
    (es : list entry) : Prop :=
  cache_own ca /\ cache_ok t pre h ca /\ cache_inj ca /\ Forall2 (entry_inv t h ca) es pre.

(** ** Lemmas on the specification *)

Lemma addr_step_skip t k v f : doc_key script_dir t f <> Some k -> addr_step t k v f = v.
Proof. intros Hn. unfold addr_step. by rewrite bool_decide_eq_false_2. Qed.

Lemma addr_step_other t k k' v f :
  doc_key script_dir t f = Some k -> k <> k' -> addr_step t k' v f = v.
Proof. intros Hk Hne. apply addr_step_skip. rewrite Hk. congruence. Qed.

Lemma addr_step_self t k v f :
  doc_key script_dir t f = Some k -> addr_step t k v f = default v (address_update f v).
Proof. intros Hk. unfold addr_step. by rewrite bool_decide_eq_true_2. Qed.

Lemma fold_addr_step_none t k pre v :
  (forall f, f ∈ pre -> doc_key script_dir t f <> Some k) ->
  fold_left (addr_step t k) pre v = v.
Proof.
  induction pre as [|f pre IH] in v |- *; intros Hn; simpl; [done|].
  rewrite addr_step_skip by (apply Hn; set_solver). apply IH. intros g Hg. apply Hn. set_solver.
Qed.

Lemma address_update_kind f v v' :
  address_update f v = Some v' -> js_settable v' = js_settable v.
Proof.
  unfold address_update. destruct (String.prefix _ _); [apply js_set_prop_kind|by intros [= ->]].
Qed.

(** What line 100 keeps of a metadata object holds of the shared one. *)
Lemma fold_addr_step_pres (P : jsval -> Prop) t k pre v :
  (forall f u u', P u -> address_update f u = Some u' -> P u') ->
  P v -> P (fold_left (addr_step t k) pre v).
Proof.
  intros Hp. induction pre as [|f pre IH] in v |- *; simpl; [done|]. intros Hv. apply IH.
  unfold addr_step. destruct (bool_decide _); [|done].
  destruct (address_update f v) eqn:E; simpl; eauto.
Qed.

Lemma fold_addr_step_kind t k pre v :
  js_settable (fold_left (addr_step t k) pre v) = js_settable v.
Proof.
  apply (fold_addr_step_pres (fun u => js_settable u = js_settable v)); [|done].
  intros f u u' Hu Hupd. by rewrite (address_update_kind f u u' Hupd).
Qed.

(** Line 100 succeeds on any object of the kind it succeeded on. *)
Lemma address_update_same_kind f u v mv :
  js_settable u = js_settable v -> address_update f v = Some mv ->
  exists u', address_update f u = Some u'.
Proof.
  unfold address_update. destruct (String.prefix _ _); [|eauto]. intros Hk Hs.
  apply (js_set_prop_Some u "address" (JString (dir_name f))). rewrite Hk.
  apply (js_set_prop_Some v "address" (JString (dir_name f))). by rewrite Hs.
Qed.

(** ** The invariant through one document *)

(** An entry keeps its invariant when the cache only grows and no
    object of its own is written or becomes cached. *)
Lemma entry_inv_step t h h' ca ca' e f :
  ca ⊆ ca' ->
  (forall l, owned ca l -> is_Some (h !! l) -> h' !! l = h !! l /\ owned ca' l) ->
  entry_inv t h ca e f -> entry_inv t h' ca' e f.
Proof.
  intros Hca Hl (Hp & Hm & c & Hc & He & Hne). do 2 (split; [done|]). exists c.
  split; [done|]. split.
  - intros Hc0. destruct (He Hc0) as (mv & Hmv & Hh & Ho).
    destruct (Hl _ Ho) as [Hh' Ho']; [by rewrite Hh|]. exists mv. by rewrite Hh'.
  - intros k Hk. eapply lookup_weaken; [by apply Hne|done].
Qed.

Lemma cache_ok_live t pre h ca c l : cache_ok t pre h ca -> ca !! c = Some l -> is_Some (h !! l).
Proof. intros Hok Hc. destruct (Hok c l Hc) as (v0 & _ & Hl). by eexists. Qed.

Lemma fresh_ne (h : heap) l : is_Some (h !! l) -> l <> heap_fresh h.
Proof. intros [v Hv] ->. by rewrite heap_fresh_None in Hv. Qed.

(** Storing a fresh object under a new key keeps the cache injective. *)
Lemma cache_inj_fresh ca k l :
  cache_inj ca -> (forall c l', ca !! c = Some l' -> l' <> l) -> cache_inj (<[k := l]> ca).
Proof.
  intros Hinj Hfr c1 c2 l' Hl1 Hl2.
  destruct (decide (c1 = k)) as [->|H1c]; destruct (decide (c2 = k)) as [->|H2c]; [done|..].
  - rewrite lookup_insert_eq in Hl1. rewrite lookup_insert_ne in Hl2 by done.
    simplify_eq. by destruct (Hfr _ _ Hl2).
  - rewrite lookup_insert_eq in Hl2. rewrite lookup_insert_ne in Hl1 by done.
    simplify_eq. by destruct (Hfr _ _ Hl1).
  - rewrite lookup_insert_ne in Hl1, Hl2 by done. by apply (Hinj c1 c2 l').
Qed.

(** The entries pushed so far keep their invariant when a fresh object
    is allocated and stored under a new key. *)
Lemma entries_fresh t h ca es pre k mv :
  Forall2 (entry_inv t h ca) es pre -> ca !! k = None ->
  Forall2 (entry_inv t (<[heap_fresh h := mv]> h) (<[k := heap_fresh h]> ca)) es pre.
Proof.
  intros Hes Hk. eapply Forall2_impl; [exact Hes|]. intros e g.
  apply entry_inv_step; [by apply insert_subseteq|].
  intros l Ho Hs. pose proof (fresh_ne _ _ Hs) as Hl. split.
  - apply lookup_insert_ne. congruence.
  - intros c''. destruct (decide (c'' = k)) as [->|Hcc].
    + rewrite lookup_insert_eq. congruence.
    + rewrite lookup_insert_ne by done. apply Ho.
Qed.

(** A document whose text is empty or not cached yet gets a fresh object. *)
Lemma run_inv_fresh t pre h ca es f c mv :
  run_inv t pre h ca es -> doc_content script_dir t f = Some c ->
  meta_value script_dir t f = Some mv -> cache_miss ca c ->
  run_inv t (pre ++ [f]) (<[heap_fresh h := mv]> h) (cache_insert (cache_key c) (heap_fresh h) ca)
    (es ++ [mkEntry (Path.render_rel f) (heap_fresh h) (metrics_value script_dir t f)]).
Proof.
  intros (Hown & Hok & Hinj & Hes) Hc Hmv Hfresh.
  destruct (meta_value_inv script_dir _ _ _ Hmv) as (c' & v0 & Hc' & Hv0 & Hupd). simplify_eq.
  pose proof (doc_key_content script_dir _ _ _ Hc) as Hkey.
  assert (forall c'' l, ca !! c'' = Some l -> l <> heap_fresh h) as Hcfr
    by (intros ?? Hl; eapply fresh_ne, cache_ok_live; eauto).
  (* the cached objects of other contents are untouched *)
  assert (forall k'' l, doc_key script_dir t f <> Some k'' -> ca !! k'' = Some l -> exists v0',
            fm_parse k'' = Some v0' /\
            <[heap_fresh h := mv]> h !! l = Some (fold_left (addr_step t k'') (pre ++ [f]) v0'))
    as Hother.
  { intros k'' l Hne Hl. destruct (Hok k'' l Hl) as (v0' & Hv0' & Hh).
    exists v0'. split; [done|].
    rewrite fold_left_app. cbn [fold_left]. rewrite (addr_step_skip t k'') by done.
    rewrite lookup_insert_ne; [done|]. symmetry. by eapply Hcfr. }
  assert (Hold : Forall2 (entry_inv t (<[heap_fresh h:=mv]> h) ca) es pre).
  { eapply Forall2_impl; [done|]. intros e g. apply entry_inv_step; [done|].
    intros l Ho Hs. split; [|done]. apply lookup_insert_ne. symmetry. by apply fresh_ne. }
  split; [by apply cache_own_insert|].
  assert (Hfresh' : forall k, cache_key c = Some k -> ca !! k = None)
    by (intros k [Hk _]%cache_key_content; by apply Hfresh).
  clear Hfresh. rename Hfresh' into Hfresh.
  destruct (cache_key c) as [k|] eqn:Hk; cbn [cache_insert]; split_and!.
  - intros k'' l Hl. destruct (decide (k'' = k)) as [->|Hkk].
    + rewrite lookup_insert_eq in Hl. injection Hl as <-. exists v0.
      rewrite (matter_value_key c k Hk) in Hv0. split; [done|].
      rewrite lookup_insert_eq, fold_left_app, (fold_addr_step_none t k pre v0).
      * cbn [fold_left]. by rewrite (addr_step_self t k _ f ltac:(by rewrite Hkey)), Hupd.
      * intros g Hg Hg'. apply list_elem_of_lookup in Hg as [i Hi].
        destruct (Forall2_lookup_r _ _ _ _ _ Hes Hi) as (e & _ & _ & _ & c2 & Hc2 & _ & He).
        rewrite (doc_key_content script_dir _ _ _ Hc2) in Hg'.
        pose proof (He k Hg'). specialize (Hfresh k eq_refl). congruence.
    + rewrite lookup_insert_ne in Hl by done. apply Hother; [|done]. rewrite Hkey. congruence.
  - by apply cache_inj_fresh.
  - apply Forall2_app; [by apply entries_fresh, (Hfresh k eq_refl)|].
    constructor; [|done]. do 2 (split; [done|]). exists c. split; [done|]. split; [congruence|].
      intros k' Hk'. rewrite Hk in Hk'. injection Hk' as <-. apply lookup_insert_eq.
  - intros k'' l Hl. apply Hother; [|done]. by rewrite Hkey.
  - done.
  - apply Forall2_app; [done|].
    constructor; [|done]. do 2 (split; [done|]). exists c. split; [done|].
    split; [|intros k' Hk'; congruence].
    intros _. exists mv. split; [done|]. rewrite lookup_insert_eq. split; [done|].
    intros c'' Hl. by apply (Hcfr c'' (heap_fresh h)).
Qed.

(** A document whose text hits the cache updates the shared object. *)
Lemma run_inv_cached t pre h ca es f c k l u u' :
  run_inv t pre h ca es -> doc_content script_dir t f = Some c -> cache_key c = Some k ->
  ca !! k = Some l -> h !! l = Some u -> address_update f u = Some u' ->
  run_inv t (pre ++ [f]) (<[l := u']> h) ca
    (es ++ [mkEntry (Path.render_rel f) l (metrics_value script_dir t f)]).
Proof.
  intros (Hown & Hok & Hinj & Hes) Hc Hk Hl Hu Hupd.
  pose proof (doc_key_content script_dir _ _ _ Hc) as Hkey. rewrite Hk in Hkey.
  destruct (Hok k l Hl) as (v0 & Hv0 & Hu'). rewrite Hu in Hu'. injection Hu' as ->.
  split; [done|]. split_and!.
  - intros k'' l'' Hl''. destruct (Hok k'' l'' Hl'') as (v0'' & Hv0'' & Hh).
    exists v0''. split; [done|]. rewrite fold_left_app. cbn [fold_left].
    destruct (decide (k'' = k)) as [->|Hkk].
    + simplify_eq. by rewrite lookup_insert_eq, (addr_step_self t k _ f Hkey), Hupd.
    + rewrite (addr_step_other t k k'') by (done || congruence).
      rewrite lookup_insert_ne; [done|]. intros <-. by apply Hkk, (Hinj k'' k l).
  - done.
  - apply Forall2_app.
    + eapply Forall2_impl; [done|]. intros e g. apply entry_inv_step; [done|].
      intros l' Ho _. split; [|done]. apply lookup_insert_ne. intros ->. by apply (Ho k).
    + constructor; [|done]. do 2 (split; [done|]). exists c. split; [done|].
      split; [intros; congruence|]. intros k' Hk'. simpl. congruence.
Qed.

(** One document of the loop, processed from a world that satisfies the
    invariant. *)
Lemma process_file_exact t pre w es f :
  w_fs w = t -> FS.wf t -> Glob.matches t dd f = true -> doc_ok script_dir t f = true ->
  run_inv t pre (w_heap w) (w_cache w) es ->
  exists e w1, process_file script_dir f w = (Ok e, w1) /\ w_fs w1 = t /\
    run_inv t (pre ++ [f]) (w_heap w1) (w_cache w1) (es ++ [e]) /\
    w_console w1 = w_console w ++ metrics_log script_dir t f.
Proof.
  intros <- Hwf Hm Hdok Hinv.
  destruct (doc_ok_inv script_dir _ _ Hdok) as (c & mv & Hc & Hmv & Hnd).
  destruct (cache_key c) as [k|] eqn:Hk; [destruct (w_cache w !! k) as [l|] eqn:Hl|].
  1: { destruct Hinv as (Hown & Hok & Hrest). pose proof Hok as Hok'.
       destruct (Hok' k l Hl) as (v0 & Hv0 & Hu).
       destruct (meta_value_inv script_dir _ _ _ Hmv) as (c' & v0' & Hc' & Hv0' & Hupd). simplify_eq.
       rewrite (matter_value_key c k Hk), Hv0 in Hv0'. injection Hv0' as <-.
       destruct (address_update_same_kind f (fold_left (addr_step (w_fs w) k) pre v0) v0 mv
                   (fold_addr_step_kind _ _ _ _) Hupd) as [u' Hu'].
       rewrite (process_file_cached script_dir Hsd_clean w f c k l _ u' Hwf Hm Hc Hk Hl Hu Hu' Hnd).
       eexists _, _. split; [reflexivity|]. split; [done|]. split; [|done].
       exact (run_inv_cached _ _ _ _ _ _ c k l _ u' (conj Hown (conj Hok Hrest)) Hc Hk Hl Hu Hu'). }
  all: assert (Hfresh : cache_miss (w_cache w) c)
         by (apply cache_miss_intro; [apply Hinv|]; intros k' Hk'; congruence).
  all: rewrite (process_file_fresh script_dir Hsd_clean w f c mv Hwf Hm Hc Hfresh Hmv Hnd).
  all: eexists _, _; split; [reflexivity|]; split; [done|]; split; [|done].
  all: by apply (run_inv_fresh _ _ _ _ _ _ c).
Qed.

(** The loop keeps the invariant over every document it processes. *)
Lemma loop_exact t files : forall pre acc w,
  w_fs w = t -> FS.wf t ->
  (forall f, f ∈ files -> Glob.matches t dd f = true /\ doc_ok script_dir t f = true) ->
  run_inv t pre (w_heap w) (w_cache w) acc ->
  exists es w', for_push (process_file script_dir) acc files w = (Ok (acc ++ es), w') /\
    w_fs w' = t /\ run_inv t (pre ++ files) (w_heap w') (w_cache w') (acc ++ es) /\
    w_console w' = w_console w ++ concat (map (metrics_log script_dir t) files).
Proof.
  induction files as [|f files IH]; intros pre acc w Hfs Hwf Hok Hinv.
  { exists [], w. rewrite !app_nil_r. by split_and!. }
  destruct (Hok f ltac:(set_solver)) as [Hm Hdok].
  destruct (process_file_exact t pre w acc f Hfs Hwf Hm Hdok Hinv)
    as (e & w1 & Hstep & Hfs1 & Hinv1 & Hcon1).
  destruct (IH (pre ++ [f]) (acc ++ [e]) w1 Hfs1 Hwf ltac:(intros g Hg; apply Hok; set_solver) Hinv1)
    as (es & w' & Hrun & Hfs' & Hinv' & Hcon).
  exists (e :: es), w'.
  rewrite <- (app_assoc acc [e] es) in Hrun, Hinv'. rewrite <- (app_assoc pre [f] files) in Hinv'.
  split; [simpl; by rewrite (bind_ok _ _ _ _ _ Hstep)|]. split; [done|]. split; [done|].
  rewrite Hcon, Hcon1. simpl. by rewrite app_assoc.
Qed.

(** Once every document is processed, each entry's object is its final
    metadata. *)
Lemma entry_final t files h ca e f :
  cache_ok t files h ca -> entry_inv t h ca e f -> entry_of h (final_entry t files) e f.
Proof.
  intros Hok (Hp & Hm & c & Hc & Hempty & Hne). split; [done|].
  unfold entry_value, final_entry, final_meta. rewrite Hp, Hm, Hc. cbn [mbind option_bind].
  destruct (cache_key c) as [k|] eqn:Hk.
  - destruct (Hok k _ (Hne k eq_refl)) as (v0 & Hv0 & ->). unfold shared_meta. by rewrite Hv0.
  - destruct (Hempty eq_refl) as (mv & -> & -> & _). done.
Qed.

(** ** Documents whose text no other document has *)

(** Without a second document of the same cache key, the final metadata is
    the document's own. *)
Lemma final_meta_unshared t files f :
  NoDup files -> f ∈ files -> doc_ok script_dir t f = true ->
  (forall g, g ∈ files -> g <> f -> ~ shares_content script_dir t f g) ->
  final_meta t files f = meta_value script_dir t f.
Proof.
  intros Hnd Hf Hok Hna.
  destruct (doc_ok_inv script_dir _ _ Hok) as (c & mv & Hc & Hmv & _).
  destruct (meta_value_inv script_dir _ _ _ Hmv) as (c' & v0 & Hc' & Hv0 & Hupd).
  rewrite Hc in Hc'. injection Hc' as <-.
  unfold final_meta. rewrite Hc. cbn [mbind option_bind].
  destruct (cache_key c) as [k|] eqn:Hk; [|done].
  pose proof (doc_key_content script_dir _ _ _ Hc) as Hkey. rewrite Hk in Hkey.
  unfold shared_meta. rewrite <- (matter_value_key c k Hk), Hv0, Hmv. cbn [mbind option_bind].
  f_equal. apply list_elem_of_split in Hf as (l1 & l2 & ->).
  apply NoDup_app in Hnd as (_ & Hdisj & Hnd2). apply NoDup_cons in Hnd2 as [Hf2 _].
  assert (forall g, g ∈ l1 ++ l2 -> doc_key script_dir t g <> Some k) as Hnone.
  { intros g Hg Hgk. apply (Hna g); [set_solver| |by exists k].
    intros ->. apply elem_of_app in Hg as [Hg|Hg]; [apply (Hdisj f Hg)|]; set_solver. }
  rewrite fold_left_app. cbn [fold_left].
  rewrite (fold_addr_step_none t k l1 v0) by set_solver.
  rewrite (addr_step_self t k v0 f Hkey), Hupd. cbn [default].
  apply fold_addr_step_none. set_solver.
Qed.

(** Without shared texts, the index is the one of [Refinement]. *)
Lemma final_index_no_alias t files :
  NoDup files -> (forall f, f ∈ files -> doc_ok script_dir t f = true) ->
  no_alias script_dir t files -> final_index t files = expected_index script_dir t files.
Proof.
  intros Hnd Hok Hna. unfold final_index, expected_index. f_equal. apply map_ext_in.
  intros f Hf. apply list_elem_of_In in Hf. rewrite (Sort.sort_perm path_cmp) in Hf.
  unfold final_entry, expected_entry. rewrite final_meta_unshared; [done|done|done|by apply Hok|].
  intros g Hg Hgf. apply (Hna f g); [done|done|congruence].
Qed.

(** A document of cache entry [k] ends with the shared object of [k]. *)
Lemma final_meta_key t files f k :
  doc_key script_dir t f = Some k -> final_meta t files f = shared_meta t files k.
Proof.
  unfold doc_key, final_meta. destruct (doc_content script_dir t f) as [c|]; [|done].
  cbn [mbind option_bind]. by intros ->.
Qed.

(** The entry of a document the loop processes has a shared object. *)
Lemma shared_meta_ok t files f k :
  doc_ok script_dir t f = true -> doc_key script_dir t f = Some k ->
  is_Some (shared_meta t files k).
Proof.
  intros Hok Hk. destruct (doc_ok_inv script_dir _ _ Hok) as (c & mv & Hc & Hmv & _).
  destruct (meta_value_inv script_dir _ _ _ Hmv) as (c' & v0 & Hc' & Hv0 & _). simplify_eq.
  rewrite (doc_key_content script_dir _ _ _ Hc) in Hk.
  unfold shared_meta. rewrite <- (matter_value_key c k Hk), Hv0. by eexists.
Qed.

Context `{!GlobWalkSpec}.

(** The run on a tree whose documents can all be processed. *)
Lemma run_final w files :
  FS.wf (w_fs w) -> w_cache w = ∅ -> w_fs w !! dd = Some Dir -> w_fs w !! idx <> Some Dir ->
  glob_walk (w_fs w) dd = files -> files <> [] ->
  (forall f, f ∈ files -> doc_ok script_dir (w_fs w) f = true) ->
  exists s w', Json.stringify (final_index (w_fs w) files) = Some s /\
    run script_dir w = (w', 0) /\ w_fs w' = <[idx := File s]> (w_fs w) /\
    w_console w' = w_console w ++
      [Stdout ("Searching for markdown files in: " +:+ Path.render_abs dd);
       Stdout ("Found " +:+ nat_to_string (length files) +:+ " files. Processing...")]
      ++ concat (map (metrics_log script_dir (w_fs w)) files)
      ++ [Stdout ("Successfully generated delegates index file at: " +:+ Path.render_abs idx)].
Proof.
  intros Hwf Hcache Hdd Hidx Hglob Hne Hok.
  destruct (glob_walk_spec (w_fs w) dd) as [_ Hmatch]. rewrite Hglob in Hmatch.
  set (w2 := add_line (Stdout ("Found " +:+ nat_to_string (length files) +:+ " files. Processing..."))
               (add_line (Stdout ("Searching for markdown files in: " +:+ Path.render_abs dd)) w)).
  destruct (loop_exact (w_fs w) files [] [] w2 eq_refl Hwf)
    as (es & w3 & Hrun & Hfs3 & (_ & Hcok & _ & Hrel) & Hcon).
  { intros f Hf. split; [by apply Hmatch|by apply Hok]. }
  { subst w2. cbn. rewrite Hcache. split_and!; [intros c l; by rewrite lookup_empty..|done]. }
  assert (Forall2 (entry_of (w_heap w3) (final_entry (w_fs w) files)) es files) as Hrel'.
  { eapply Forall2_impl; [exact Hrel|]. intros e f. by apply entry_final. }
  pose proof (index_value_sorted (w_heap w3) _ _ _ Hrel') as Hidxv.
  fold (final_index (w_fs w) files) in Hidxv.
  destruct (Json.serialize_defined 0 (final_index (w_fs w) files)) as [s Hs]; [done|].
  exists s. eexists. split; [exact Hs|].
  rewrite (run_loop_ok script_dir Hsd_clean w files es w3 s Hdd Hidx Hglob Hne Hrun Hfs3
             ltac:(by rewrite Hidxv)).
  split; [done|]. split; [done|].
  cbn. rewrite Hcon. subst w2. cbn. by rewrite <- !app_assoc.
Qed.

(** The object that [JSON.stringify] shows as a metadata's [address]. *)
Definition address_of (v : jsval) : option jsval :=
  match v with JObject ps => JsObject.get ps "address" | _ => None end.

(** C1: for every tree whose documents can all be processed, the
    process exits with status 0, [index.json] holds exactly
    [JSON.stringify(final_index, null, 2)], where documents of one
    cache key share their metadata object, and nothing else of the
    tree changes; the console shows the progress lines and one line per
    [metrics.json] that does not parse. *)
Theorem run_exact w files :
  FS.wf (w_fs w) -> w_cache w = ∅ -> w_fs w !! dd = Some Dir -> w_fs w !! idx <> Some Dir ->
  glob_walk (w_fs w) dd = files -> files <> [] ->
  (forall f, f ∈ files -> doc_ok script_dir (w_fs w) f = true) ->
  exists s w', Json.stringify (final_index (w_fs w) files) = Some s /\
    run script_dir w = (w', 0) /\ w_fs w' = <[idx := File s]> (w_fs w) /\
    w_console w' = w_console w ++
      [Stdout ("Searching for markdown files in: " +:+ Path.render_abs dd);
       Stdout ("Found " +:+ nat_to_string (length files) +:+ " files. Processing...")]
      ++ concat (map (metrics_log script_dir (w_fs w)) files)
      ++ [Stdout ("Successfully generated delegates index file at: " +:+ Path.render_abs idx)].
Proof. apply run_final. Qed.

(** C2: when the documents can all be processed and no two share a
    cache key (a non-empty text up to a leading byte-order mark, not
    named like an [Object.prototype] property), the process exits with
    status 0 and [index.json]
    holds exactly [JSON.stringify(expected_index, null, 2)]: each
    document's own front matter, with the [address] of its [0x] folder,
    and its parsed [metrics.json], sorted by path; nothing else of the
    tree changes. *)
Theorem run_refines w files :
  FS.wf (w_fs w) -> w_cache w = ∅ -> w_fs w !! dd = Some Dir -> w_fs w !! idx <> Some Dir ->
  glob_walk (w_fs w) dd = files -> files <> [] ->
  (forall f, f ∈ files -> doc_ok script_dir (w_fs w) f = true) -> no_alias script_dir (w_fs w) files ->
  exists s w', Json.stringify (expected_index script_dir (w_fs w) files) = Some s /\
    run script_dir w = (w', 0) /\ w_fs w' = <[idx := File s]> (w_fs w) /\
    w_console w' = w_console w ++
      [Stdout ("Searching for markdown files in: " +:+ Path.render_abs dd);
       Stdout ("Found " +:+ nat_to_string (length files) +:+ " files. Processing...")]
      ++ concat (map (metrics_log script_dir (w_fs w)) files)
      ++ [Stdout ("Successfully generated delegates index file at: " +:+ Path.render_abs idx)].
Proof.
  intros Hwf Hc Hdd Hidx Hglob Hne Hok Hna.
  destruct (glob_walk_spec (w_fs w) dd) as [Hnd _]. rewrite Hglob in Hnd.
  rewrite <- (final_index_no_alias _ _ Hnd Hok Hna). by apply run_final.
Qed.

(** C3: two documents whose texts use one entry of [gray-matter]'s
    cache (non-empty, equal once a leading byte-order mark is removed,
    and not named like an [Object.prototype] property) get one metadata object in [index.json], the shared object
    of that entry; so when they lie in two [0x] folders of different
    names, at most one of the two entries shows its own folder as
    [address]. *)
Theorem run_shares_metadata w files f g k :
  FS.wf (w_fs w) -> w_cache w = ∅ -> w_fs w !! dd = Some Dir -> w_fs w !! idx <> Some Dir ->
  glob_walk (w_fs w) dd = files ->
  (forall f, f ∈ files -> doc_ok script_dir (w_fs w) f = true) ->
  f ∈ files -> g ∈ files ->
  doc_key script_dir (w_fs w) f = Some k -> doc_key script_dir (w_fs w) g = Some k ->
  exists w' s vs md mf mg, run script_dir w = (w', 0) /\ w_fs w' !! idx = Some (File s) /\
    Json.stringify (JArray vs) = Some s /\
    shared_meta (w_fs w) files k = Some md /\
    JObject [("path", JString (Path.render_rel f)); ("metadata", md); ("metrics", mf)] ∈ vs /\
    JObject [("path", JString (Path.render_rel g)); ("metadata", md); ("metrics", mg)] ∈ vs /\
    (dir_name f <> dir_name g ->
     address_of md <> Some (JString (dir_name f)) \/ address_of md <> Some (JString (dir_name g))).
Proof.
  intros Hwf Hc Hdd Hidx Hglob Hok Hf Hg Hkf Hkg.
  assert (files <> []) as Hfiles by (intros ->; set_solver).
  destruct (run_final w files Hwf Hc Hdd Hidx Hglob Hfiles Hok) as (s & w' & Hs & Hrun & Hfs & _).
  destruct (shared_meta_ok (w_fs w) files f k (Hok f Hf) Hkf) as [md Hmd].
  exists w', s, (map (final_entry (w_fs w) files) (Sort.sort path_cmp files)), md,
    (default JUndefined (metrics_value script_dir (w_fs w) f)),
    (default JUndefined (metrics_value script_dir (w_fs w) g)).
  assert (forall x, x ∈ files -> doc_key script_dir (w_fs w) x = Some k ->
            JObject [("path", JString (Path.render_rel x)); ("metadata", md);
                     ("metrics", default JUndefined (metrics_value script_dir (w_fs w) x))]
            ∈ map (final_entry (w_fs w) files) (Sort.sort path_cmp files)) as Hin.
  { intros x Hx Hkx.
    assert (final_entry (w_fs w) files x = JObject [("path", JString (Path.render_rel x));
              ("metadata", md); ("metrics", default JUndefined (metrics_value script_dir (w_fs w) x))])
      as <- by (unfold final_entry; by rewrite (final_meta_key _ _ _ _ Hkx), Hmd).
    apply (list_elem_of_fmap_2 (final_entry (w_fs w) files)). by rewrite (Sort.sort_perm path_cmp). }
  split_and!; [done|by rewrite Hfs, lookup_insert_eq|done|done|by apply Hin..|].
  intros Hd. destruct (address_of _) as [[| | | |a| |]|]; try by left.
  destruct (decide (a = dir_name f)) as [->|Ha]; [right|left]; congruence.
Qed.

End Aliasing.
End Aliasing.

(** ** Examples *)
Module AliasingExamples.
Import RefinementExamples.
#[local] Existing Instances toy_front_matter toy_json_parse code_unit_order.

(** Two delegates whose documents have one text, one of them saved with
    a byte-order mark, and a document with an empty text. *)
Definition twin_tree : FS.tree :=
  list_to_map [([], Dir); (["repo"], Dir); (["repo"; "scripts"], Dir);
               (["repo"; "0xA"], Dir); (["repo"; "0xA"; "delegate.md"], File "same");
               (["repo"; "0xB"], Dir); (["repo"; "0xB"; "delegate.md"], File (bom +:+ "same"));
               (["repo"; "c"], Dir); (["repo"; "c"; "empty.md"], File "")].

Definition twin_world : world := mkWorld twin_tree ∅ ∅ [].

Definition twin_files : list Path.segs :=
  glob_walk twin_tree (Generator.delegateDirectory sample_dir).

Definition twin_a : Path.segs := ["0xA"; "delegate.md"].
Definition twin_b : Path.segs := ["0xB"; "delegate.md"].

Lemma run_exact_witness :
  exists s w',
    Json.stringify (Aliasing.final_index sample_dir twin_tree twin_files) = Some s /\
    Generator.run sample_dir twin_world = (w', 0) /\
    w_fs w' = <[Generator.indexFilePath sample_dir := File s]> twin_tree /\
    w_console w' =
      [Stdout ("Searching for markdown files in: "
               +:+ Path.render_abs (Generator.delegateDirectory sample_dir));
       Stdout ("Found " +:+ nat_to_string (length twin_files) +:+ " files. Processing...")]
      ++ concat (map (Refinement.metrics_log sample_dir twin_tree) twin_files)
      ++ [Stdout ("Successfully generated delegates index file at: "
                  +:+ Path.render_abs (Generator.indexFilePath sample_dir))].
Proof.
  apply (Aliasing.run_exact sample_dir eq_refl twin_world twin_files).
  - apply FS.wfb_wf. vm_compute. reflexivity.
  - reflexivity.
  - vm_compute. reflexivity.
  - vm_compute. discriminate.
  - reflexivity.
  - vm_compute. discriminate.
  - apply forallb_elem. vm_compute. reflexivity.
Defined.

(** [run_refines] applies to a repository of three delegates. *)
Lemma run_refines_witness :
  exists s w',
    Json.stringify (Refinement.expected_index sample_dir sample_tree sample_files) = Some s /\
    Generator.run sample_dir sample_world = (w', 0) /\
    w_fs w' = <[Generator.indexFilePath sample_dir := File s]> sample_tree /\
    w_console w' =
      [Stdout ("Searching for markdown files in: "
               +:+ Path.render_abs (Generator.delegateDirectory sample_dir));
       Stdout ("Found " +:+ nat_to_string (length sample_files) +:+ " files. Processing...")]
      ++ concat (map (Refinement.metrics_log sample_dir sample_tree) sample_files)
      ++ [Stdout ("Successfully generated delegates index file at: "
                  +:+ Path.render_abs (Generator.indexFilePath sample_dir))].
Proof.
  apply (Aliasing.run_refines sample_dir eq_refl sample_world sample_files).
  - apply FS.wfb_wf. vm_compute. reflexivity.
  - reflexivity.
  - vm_compute. reflexivity.
  - vm_compute. discriminate.
  - reflexivity.
  - vm_compute. discriminate.
  - apply forallb_elem. vm_compute. reflexivity.
  - apply Refinement.no_alias_b_spec. vm_compute. reflexivity.
Defined.

Lemma run_shares_metadata_witness :
  exists w' s vs md mf mg, Generator.run sample_dir twin_world = (w', 0) /\
    w_fs w' !! Generator.indexFilePath sample_dir = Some (File s) /\
    Json.stringify (JArray vs) = Some s /\
    Aliasing.shared_meta sample_dir twin_tree twin_files "same" = Some md /\
    JObject [("path", JString (Path.render_rel twin_a)); ("metadata", md); ("metrics", mf)] ∈ vs /\
    JObject [("path", JString (Path.render_rel twin_b)); ("metadata", md); ("metrics", mg)] ∈ vs /\
    (Refinement.dir_name twin_a <> Refinement.dir_name twin_b ->
     Aliasing.address_of md <> Some (JString (Refinement.dir_name twin_a)) \/
     Aliasing.address_of md <> Some (JString (Refinement.dir_name twin_b))).
Proof.
  apply (Aliasing.run_shares_metadata sample_dir eq_refl twin_world twin_files twin_a twin_b "same").
  - apply FS.wfb_wf. vm_compute. reflexivity.
  - reflexivity.
  - vm_compute. reflexivity.
  - vm_compute. discriminate.
  - reflexivity.
  - apply forallb_elem. vm_compute. reflexivity.
  - apply (bool_decide_eq_true_1 (_ ∈ twin_files)). vm_compute. reflexivity.
  - apply (bool_decide_eq_true_1 (_ ∈ twin_files)). vm_compute. reflexivity.
  - vm_compute. reflexivity.
  - vm_compute. reflexivity.
Defined.

(** The index the run writes for [twin_tree]: the glob meets [0xB]
    before [0xA], so both delegates are written with the address
    [0xA]; the empty document gets an object of its own. *)
Example twin_index :
  let v := JArray [
    JObject [("path", JString "0xA/delegate.md");
             ("metadata", JObject [("body", JString "same"); ("address", JString "0xA")])];
    JObject [("path", JString "0xB/delegate.md");
             ("metadata", JObject [("body", JString "same"); ("address", JString "0xA")])];
    JObject [("path", JString "c/empty.md"); ("metadata", JObject [])]] in
  snd (Generator.run sample_dir twin_world) = 0 /\
  w_fs (fst (Generator.run sample_dir twin_world)) !! Generator.indexFilePath sample_dir
    = option_map File (Json.stringify v).
Proof. vm_compute. split; reflexivity. Qed.
End AliasingExamples.
