(* ===== verification/IndexOrder.v ===== *)
(** * The paths of the written index

    The specification promises that [path] is unique per entry and that
    the entries are sorted by [path] with [localeCompare]. On top of
    [Aliasing.run_final], [IndexOrder.run_index_paths] shows both of the
    array the run writes, for any consistent collation: its [path]
    members are the rendered paths of the documents the glob listed,
    each once, in non-decreasing [localeCompare] order. Uniqueness rests
    on the walk listing each match once and on [Path.render_rel] being
    injective on the segments of a POSIX tree. *)

From S2P Require Import Prelude JsValue Json Paths FileSystem Sort Glob Runtime FrontMatter Engines Generator Refinement Loop Aliasing.

Module IndexOrder.
Import Generator Refinement Aliasing.

(** The [path] member an index entry is written with. *)
Definition entry_path (v : jsval) : option string :=
  match v with JObject (("path", JString p) :: _) => Some p | _ => None end.

Section IndexOrder.
Context `{FrontMatterEngine} `{JsonParser} `{LocaleCompare} `{!CmpLaws locale_compare}
  `{GlobWalk} `{!GlobWalkSpec}.
Variable script_dir : Path.segs.
Hypothesis Hsd_clean : Path.clean script_dir = true.

Local Abbreviation dd := (delegateDirectory script_dir).
Local Abbreviation idx := (indexFilePath script_dir).

(** Distinct documents of one walk have distinct rendered paths. *)
Lemma walk_paths_NoDup t :
  FS.wf t -> NoDup (Path.render_rel <$> glob_walk t dd).
Proof.
  intros Hwf. destruct (glob_walk_spec t dd) as [Hnd Hm].
  apply NoDup_fmap_2_strong; [|done]. intros f g Hf Hg.
  apply Hm in Hf, Hg.
  destruct (matched_facts script_dir t f Hwf Hf) as (_ & Hcf & _).
  destruct (matched_facts script_dir t g Hwf Hg) as (_ & Hcg & _).
  by apply Path.render_rel_inj.
Qed.

(** C23: when every document can be processed, the array the run writes
    has one entry per listed document, and its [path] members are those
    documents' relative paths, pairwise distinct, in non-decreasing
    [localeCompare] order. *)
Theorem run_index_paths w :
  FS.wf (w_fs w) -> w_cache w = ∅ -> w_fs w !! dd = Some Dir -> w_fs w !! idx <> Some Dir ->
  glob_walk (w_fs w) dd <> [] ->
  (forall f, f ∈ glob_walk (w_fs w) dd -> doc_ok script_dir (w_fs w) f = true) ->
  exists w' s vs ps, run script_dir w = (w', 0) /\ w_fs w' !! idx = Some (File s) /\
    Json.stringify (JArray vs) = Some s /\ entry_path <$> vs = Some <$> ps /\
    ps ≡ₚ Path.render_rel <$> glob_walk (w_fs w) dd /\ NoDup ps /\
    Sorted (fun a b => locale_compare a b <> Gt) ps.
Proof.
  intros Hwf Hc Hdd Hidx Hne Hok.
  set (files := glob_walk (w_fs w) dd) in *.
  destruct (run_final script_dir Hsd_clean w files Hwf Hc Hdd Hidx eq_refl Hne Hok)
    as (s & w' & Hs & Hrun & Hfs & _).
  pose proof (Sort.sort_perm path_cmp files) as Hperm.
  exists w', s, (final_entry script_dir (w_fs w) files <$> Sort.sort path_cmp files),
    (Path.render_rel <$> Sort.sort path_cmp files).
  split_and!; [done|by rewrite Hfs, lookup_insert_eq|exact Hs| | | |].
  - rewrite <- !list_fmap_compose. by apply list_fmap_ext.
  - by rewrite Hperm.
  - rewrite Hperm. by apply walk_paths_NoDup.
  - apply (Sorted_fmap _ (Sort.le path_cmp)); [done|].
    apply (Sort.sort_correct path_cmp).
Qed.

End IndexOrder.
End IndexOrder.

(** ** Examples *)
Module IndexOrderExamples.
Import RefinementExamples.
#[local] Existing Instances toy_front_matter toy_json_parse code_unit_order.

Lemma run_index_paths_witness :
  exists w' s vs ps, Generator.run sample_dir sample_world = (w', 0) /\
    w_fs w' !! Generator.indexFilePath sample_dir = Some (File s) /\
    Json.stringify (JArray vs) = Some s /\ IndexOrder.entry_path <$> vs = Some <$> ps /\
    ps ≡ₚ Path.render_rel <$> sample_files /\ NoDup ps /\
    Sorted (fun a b => locale_compare a b <> Gt) ps.
Proof.
  apply (IndexOrder.run_index_paths sample_dir eq_refl sample_world).
  - apply FS.wfb_wf. vm_compute. reflexivity.
  - reflexivity.
  - vm_compute. reflexivity.
  - vm_compute. discriminate.
  - vm_compute. discriminate.
  - apply forallb_elem. vm_compute. reflexivity.
Defined.
End IndexOrderExamples.
