(* ===== verification/Types.v ===== *)
(** * The interfaces [DelegateMetadata], [DelegateMetrics], [IndexEntry]

    TypeScript erases the interfaces of lines 7-26, and the script checks
    none of them at run time: line 64 casts [parsed.data] to
    [DelegateMetadata] and line 81 assigns whatever [JSON.parse] returned
    to a [DelegateMetrics] variable. Here each interface is a boolean
    predicate on the JavaScript value, as structural typing reads it (an
    optional member is absent, [undefined] or of its type; other members
    are allowed). [Types.run_writes_index_entries] shows that the array
    the run writes is an [IndexEntry[]] when the inputs have the types the
    casts assume: line 100 writes a string into [address] and so keeps a
    [DelegateMetadata], also through the objects [gray-matter] shares. *)

From S2P Require Import Prelude JsValue Json Paths FileSystem Sort Glob Runtime FrontMatter Engines Generator Refinement Loop Aliasing.

Module Types.
Import Generator Refinement Aliasing.

(** [k?: string]: absent, [undefined] or a string. *)
Definition opt_string (ps : JsObject.props) (k : string) : bool :=
  match JsObject.get ps k with
  | None | Some JUndefined | Some (JString _) => true
  | _ => false
  end.

Definition has_string (ps : JsObject.props) (k : string) : bool :=
  match JsObject.get ps k with Some (JString _) => true | _ => false end.

(** [interface DelegateMetadata] (lines 7-12). *)
Definition is_delegate_metadata (v : jsval) : bool :=
  match v with
  | JObject ps => opt_string ps "name" && opt_string ps "address"
  | _ => false
  end.

Definition metrics_fields : list string :=
  ["combined_participation"; "poll_participation"; "exec_participation";
   "communication"; "start_date"].

(** [interface DelegateMetrics] (lines 14-20). *)
Definition is_delegate_metrics (v : jsval) : bool :=
  match v with
  | JObject ps => forallb (has_string ps) metrics_fields
  | _ => false
  end.

(** [interface IndexEntry] (lines 22-26). *)
Definition is_index_entry (v : jsval) : bool :=
  match v with
  | JObject ps =>
      has_string ps "path"
      && match JsObject.get ps "metadata" with Some m => is_delegate_metadata m | None => false end
      && match JsObject.get ps "metrics" with
         | None | Some JUndefined => true
         | Some m => is_delegate_metrics m
         end
  | _ => false
  end.

Section Types.
Context `{FrontMatterEngine} `{JsonParser} `{LocaleCompare} `{GlobWalk} `{!GlobWalkSpec}.
Variable script_dir : Path.segs.
Hypothesis Hsd_clean : Path.clean script_dir = true.

Local Abbreviation dd := (delegateDirectory script_dir).
Local Abbreviation idx := (indexFilePath script_dir).

(** Line 100 writes a string into [address]: a [DelegateMetadata] stays one. *)
Lemma address_update_typed f v v' :
  is_delegate_metadata v = true -> address_update f v = Some v' -> is_delegate_metadata v' = true.
Proof.
  unfold address_update. destruct (String.prefix _ _); [|by intros ? [= <-]].
  destruct v as [| | | | |xs|ps]; simpl; try done; intros Hv [= <-].
  unfold is_delegate_metadata, opt_string in *. rewrite JsObject.get_set_eq, JsObject.get_set_ne by done.
  apply andb_true_iff in Hv as [-> _]. done.
Qed.

Section Inputs.
Variable t : FS.tree.
Variable files : list Path.segs.
(** Every document can be processed, its front matter is a
    [DelegateMetadata] and its metrics, when they parse, a
    [DelegateMetrics]. *)
Hypothesis Hok : forall f, f ∈ files -> doc_ok script_dir t f = true.
Hypothesis Hmeta : forall f c v, f ∈ files -> doc_content script_dir t f = Some c ->
  matter_value c = Some v -> is_delegate_metadata v = true.
Hypothesis Hmetrics : forall f m, f ∈ files -> metrics_value script_dir t f = Some m ->
  is_delegate_metrics m = true.

Lemma final_meta_typed f :
  f ∈ files -> exists m, final_meta script_dir t files f = Some m /\ is_delegate_metadata m = true.
Proof.
  intros Hf. destruct (doc_ok_inv script_dir t f (Hok f Hf)) as (c & mv & Hc & Hmv & _).
  destruct (meta_value_inv script_dir t f mv Hmv) as (c' & v & Hc' & Hv & Hupd).
  rewrite Hc in Hc'. injection Hc' as <-. unfold final_meta. rewrite Hc. simpl.
  destruct (cache_key c) as [k|] eqn:Hk; [|exists mv; split; [done|]].
  - unfold shared_meta. rewrite <- (matter_value_key c k Hk), Hv. eexists. split; [done|].
    apply (fold_addr_step_pres script_dir (fun u => is_delegate_metadata u = true));
      [apply address_update_typed|by eapply Hmeta].
  - eapply address_update_typed; [|exact Hupd]. by eapply Hmeta.
Qed.

Lemma final_entry_typed f : f ∈ files -> is_index_entry (final_entry script_dir t files f) = true.
Proof.
  intros Hf. destruct (final_meta_typed f Hf) as (m & Hm & Htm).
  unfold final_entry, is_index_entry. rewrite Hm. simpl. rewrite Htm. simpl.
  destruct (metrics_value script_dir t f) as [mt|] eqn:E; simpl; [|done].
  pose proof (Hmetrics f mt Hf E). by destruct mt.
Qed.

End Inputs.

(** C14: a run over documents whose front matter is a [DelegateMetadata]
    and whose metrics, when they parse, are a [DelegateMetrics] exits 0
    and writes to [index.json] the JSON text of an array of values each of
    which is an [IndexEntry]. *)
Theorem run_writes_index_entries w files :
  FS.wf (w_fs w) -> w_cache w = ∅ -> w_fs w !! dd = Some Dir -> w_fs w !! idx <> Some Dir ->
  glob_walk (w_fs w) dd = files -> files <> [] ->
  (forall f, f ∈ files -> doc_ok script_dir (w_fs w) f = true) ->
  (forall f c v, f ∈ files -> doc_content script_dir (w_fs w) f = Some c ->
     matter_value c = Some v -> is_delegate_metadata v = true) ->
  (forall f m, f ∈ files -> metrics_value script_dir (w_fs w) f = Some m ->
     is_delegate_metrics m = true) ->
  exists s w' es, run script_dir w = (w', 0) /\ w_fs w' !! idx = Some (File s) /\
    Json.stringify (JArray es) = Some s /\ Forall (fun e => is_index_entry e = true) es.
Proof.
  intros Hwf Hc Hdd Hidx Hg Hne Hok Hmeta Hmetrics.
  destruct (run_final script_dir Hsd_clean w files Hwf Hc Hdd Hidx Hg Hne Hok)
    as (s & w' & Hs & Hrun & Hfs & _).
  exists s, w', (map (final_entry script_dir (w_fs w) files) (Sort.sort path_cmp files)).
  split_and!; [done|by rewrite Hfs, lookup_insert_eq|exact Hs|].
  apply Forall_map. rewrite Sort.sort_perm. apply Forall_forall. intros f Hf.
  by apply (final_entry_typed (w_fs w) files).
Qed.

End Types.
End Types.

(** ** Examples *)
Module TypesExamples.
Import RefinementExamples.
#[local] Existing Instances toy_front_matter toy_json_parse code_unit_order.

(** Two delegates, one with a metrics file that does not parse. *)
Definition typed_tree : FS.tree :=
  list_to_map [([], Dir); (["repo"], Dir); (["repo"; "scripts"], Dir);
               (["repo"; "0xA"], Dir); (["repo"; "0xA"; "delegate.md"], File "Alice");
               (["repo"; "b"], Dir); (["repo"; "b"; "doc.md"], File "Bob");
               (["repo"; "b"; "metrics.json"], File "oops")].

Definition typed_world : world := mkWorld typed_tree ∅ ∅ [].

Definition typed_files : list Path.segs :=
  glob_walk typed_tree (Generator.delegateDirectory sample_dir).

(** The front matter and the metrics of each document, checked. *)
Definition typed_meta_ok (f : Path.segs) : bool :=
  match Refinement.doc_content sample_dir typed_tree f with
  | Some c => match matter_value c with Some v => Types.is_delegate_metadata v | None => true end
  | None => true
  end.

Definition typed_metrics_ok (f : Path.segs) : bool :=
  match Refinement.metrics_value sample_dir typed_tree f with
  | Some m => Types.is_delegate_metrics m
  | None => true
  end.

Lemma run_writes_index_entries_witness :
  exists s w' es, Generator.run sample_dir typed_world = (w', 0) /\
    w_fs w' !! Generator.indexFilePath sample_dir = Some (File s) /\
    Json.stringify (JArray es) = Some s /\ Forall (fun e => Types.is_index_entry e = true) es.
Proof.
  apply (Types.run_writes_index_entries sample_dir eq_refl typed_world typed_files).
  - apply FS.wfb_wf. vm_compute. reflexivity.
  - reflexivity.
  - vm_compute. reflexivity.
  - vm_compute. discriminate.
  - reflexivity.
  - vm_compute. discriminate.
  - apply forallb_elem. vm_compute. reflexivity.
  - intros f c v Hf Hc Hv.
    assert (Hb : forallb typed_meta_ok typed_files = true) by (vm_compute; reflexivity).
    pose proof (forallb_elem _ _ Hb f Hf) as Hf'. unfold typed_meta_ok in Hf'.
    simpl in Hc. by rewrite Hc, Hv in Hf'.
  - intros f m Hf Hm.
    assert (Hb : forallb typed_metrics_ok typed_files = true) by (vm_compute; reflexivity).
    pose proof (forallb_elem _ _ Hb f Hf) as Hf'. unfold typed_metrics_ok in Hf'.
    simpl in Hm. by rewrite Hm in Hf'.
Defined.

End TypesExamples.
