(* ===== verification/Findings.v ===== *)
(** * Where the script departs from its specification

    Departures and gaps, each proved of the run, and what is true instead:
    - the order of the index depends on the order of the walk when two
      paths tie under [localeCompare] (ICU compares canonically
      equivalent strings, and strings that differ in ignorable code
      points, as equal), while the specification asks for an order that
      does not depend on the enumeration ([run_order_tie]);
    - when [localeCompare] tells apart any two distinct paths and no two
      documents share a cache key, the walk order does not matter
      ([run_order_independent]);
    - the ignore pattern [meta/**] is relative to the scanned directory,
      so a document under a nested [meta/] directory is indexed, while
      the specification excludes anything under a [meta/] directory
      ([run_indexes_nested_meta]);
    - with [dot: false] a document under a hidden directory is never
      read, which the specification does not mention
      ([run_skips_hidden]);
    - without [nodir: true] a directory named like [notes.md] is listed,
      and reading it fails the whole run ([run_fails_on_md_directory]).
    The shared metadata object of documents with one cache key is
    [Aliasing.run_shares_metadata]. *)

From S2P Require Import Prelude JsValue Json Paths FileSystem Sort Glob Runtime FrontMatter Engines Generator Refinement Loop Aliasing.

Module Findings.
Import Generator Refinement Aliasing.

Section Findings.
Context `{FrontMatterEngine} `{JsonParser} `{LocaleCompare} `{!CmpLaws locale_compare}.
Variable script_dir : Path.segs.
Hypothesis Hsd_clean : Path.clean script_dir = true.

Local Abbreviation dd := (delegateDirectory script_dir).
Local Abbreviation idx := (indexFilePath script_dir).

(** The insertion sort keeps two tied elements in their input order. *)
Lemma sort_pair_tie {A} (cmp : A -> A -> comparison) `{!CmpLaws cmp} a b :
  cmp a b = Eq -> Sort.sort cmp [a; b] = [a; b].
Proof. intros Hab. cbn. by rewrite (Sort.opp cmp b a), Hab. Qed.

(** The index a walker that returns [files] makes the run write. *)
Lemma run_index_of (W : GlobWalk) `{!GlobWalkSpec} w files :
  FS.wf (w_fs w) -> w_cache w = ∅ -> w_fs w !! dd = Some Dir -> w_fs w !! idx <> Some Dir ->
  glob_walk (w_fs w) dd = files -> files <> [] ->
  (forall f, f ∈ files -> doc_ok script_dir (w_fs w) f = true) ->
  no_alias script_dir (w_fs w) files ->
  exists w' s, run script_dir w = (w', 0) /\ w_fs w' !! idx = Some (File s) /\
    Json.stringify (expected_index script_dir (w_fs w) files) = Some s.
Proof.
  intros Hwf Hc Hdd Hidx Hglob Hne Hok Hna.
  destruct (glob_walk_spec (w_fs w) dd) as [Hnd _]. rewrite Hglob in Hnd.
  destruct (run_final script_dir Hsd_clean w files Hwf Hc Hdd Hidx Hglob Hne Hok)
    as (s & w' & Hs & Hrun & Hfs & _).
  exists w', s. split; [done|]. split; [rewrite Hfs; apply lookup_insert_eq|].
  by rewrite <- (final_index_no_alias script_dir Hsd_clean _ _ Hnd Hok Hna).
Qed.

(** C10: two documents whose paths tie under [localeCompare] are
    written in the order the walk returns them: two walks of one tree
    that return them in the two orders make the run write two different
    arrays. *)
Theorem run_order_tie (W1 W2 : GlobWalk) `{!@GlobWalkSpec W1} `{!@GlobWalkSpec W2} w f g :
  FS.wf (w_fs w) -> w_cache w = ∅ -> w_fs w !! dd = Some Dir -> w_fs w !! idx <> Some Dir ->
  @glob_walk W1 (w_fs w) dd = [f; g] -> @glob_walk W2 (w_fs w) dd = [g; f] ->
  doc_ok script_dir (w_fs w) f = true -> doc_ok script_dir (w_fs w) g = true ->
  ~ shares_content script_dir (w_fs w) f g ->
  locale_compare (Path.render_rel f) (Path.render_rel g) = Eq ->
  exists w1 w2 s1 s2,
    @run _ _ _ W1 script_dir w = (w1, 0) /\ @run _ _ _ W2 script_dir w = (w2, 0) /\
    w_fs w1 !! idx = Some (File s1) /\ w_fs w2 !! idx = Some (File s2) /\
    Json.stringify (JArray [expected_entry script_dir (w_fs w) f;
                            expected_entry script_dir (w_fs w) g]) = Some s1 /\
    Json.stringify (JArray [expected_entry script_dir (w_fs w) g;
                            expected_entry script_dir (w_fs w) f]) = Some s2.
Proof.
  intros Hwf Hc Hdd Hidx Hw1 Hw2 Hf Hg Hsh Htie.
  assert (forall x, x ∈ [f; g] -> doc_ok script_dir (w_fs w) x = true) as Hok by set_solver.
  assert (no_alias script_dir (w_fs w) [f; g]) as Hna.
  { intros x y Hx Hy Hxy (k & Hxk & Hyk). apply Hsh. exists k.
    apply elem_of_cons in Hx as [->|Hx]; apply elem_of_cons in Hy as [->|Hy]; set_solver. }
  destruct (run_index_of W1 w [f; g] Hwf Hc Hdd Hidx Hw1 ltac:(done) Hok Hna)
    as (w1 & s1 & Hr1 & Hi1 & Hs1).
  destruct (run_index_of W2 w [g; f] Hwf Hc Hdd Hidx Hw2 ltac:(done)
              ltac:(intros x Hx; apply Hok; set_solver)
              ltac:(intros x y Hx Hy; apply Hna; set_solver))
    as (w2 & s2 & Hr2 & Hi2 & Hs2).
  exists w1, w2, s1, s2. do 4 (split; [done|]).
  unfold expected_index in Hs1, Hs2.
  rewrite (sort_pair_tie path_cmp f g) in Hs1 by done.
  rewrite (sort_pair_tie path_cmp g f) in Hs2 by (unfold path_cmp, cmp_on; by rewrite cmp_opp, Htie).
  done.
Qed.

(** C12: when [localeCompare] tells apart the paths of any two distinct
    documents and no two documents share a cache key, any two walks
    of one tree make the run write the same [index.json]: the order of
    the enumeration does not matter. *)
Theorem run_order_independent (W1 W2 : GlobWalk) `{!@GlobWalkSpec W1} `{!@GlobWalkSpec W2} w :
  FS.wf (w_fs w) -> w_cache w = ∅ -> w_fs w !! dd = Some Dir -> w_fs w !! idx <> Some Dir ->
  @glob_walk W1 (w_fs w) dd <> [] ->
  (forall f, f ∈ @glob_walk W1 (w_fs w) dd -> doc_ok script_dir (w_fs w) f = true) ->
  no_alias script_dir (w_fs w) (@glob_walk W1 (w_fs w) dd) ->
  (forall f g, f ∈ @glob_walk W1 (w_fs w) dd -> g ∈ @glob_walk W1 (w_fs w) dd ->
     locale_compare (Path.render_rel f) (Path.render_rel g) = Eq -> f = g) ->
  exists w1 w2 s, @run _ _ _ W1 script_dir w = (w1, 0) /\ @run _ _ _ W2 script_dir w = (w2, 0) /\
    w_fs w1 !! idx = Some (File s) /\ w_fs w2 !! idx = Some (File s).
Proof.
  intros Hwf Hc Hdd Hidx Hne Hok Hna Hsep.
  set (files1 := @glob_walk W1 (w_fs w) dd) in *.
  set (files2 := @glob_walk W2 (w_fs w) dd).
  assert (files1 ≡ₚ files2) as Hp.
  { destruct (@glob_walk_spec W1 _ (w_fs w) dd) as [Hnd1 Hm1].
    destruct (@glob_walk_spec W2 _ (w_fs w) dd) as [Hnd2 Hm2].
    apply NoDup_Permutation; [done..|]. intros r. unfold files1, files2. by rewrite Hm1, Hm2. }
  destruct (run_index_of W1 w files1 Hwf Hc Hdd Hidx eq_refl Hne Hok Hna)
    as (w1 & s1 & Hr1 & Hi1 & Hs1).
  destruct (run_index_of W2 w files2 Hwf Hc Hdd Hidx eq_refl
              ltac:(intros Hnil; apply Hne, Permutation_nil; by rewrite Hp, Hnil)
              ltac:(intros f Hf; apply Hok; by rewrite Hp)
              ltac:(intros f g Hf Hg; apply Hna; by rewrite Hp))
    as (w2 & s2 & Hr2 & Hi2 & Hs2).
  unfold expected_index in Hs1, Hs2.
  rewrite (Sort.sort_perm_eq path_cmp files1 files2) in Hs1; [|exact Hsep|done].
  exists w1, w2, s1. do 3 (split; [done|]). congruence.
Qed.

End Findings.

Section NestedMeta.
Context `{FrontMatterEngine} `{JsonParser} `{LocaleCompare} `{GlobWalk} `{!GlobWalkSpec}.
Variable script_dir : Path.segs.
Hypothesis Hsd_clean : Path.clean script_dir = true.

Local Abbreviation dd := (delegateDirectory script_dir).
Local Abbreviation idx := (indexFilePath script_dir).

(** C11: a document [d/meta/n] under a [meta/] directory that is not
    at the top of the scanned directory is indexed: the ignore pattern
    [meta/**] is relative to [cwd]. *)
Theorem run_indexes_nested_meta w d n :
  FS.wf (w_fs w) -> w_cache w = ∅ -> w_fs w !! dd = Some Dir -> w_fs w !! idx <> Some Dir ->
  (forall f, f ∈ glob_walk (w_fs w) dd -> doc_ok script_dir (w_fs w) f = true) ->
  is_Some (w_fs w !! (dd ++ [d; "meta"; n])) ->
  d <> "meta" -> d <> "templates" -> Glob.starts_with_dot d = false ->
  Glob.starts_with_dot n = false -> Glob.ends_with ".md" n = true -> n <> "README.md" ->
  exists w' s vs, run script_dir w = (w', 0) /\ w_fs w' !! idx = Some (File s) /\
    Json.stringify (JArray vs) = Some s /\
    final_entry script_dir (w_fs w) (glob_walk (w_fs w) dd) [d; "meta"; n] ∈ vs.
Proof.
  intros Hwf Hc Hdd Hidx Hok [x Hx] Hd1 Hd2 Hd3 Hn1 Hn2 Hn3.
  destruct (glob_walk_spec (w_fs w) dd) as [_ Hmatch].
  assert ([d; "meta"; n] ∈ glob_walk (w_fs w) dd) as Hin.
  { apply Hmatch. unfold Glob.matches, Glob.pattern_match, Glob.ignored, FS.exists_sync.
    rewrite Hx. cbn [List.last forallb]. rewrite ?Hd3, ?Hn1, ?Hn2. cbn.
    by rewrite (proj2 (String.eqb_neq _ _) Hn3), (proj2 (String.eqb_neq _ _) Hd1),
      (proj2 (String.eqb_neq _ _) Hd2). }
  assert (glob_walk (w_fs w) dd <> []) as Hne.
  { intros Hnil. rewrite Hnil in Hin. by apply not_elem_of_nil in Hin. }
  destruct (run_final script_dir Hsd_clean w _ Hwf Hc Hdd Hidx eq_refl Hne Hok)
    as (s & w' & Hs & Hrun & Hfs & _).
  exists w', s, (map (final_entry script_dir (w_fs w) (glob_walk (w_fs w) dd))
                     (Sort.sort path_cmp (glob_walk (w_fs w) dd))).
  split; [done|]. split; [rewrite Hfs; apply lookup_insert_eq|]. split; [exact Hs|].
  apply list_elem_of_fmap. exists [d; "meta"; n]. split; [done|]. by rewrite Sort.sort_perm.
Qed.

Lemma hidden_not_matched t f :
  (exists seg, seg ∈ f /\ Glob.starts_with_dot seg = true) -> Glob.matches t dd f = false.
Proof.
  intros (seg & Hseg & Hdot). unfold Glob.matches, Glob.pattern_match.
  destruct f as [|x f]; [by rewrite andb_false_r|].
  assert (forallb (fun s => negb (Glob.starts_with_dot s)) (x :: f) = false) as ->.
  { apply not_true_iff_false. intros Hall. rewrite forallb_forall in Hall.
    apply list_elem_of_In in Hseg. specialize (Hall seg Hseg). by rewrite Hdot in Hall. }
  by rewrite andb_false_r.
Qed.

(** C22: a document with a segment that starts with a dot, a hidden
    directory or file, is never read: it is not one of the documents the
    walk lists, so the run exits 0 and writes the index of the listed
    documents even when the hidden one could not be processed. *)
Theorem run_skips_hidden w f :
  FS.wf (w_fs w) -> w_cache w = ∅ -> w_fs w !! dd = Some Dir -> w_fs w !! idx <> Some Dir ->
  glob_walk (w_fs w) dd <> [] ->
  (forall g, g ∈ glob_walk (w_fs w) dd -> doc_ok script_dir (w_fs w) g = true) ->
  (exists seg, seg ∈ f /\ Glob.starts_with_dot seg = true) ->
  f ∉ glob_walk (w_fs w) dd /\
  exists w' s, run script_dir w = (w', 0) /\ w_fs w' !! idx = Some (File s) /\
    Json.stringify (final_index script_dir (w_fs w) (glob_walk (w_fs w) dd)) = Some s.
Proof.
  intros Hwf Hc Hdd Hidx Hne Hok Hhid. split.
  - destruct (glob_walk_spec (w_fs w) dd) as [_ Hmatch]. rewrite Hmatch.
    by rewrite hidden_not_matched.
  - destruct (run_final script_dir Hsd_clean w _ Hwf Hc Hdd Hidx eq_refl Hne Hok)
      as (s & w' & Hs & Hrun & Hfs & _).
    exists w', s. split; [done|]. split; [rewrite Hfs; apply lookup_insert_eq|done].
Qed.

(** C24: a directory whose name ends in [.md], outside the ignored and
    hidden paths, is listed by the glob ([nodir] is not set) although
    line 44 means to find files; [readFileSync] then throws [EISDIR] on
    it, and the whole run exits 1 with the file tree as it was and the
    error of line 120 last on the console. *)
Theorem run_fails_on_md_directory w f :
  FS.wf (w_fs w) -> w_cache w = ∅ -> w_fs w !! (dd ++ f) = Some Dir ->
  Glob.pattern_match f = true -> Glob.ignored f = false ->
  exists e w', run script_dir w = (w', 1) /\ w_fs w' = w_fs w /\
    exists lines, w_console w' = lines ++ [StderrWith "Error generating delegates index:" e].
Proof.
  intros Hwf Hc Hd Hp Hi.
  assert (f <> []) as Hne by (by intros ->).
  apply (Loop.run_fails_doc script_dir Hsd_clean w Hwf Hc).
  - unfold FS.exists_sync. by rewrite (FS.wf_prefix_dir _ dd f Hwf Hne ltac:(by rewrite Hd)).
  - exists f. split.
    + apply (glob_walk_spec (w_fs w) dd). unfold Glob.matches, FS.exists_sync.
      by rewrite Hd, Hp, Hi.
    + unfold doc_ok, meta_value, doc_content. by rewrite Hd.
Qed.

End NestedMeta.
End Findings.

(** ** Examples *)
Module FindingsExamples.
Import RefinementExamples.
#[local] Existing Instances toy_front_matter toy_json_parse soft_hyphen_order.

(** U+00AD SOFT HYPHEN in UTF-8. *)
Definition shy : string := String (Ascii.ascii_of_nat 194) (String (Ascii.ascii_of_nat 173) EmptyString).

(** Two delegates whose folder names differ by a soft hyphen. *)
Definition tie_f : Path.segs := ["a" +:+ shy +:+ "b"; "doc.md"].
Definition tie_g : Path.segs := ["ab"; "doc.md"].

Definition tie_world : world :=
  mkWorld (list_to_map [([], Dir); (["repo"], Dir); (["repo"; "scripts"], Dir);
                        (["repo"; "ab"], Dir); (["repo"; "ab"; "doc.md"], File "one");
                        (["repo"; "a" +:+ shy +:+ "b"], Dir);
                        (["repo"; "a" +:+ shy +:+ "b"; "doc.md"], File "two")]) ∅ ∅ [].

(** The walk of [Glob.enum], reversed. *)
Definition rev_walk : GlobWalk := fun t cwd => reverse (Glob.enum t cwd).

Lemma rev_walk_spec : @GlobWalkSpec rev_walk.
Proof.
  intros t cwd. unfold glob_walk, rev_walk. destruct (Glob.enum_spec t cwd) as [Hnd Hm]. split.
  - by rewrite reverse_Permutation.
  - intros r. rewrite <- Hm. apply elem_of_reverse.
Qed.

Lemma run_order_tie_witness :
  exists w1 w2 s1 s2,
    @Generator.run _ _ _ enum_walk sample_dir tie_world = (w1, 0) /\
    @Generator.run _ _ _ rev_walk sample_dir tie_world = (w2, 0) /\
    w_fs w1 !! Generator.indexFilePath sample_dir = Some (File s1) /\
    w_fs w2 !! Generator.indexFilePath sample_dir = Some (File s2) /\
    Json.stringify (JArray [Refinement.expected_entry sample_dir (w_fs tie_world) tie_f;
                            Refinement.expected_entry sample_dir (w_fs tie_world) tie_g]) = Some s1 /\
    Json.stringify (JArray [Refinement.expected_entry sample_dir (w_fs tie_world) tie_g;
                            Refinement.expected_entry sample_dir (w_fs tie_world) tie_f]) = Some s2.
Proof.
  apply (@Findings.run_order_tie _ _ soft_hyphen_order (collate_by_laws strip_soft_hyphen)
           sample_dir eq_refl enum_walk rev_walk enum_walk_spec rev_walk_spec tie_world tie_f tie_g).
  - apply FS.wfb_wf. vm_compute. reflexivity.
  - reflexivity.
  - vm_compute. reflexivity.
  - vm_compute. discriminate.
  - vm_compute. reflexivity.
  - vm_compute. reflexivity.
  - vm_compute. reflexivity.
  - vm_compute. reflexivity.
  - intros (k & Hf & Hg). vm_compute in Hf, Hg. congruence.
  - vm_compute. reflexivity.
Defined.

(** A delegate under [x/meta/] and one under the top-level [meta/]. *)
Definition nested_world : world :=
  mkWorld (list_to_map [([], Dir); (["repo"], Dir); (["repo"; "scripts"], Dir);
                        (["repo"; "x"], Dir); (["repo"; "x"; "meta"], Dir);
                        (["repo"; "x"; "meta"; "notes.md"], File "n");
                        (["repo"; "meta"], Dir); (["repo"; "meta"; "top.md"], File "t")]) ∅ ∅ [].

Lemma run_indexes_nested_meta_witness :
  exists w' s vs, Generator.run sample_dir nested_world = (w', 0) /\
    w_fs w' !! Generator.indexFilePath sample_dir = Some (File s) /\
    Json.stringify (JArray vs) = Some s /\
    Aliasing.final_entry sample_dir (w_fs nested_world)
      (glob_walk (w_fs nested_world) (Generator.delegateDirectory sample_dir)) ["x"; "meta"; "notes.md"]
      ∈ vs.
Proof.
  apply (Findings.run_indexes_nested_meta sample_dir eq_refl nested_world "x" "notes.md").
  - apply FS.wfb_wf. vm_compute. reflexivity.
  - reflexivity.
  - vm_compute. reflexivity.
  - vm_compute. discriminate.
  - apply forallb_elem. vm_compute. reflexivity.
  - vm_compute. by eexists.
  - discriminate.
  - discriminate.
  - reflexivity.
  - reflexivity.
  - reflexivity.
  - discriminate.
Defined.
(** A draft under a hidden directory whose front matter does not parse. *)
Definition draft : Path.segs := [".drafts"; "doc.md"].

Definition drafts_world : world :=
  mkWorld (<[["repo"; ".drafts"; "doc.md"] := File "!broken"]>
             (<[["repo"; ".drafts"] := Dir]> sample_tree)) ∅ ∅ [].

Lemma run_skips_hidden_witness :
  draft ∉ glob_walk (w_fs drafts_world) (Generator.delegateDirectory sample_dir) /\
  exists w' s, Generator.run sample_dir drafts_world = (w', 0) /\
    w_fs w' !! Generator.indexFilePath sample_dir = Some (File s) /\
    Json.stringify (Aliasing.final_index sample_dir (w_fs drafts_world)
                      (glob_walk (w_fs drafts_world) (Generator.delegateDirectory sample_dir)))
    = Some s.
Proof.
  apply (Findings.run_skips_hidden sample_dir eq_refl drafts_world draft).
  - apply FS.wfb_wf. vm_compute. reflexivity.
  - reflexivity.
  - vm_compute. reflexivity.
  - vm_compute. discriminate.
  - vm_compute. discriminate.
  - apply forallb_elem. vm_compute. reflexivity.
  - exists ".drafts". split; [by left|reflexivity].
Defined.
(** The sample repository with a folder named [notes.md]. *)
Definition notes_dir : Path.segs := ["notes.md"].

Definition notes_world : world :=
  mkWorld (<[["repo"; "notes.md"] := Dir]> sample_tree) ∅ ∅ [].

Lemma run_fails_on_md_directory_witness :
  exists e w', Generator.run sample_dir notes_world = (w', 1) /\ w_fs w' = w_fs notes_world /\
    exists lines, w_console w' = lines ++ [StderrWith "Error generating delegates index:" e].
Proof.
  apply (Findings.run_fails_on_md_directory sample_dir eq_refl notes_world notes_dir).
  - apply FS.wfb_wf. vm_compute. reflexivity.
  - reflexivity.
  - reflexivity.
  - reflexivity.
  - reflexivity.
Defined.
End FindingsExamples.



Module OrderExamples.
Import RefinementExamples FindingsExamples.
#[local] Existing Instances toy_front_matter toy_json_parse code_unit_order.

(** The three delegates of [sample_tree], walked in two orders. *)
Lemma run_order_independent_witness :
  exists w1 w2 s,
    @Generator.run _ _ _ enum_walk sample_dir sample_world = (w1, 0) /\
    @Generator.run _ _ _ rev_walk sample_dir sample_world = (w2, 0) /\
    w_fs w1 !! Generator.indexFilePath sample_dir = Some (File s) /\
    w_fs w2 !! Generator.indexFilePath sample_dir = Some (File s).
Proof.
  refine (@Findings.run_order_independent toy_front_matter toy_json_parse code_unit_order (collate_by_laws id)
            sample_dir eq_refl enum_walk rev_walk enum_walk_spec rev_walk_spec sample_world
            _ _ _ _ _ _ _ _).
  - apply FS.wfb_wf. vm_compute. reflexivity.
  - reflexivity.
  - vm_compute. reflexivity.
  - vm_compute. discriminate.
  - vm_compute. discriminate.
  - apply forallb_elem. vm_compute. reflexivity.
  - apply Refinement.no_alias_b_spec. vm_compute. reflexivity.
  - assert (forallb (fun f => forallb (fun g => bool_decide (f = g) ||
              negb (bool_decide (locale_compare (Path.render_rel f) (Path.render_rel g) = Eq)))
              (@glob_walk enum_walk (w_fs sample_world) (Generator.delegateDirectory sample_dir)))
              (@glob_walk enum_walk (w_fs sample_world) (Generator.delegateDirectory sample_dir))
            = true) as Hb by (vm_compute; reflexivity).
    intros f g Hf Hg Heq. pose proof (forallb_pairs _ _ Hb f g Hf Hg) as Hfg. cbn beta in Hfg.
    rewrite (bool_decide_eq_true_2 _ Heq) in Hfg.
    apply orb_prop in Hfg as [Hfg|Hfg]; [|done]. by apply bool_decide_eq_true_1 in Hfg.
Defined.
End OrderExamples.
