(* ===== verification/Safety.v ===== *)
(** * What a run may change on disk, and how it ends

    [Safety.keeps R m]: whatever world [m] starts in, [R] relates the
    file tree it found to the tree it leaves. For a preorder [R] the
    predicate is closed under the monad's combinators, and every library
    call of the script but [writeFileSync] leaves the tree alone, so it is
    proved of whole programs by the hint database [delegates] and the
    tactic [keeps_tac]. With [R] the equality, the loop of lines 60-108
    writes nothing; with [R] = [written_at p] ([only_writes p]), the
    whole script writes at most one file at [index.json]. Hence
    [run_outcome] lists the three ways a run ends (the directory is
    missing; the index is written; status 1 with the tree untouched);
    and when [index.json] is a directory every run ends in the [catch]. *)

From S2P Require Import Prelude JsValue Json Paths FileSystem Sort Glob Runtime FrontMatter Engines Generator Refinement.

Module Safety.
Import Generator.

(** [keeps R m]: whatever world [m] starts in, [R] relates the tree it
    found to the tree it leaves. *)
Definition keeps {A : Type} (R : relation FS.tree) (m : M A) : Prop :=
  forall w, R (w_fs w) (w_fs (snd (m w))).

Section Closure.
Context (R : relation FS.tree) `{!PreOrder R}.

Lemma keeps_ret {A} (a : A) : keeps R (mret a).
Proof. intros w. reflexivity. Qed.

Lemma keeps_bind {A B} (m : M A) (k : A -> M B) :
  keeps R m -> (forall a, keeps R (k a)) -> keeps R (m ≫= k).
Proof.
  intros Hm Hk w. specialize (Hm w). rewrite bind_unfold.
  destruct (m w) as [[a|e] w'] eqn:E; [|done]. etrans; [exact Hm|apply Hk].
Qed.

Lemma keeps_catch {A} (m : M A) (h : exn -> M A) :
  keeps R m -> (forall e, keeps R (h e)) -> keeps R (catch m h).
Proof.
  intros Hm Hh w. specialize (Hm w). unfold catch.
  destruct (m w) as [[a|e] w'] eqn:E; [done|]. etrans; [exact Hm|apply Hh].
Qed.

Lemma keeps_throw {A} e : keeps R (throw e : M A).
Proof. intros w. reflexivity. Qed.

Lemma keeps_gets {A} (f : world -> A) : keeps R (gets f).
Proof. intros w. reflexivity. Qed.

Lemma keeps_modify (f : world -> world) : (forall w, w_fs (f w) = w_fs w) -> keeps R (modify f).
Proof. intros Hf w. simpl. rewrite Hf. reflexivity. Qed.

Lemma keeps_console l : keeps R (modify (add_line l)).
Proof. by apply keeps_modify. Qed.

Lemma keeps_read q : keeps R (read_file_sync q).
Proof. intros w. unfold read_file_sync. case_match; reflexivity. Qed.

Lemma keeps_readdir q : keeps R (readdir_sync q).
Proof. intros w. unfold readdir_sync. case_match; reflexivity. Qed.

Lemma keeps_alloc v : keeps R (alloc v).
Proof. intros w. reflexivity. Qed.

Lemma keeps_set_prop l k x : keeps R (set_prop l k x).
Proof. intros w. unfold set_prop. repeat case_match; reflexivity. Qed.

Lemma keeps_for_push {A B} (f : A -> M B) xs :
  (forall x, keeps R (f x)) -> forall acc, keeps R (for_push f acc xs).
Proof.
  intros Hf. induction xs as [|x xs IH]; intros acc; simpl; [apply keeps_ret|].
  apply keeps_bind; [apply Hf|intros b; apply IH].
Qed.
End Closure.

(** [t'] is [t], or [t] after one successful write of a file at [p]. *)
Definition written_at (p : Path.segs) (t t' : FS.tree) : Prop :=
  t' = t \/ exists s, FS.write_file_sync t p s = inr t'.

(** A second write at [p] replaces the first. *)
#[export] Instance written_at_preorder p : PreOrder (written_at p).
Proof.
  split; [intros t; by left|]. intros t1 t2 t3 [->|[s1 H1]] [->|[s2 H2]];
    [by left|by right; eauto|by right; eauto|right].
  apply FS.write_file_sync_ok in H1 as (-> & Hd & Hnd).
  apply FS.write_file_sync_ok in H2 as (-> & _ & _).
  exists s2. unfold FS.write_file_sync. rewrite Hd, insert_insert_eq.
  destruct (t1 !! p) as [[]|]; [done|congruence|done].
Qed.

(** [m] changes the tree by at most one write at [p]. *)
Abbreviation only_writes p := (keeps (written_at p)).

Lemma only_writes_write p s : only_writes p (write_file_sync p s).
Proof.
  intros w. unfold write_file_sync. destruct (FS.write_file_sync _ _ _) eqn:E; [by left|by right; exists s].
Qed.

#[export] Hint Resolve keeps_ret keeps_throw keeps_gets keeps_console keeps_read keeps_readdir
  keeps_alloc keeps_set_prop keeps_for_push only_writes_write : delegates.
#[export] Hint Extern 0 (PreOrder _) => typeclasses eauto : delegates.

(** Split a program into its calls and close each by the hints. *)
Ltac keeps_tac :=
  repeat first
    [ solve [eauto with delegates]
    | apply keeps_bind; intros
    | apply keeps_catch; intros
    | progress case_match ].

Section Script.
Context `{FrontMatterEngine} `{JsonParser} `{LocaleCompare} `{GlobWalk}.
Variable script_dir : Path.segs.

Local Abbreviation idx := (indexFilePath script_dir).

(** The loop body writes nothing: any preorder relates its trees. *)
Section NoWrite.
Context (R : relation FS.tree) `{!PreOrder R}.

Lemma keeps_matter c : keeps R (matter c).
Proof. unfold matter, get_world. keeps_tac. all: apply keeps_modify; first [exact _ | by intros []]. Qed.

Lemma keeps_json_parse s : keeps R (json_parse_m s).
Proof. unfold json_parse_m. keeps_tac. Qed.

#[local] Hint Resolve keeps_matter keeps_json_parse : delegates.

Lemma keeps_load_metrics dir contents rel : keeps R (load_metrics dir contents rel).
Proof. unfold load_metrics, console_error. keeps_tac. Qed.

#[local] Hint Resolve keeps_load_metrics : delegates.

Lemma keeps_process_file f : keeps R (process_file script_dir f).
Proof. unfold process_file. cbv zeta. keeps_tac. Qed.
End NoWrite.

(** The loop of lines 60-108 leaves the tree as it found it. *)
Lemma loop_keeps_fs files w acc :
  w_fs (snd (for_push (process_file script_dir) acc files w)) = w_fs w.
Proof. symmetry. apply (keeps_for_push eq). intros f. apply (keeps_process_file eq). Qed.

Lemma only_writes_write_json v : only_writes idx (write_json idx v).
Proof. unfold write_json. keeps_tac. Qed.

#[local] Hint Resolve keeps_process_file only_writes_write_json : delegates.

Lemma only_writes_body : only_writes idx (body script_dir).
Proof. unfold body, console_log, get_world, exists_sync. keeps_tac. Qed.

#[local] Hint Resolve only_writes_body : delegates.

Lemma only_writes_generate : only_writes idx (generateDelegateIndex script_dir).
Proof. unfold generateDelegateIndex, console_error_with. keeps_tac. Qed.

(** A program that writes at most [idx] leaves the tree alone when [idx]
    is a directory, since writing a directory fails. *)
Lemma only_writes_dir_keep {A} (m : M A) w :
  only_writes idx m -> w_fs w !! idx = Some Dir -> w_fs (snd (m w)) = w_fs w.
Proof.
  intros Hm Hd. destruct (Hm w) as [->|[s Hs]]; [done|].
  unfold FS.write_file_sync in Hs. rewrite Hd in Hs.
  destruct (w_fs w !! removelast idx) as [[]|]; discriminate.
Qed.

(** Lines 52 and 114: writing an array either replaces [index.json] by
    its JSON text or throws, leaving the world as it was. *)
Lemma write_json_outcome vs w :
  (exists s, Json.stringify (JArray vs) = Some s /\
     write_json idx (JArray vs) w = (Ok tt, set_fs (<[idx := File s]> (w_fs w)) w)) \/
  (exists e, write_json idx (JArray vs) w = (Throw e, w)).
Proof.
  unfold write_json. destruct (Json.serialize_defined 0 (JArray vs)) as [s Hs]; [done|].
  unfold Json.stringify. rewrite Hs. unfold write_file_sync.
  destruct (FS.write_file_sync (w_fs w) idx s) as [e|t'] eqn:E; [by right; eexists|left].
  apply FS.write_file_sync_ok in E as [-> _]. by exists s.
Qed.

Local Abbreviation not_found :=
  ("Delegates directory not found: " +:+ Path.render_abs (delegateDirectory script_dir)
   +:+ ". Skipping generation.").

(** The three ways the [try] block of lines 35-118 ends. *)
Lemma body_cases w :
  (FS.exists_sync (w_fs w) (delegateDirectory script_dir) = false /\
     body script_dir w = (Ok tt, add_line (Stdout not_found) w)) \/
  (exists s vs w', Json.stringify (JArray vs) = Some s /\ body script_dir w = (Ok tt, w') /\
     w_fs w' = <[idx := File s]> (w_fs w)) \/
  (exists e w', body script_dir w = (Throw e, w') /\ w_fs w' = w_fs w).
Proof.
  unfold body. rewrite (bind_ok _ _ _ _ _ (exists_sync_run _ _)).
  destruct (FS.exists_sync (w_fs w) (delegateDirectory script_dir)) eqn:Ex; cbn [negb]; [|by left].
  right. rewrite (bind_ok _ _ _ _ _ (console_log_run _ _)), bind_unfold. cbn [gets].
  change (w_fs (add_line ?l w)) with (w_fs w).
  destruct (glob_walk (w_fs w) (delegateDirectory script_dir)) as [|f0 rest];
    rewrite (bind_ok _ _ _ _ _ (console_log_run _ _)).
  - match goal with |- context [write_json _ _ ?w2] =>
      destruct (write_json_outcome [] w2) as [(s & Hs & Hw)|(e & Hw)] end; rewrite Hw; eauto 10.
  - rewrite bind_unfold.
    match goal with |- context [for_push ?f [] ?l ?w2] =>
      pose proof (loop_keeps_fs l w2 []) as Hk;
      destruct (for_push f [] l w2) as [[es|e] w3] eqn:El end; simpl in Hk; [|by eauto].
    rewrite bind_unfold. cbn [get_world gets id]. unfold index_value.
    destruct (write_json_outcome (map (entry_value (w_heap w3)) (Sort.sort entry_cmp es)) w3)
      as [(s & Hs & Hw)|(e & Hw)].
    + rewrite (bind_ok _ _ _ _ _ Hw), console_log_run. left. do 3 eexists. split_and!; [exact Hs|done|].
      cbn. by rewrite Hk.
    + rewrite (bind_throw _ _ _ _ _ Hw). eauto.
Qed.

(** C18: every run terminates, in one of three outcomes: the directory
    is missing and the run logs it, changes nothing and exits 0; or it
    replaces [index.json] by the JSON text of an array and exits 0; or it
    exits 1 with the file tree as it found it (no partial index) and the
    error of line 120 as its last console line. *)
Theorem run_outcome w :
  (FS.exists_sync (w_fs w) (delegateDirectory script_dir) = false /\
     run script_dir w = (add_line (Stdout not_found) w, 0)) \/
  (exists s vs w', Json.stringify (JArray vs) = Some s /\ run script_dir w = (w', 0) /\
     w_fs w' = <[idx := File s]> (w_fs w)) \/
  (exists e w', run script_dir w = (w', 1) /\ w_fs w' = w_fs w /\
     exists lines, w_console w' = lines ++ [StderrWith "Error generating delegates index:" e]).
Proof.
  unfold run, generateDelegateIndex, catch.
  destruct (body_cases w) as [[Hx Hb]|[(s & vs & w' & Hs & Hb & Hfs)|(e & w' & Hb & Hfs)]];
    rewrite Hb; [by left|right; left; eauto 10|right; right].
  exists e, (add_line (StderrWith "Error generating delegates index:" e) w'). split_and!; [done..|].
  by eexists.
Qed.

Hypothesis Hsd_clean : Path.clean script_dir = true.

(** When [index.json] is a directory, the [try] block of lines 35-118
    throws: the loop fails, or the write at its end does. *)
Lemma body_index_dir w :
  FS.wf (w_fs w) -> w_fs w !! idx = Some Dir ->
  exists e w1, body script_dir w = (Throw e, w1) /\ w_fs w1 = w_fs w.
Proof.
  intros (_ & Hpar & _) Hd. pose proof (only_writes_dir_keep _ w only_writes_body Hd) as Hk.
  destruct (body_cases w) as [[Hx _]|[(s & vs & w' & _ & Hb & Hfs)|?]]; [exfalso|exfalso|done].
  - rewrite (Refinement.idx_eq script_dir Hsd_clean) in Hd. unfold FS.exists_sync in Hx.
    by rewrite (Hpar _ _ _ Hd) in Hx.
  - rewrite Hb in Hk. simpl in Hk. rewrite Hfs in Hk.
    apply (f_equal (lookup idx)) in Hk. by rewrite lookup_insert_eq, Hd in Hk.
Qed.

(** C15: when [index.json] is a directory, every run fails: it exits 1,
    leaves the tree as it was, and its last console line is the error of
    line 120, whatever the documents are. *)
Theorem run_index_dir_fails w :
  FS.wf (w_fs w) -> w_fs w !! idx = Some Dir ->
  exists e w', run script_dir w = (w', 1) /\ w_fs w' = w_fs w /\
    exists lines, w_console w' = lines ++ [StderrWith "Error generating delegates index:" e].
Proof.
  intros Hwf Hd. destruct (body_index_dir w Hwf Hd) as (e & w1 & Hb & Hfs).
  exists e, (add_line (StderrWith "Error generating delegates index:" e) w1).
  unfold run, generateDelegateIndex, catch. rewrite Hb. split_and!; [done|done|]. by eexists.
Qed.

End Script.
End Safety.

(** ** Examples *)
Module SafetyExamples.
Import RefinementExamples.
#[local] Existing Instances toy_front_matter toy_json_parse code_unit_order.

(** The sample repository with a directory where [index.json] goes. *)
Definition dir_world : world :=
  mkWorld (<[["repo"; "index.json"] := Dir]> sample_tree) ∅ ∅ [].

Lemma run_index_dir_fails_witness :
  exists e w', Generator.run sample_dir dir_world = (w', 1) /\ w_fs w' = w_fs dir_world /\
    exists lines, w_console w' = lines ++ [StderrWith "Error generating delegates index:" e].
Proof.
  apply (Safety.run_index_dir_fails sample_dir eq_refl dir_world).
  - apply FS.wfb_wf. vm_compute. reflexivity.
  - vm_compute. reflexivity.
Defined.
End SafetyExamples.
