(* ===== verification/Properties.v ===== *)
(** * End-to-end properties of a run

    The behaviour the specification describes, proved of [Generator.run]:
    the two early exits (no directory, no document), and, on top of
    [Aliasing.run_final], the [address] of a [0x] folder, a parsed
    [metrics.json], and a malformed one that is reported and left out.
    An entry of the written index is stated as a member of the array
    whose [JSON.stringify] is the file's text. [run_index_reads_back]
    composes the run with the reader of [JsonRoundtrip]: [JSON.parse] of
    the written file gives the index back. [run_empty_document] is the
    boundary case of [matter]: an empty text returns before the cache,
    so its document keeps an object of its own; a text that names an
    [Object.prototype] property finds that property in the cache and
    gets [undefined] ([run_prototype_name_document],
    [run_fails_on_prototype_name]). The section [GrayMatterRun]
    takes [gray-matter]'s own parse ([GrayMatter.parse_matter]) for the
    engine: a document without front matter gets [{}], and one that opens
    with a thematic break and is not YAML fails the run. *)

From S2P Require Import Prelude JsValue Json JsonParse JsonRoundtrip Paths FileSystem Sort Glob Runtime FrontMatter Engines GrayMatter Generator Refinement Loop Aliasing.

Module Properties.
Import Generator Refinement Aliasing.

Section Properties.
Context `{FrontMatterEngine} `{JsonParser} `{LocaleCompare} `{GlobWalk} `{!GlobWalkSpec}.
Variable script_dir : Path.segs.
Hypothesis Hsd_clean : Path.clean script_dir = true.

Local Abbreviation dd := (delegateDirectory script_dir).
Local Abbreviation idx := (indexFilePath script_dir).

(** The written index holds the specified entry of every document, and
    the console the metrics errors of every document. *)
Lemma run_entry w files f :
  FS.wf (w_fs w) -> w_cache w = ∅ -> w_fs w !! dd = Some Dir -> w_fs w !! idx <> Some Dir ->
  glob_walk (w_fs w) dd = files ->
  (forall g, g ∈ files -> doc_ok script_dir (w_fs w) g = true) -> f ∈ files ->
  exists w' s vs, run script_dir w = (w', 0) /\ w_fs w' !! idx = Some (File s) /\
    Json.stringify (JArray vs) = Some s /\ final_entry script_dir (w_fs w) files f ∈ vs /\
    (forall l, l ∈ metrics_log script_dir (w_fs w) f -> l ∈ w_console w').
Proof.
  intros Hwf Hc Hdd Hidx Hglob Hok Hf.
  assert (files <> []) as Hne by (intros ->; by apply not_elem_of_nil in Hf).
  destruct (run_final script_dir Hsd_clean w files Hwf Hc Hdd Hidx Hglob Hne Hok)
    as (s & w' & Hs & Hrun & Hfs & Hcon).
  exists w', s, (map (final_entry script_dir (w_fs w) files) (Sort.sort (path_cmp) files)).
  split; [done|]. split; [rewrite Hfs; apply lookup_insert_eq|]. split; [exact Hs|]. split.
  - apply list_elem_of_fmap. exists f. split; [done|]. by rewrite Sort.sort_perm.
  - intros l Hl. rewrite Hcon. apply elem_of_app. right. apply elem_of_app. right.
    apply elem_of_app. left. apply list_elem_of_In, in_concat.
    exists (metrics_log script_dir (w_fs w) f). split; [|by apply list_elem_of_In].
    apply in_map, list_elem_of_In, Hf.
Qed.

(** C5: a document in a folder whose name starts with [0x], whose text
    no other document has, is written with a metadata object whose
    [address] is the folder's name and whose other keys are those of its
    front matter. *)
Theorem run_sets_address w files f c ps :
  FS.wf (w_fs w) -> w_cache w = ∅ -> w_fs w !! dd = Some Dir -> w_fs w !! idx <> Some Dir ->
  glob_walk (w_fs w) dd = files ->
  (forall g, g ∈ files -> doc_ok script_dir (w_fs w) g = true) -> f ∈ files ->
  (forall g, g ∈ files -> g <> f -> ~ shares_content script_dir (w_fs w) f g) ->
  doc_content script_dir (w_fs w) f = Some c -> matter_value c = Some (JObject ps) ->
  String.prefix "0x" (dir_name f) = true ->
  exists w' s vs ps' m, run script_dir w = (w', 0) /\ w_fs w' !! idx = Some (File s) /\
    Json.stringify (JArray vs) = Some s /\
    JObject [("path", JString (Path.render_rel f)); ("metadata", JObject ps'); ("metrics", m)] ∈ vs /\
    JsObject.get ps' "address" = Some (JString (dir_name f)) /\
    (forall k, k <> "address" -> JsObject.get ps' k = JsObject.get ps k).
Proof.
  intros Hwf Hc Hdd Hidx Hglob Hok Hf Hna Hcf Hv H0x.
  destruct (glob_walk_spec (w_fs w) dd) as [Hnd _]. rewrite Hglob in Hnd.
  destruct (run_entry w files f Hwf Hc Hdd Hidx Hglob Hok Hf)
    as (w' & s & vs & Hrun & Hidx' & Hs & Hin & _).
  unfold final_entry in Hin. rewrite final_meta_unshared in Hin by auto.
  unfold meta_value, address_update in Hin. rewrite Hcf in Hin. simpl in Hin.
  rewrite Hv in Hin. simpl in Hin. rewrite H0x in Hin. simpl in Hin.
  exists w', s, vs, (JsObject.set ps "address" (JString (dir_name f))),
    (default JUndefined (metrics_value script_dir (w_fs w) f)).
  repeat split; [done..| |].
  - apply JsObject.get_set_eq.
  - intros k Hk. by apply JsObject.get_set_ne.
Qed.

(** C6: a document whose folder holds a [metrics.json] that parses is
    written with that parsed value as its [metrics], whatever the other
    documents are. *)
Theorem run_attaches_metrics w files f m v :
  FS.wf (w_fs w) -> w_cache w = ∅ -> w_fs w !! dd = Some Dir -> w_fs w !! idx <> Some Dir ->
  glob_walk (w_fs w) dd = files ->
  (forall g, g ∈ files -> doc_ok script_dir (w_fs w) g = true) -> f ∈ files ->
  w_fs w !! metrics_path script_dir f = Some (File m) -> json_parse m = inr v ->
  exists w' s vs md, run script_dir w = (w', 0) /\ w_fs w' !! idx = Some (File s) /\
    Json.stringify (JArray vs) = Some s /\
    JObject [("path", JString (Path.render_rel f)); ("metadata", md); ("metrics", v)] ∈ vs.
Proof.
  intros Hwf Hc Hdd Hidx Hglob Hok Hf Hm Hv.
  destruct (run_entry w files f Hwf Hc Hdd Hidx Hglob Hok Hf)
    as (w' & s & vs & Hrun & Hidx' & Hs & Hin & _).
  unfold final_entry, metrics_value, metrics_outcome in Hin. rewrite Hm, Hv in Hin.
  by exists w', s, vs, (default JUndefined (final_meta script_dir (w_fs w) files f)).
Qed.

(** The entry and the error line of a document whose [metrics.json]
    does not parse. *)
Lemma bad_metrics_entry w files f m msg :
  FS.wf (w_fs w) -> w_cache w = ∅ -> w_fs w !! dd = Some Dir -> w_fs w !! idx <> Some Dir ->
  glob_walk (w_fs w) dd = files ->
  (forall g, g ∈ files -> doc_ok script_dir (w_fs w) g = true) -> f ∈ files ->
  w_fs w !! metrics_path script_dir f = Some (File m) -> json_parse m = inl msg ->
  exists w' s vs md, run script_dir w = (w', 0) /\ w_fs w' !! idx = Some (File s) /\
    Json.stringify (JArray vs) = Some s /\
    JObject [("path", JString (Path.render_rel f)); ("metadata", md); ("metrics", JUndefined)] ∈ vs /\
    (forall d, Json.serialize d (JObject [("path", JString (Path.render_rel f)); ("metadata", md);
                                          ("metrics", JUndefined)])
             = Json.serialize d (JObject [("path", JString (Path.render_rel f)); ("metadata", md)])) /\
    Stderr ("Error parsing metrics file for " +:+ Path.render_rel f +:+ ": " +:+ msg) ∈ w_console w'.
Proof.
  intros Hwf Hc Hdd Hidx Hglob Hok Hf Hm Hv.
  destruct (run_entry w files f Hwf Hc Hdd Hidx Hglob Hok Hf)
    as (w' & s & vs & Hrun & Hidx' & Hs & Hin & Hlog).
  unfold final_entry, metrics_value, metrics_outcome in Hin. rewrite Hm, Hv in Hin.
  exists w', s, vs, (default JUndefined (final_meta script_dir (w_fs w) files f)).
  split; [done|]. split; [done|]. split; [done|]. split; [done|]. split.
  - intros d. apply (Json.serialize_drop_undefined d [_; _] "metrics" []).
  - apply Hlog. unfold metrics_log, metrics_outcome. rewrite Hm, Hv. by left.
Qed.

(** C7: when the sibling [metrics.json] does not parse, the run still
    exits 0, the document's entry has no [metrics] key in the written
    text, and an error line names the document and the parse error. *)
Theorem run_reports_bad_metrics w files f m msg :
  FS.wf (w_fs w) -> w_cache w = ∅ -> w_fs w !! dd = Some Dir -> w_fs w !! idx <> Some Dir ->
  glob_walk (w_fs w) dd = files ->
  (forall g, g ∈ files -> doc_ok script_dir (w_fs w) g = true) -> f ∈ files ->
  w_fs w !! metrics_path script_dir f = Some (File m) -> json_parse m = inl msg ->
  exists w' s vs md, run script_dir w = (w', 0) /\ w_fs w' !! idx = Some (File s) /\
    Json.stringify (JArray vs) = Some s /\
    JObject [("path", JString (Path.render_rel f)); ("metadata", md); ("metrics", JUndefined)] ∈ vs /\
    (forall d, Json.serialize d (JObject [("path", JString (Path.render_rel f)); ("metadata", md);
                                          ("metrics", JUndefined)])
             = Json.serialize d (JObject [("path", JString (Path.render_rel f)); ("metadata", md)])) /\
    Stderr ("Error parsing metrics file for " +:+ Path.render_rel f +:+ ": " +:+ msg) ∈ w_console w'.
Proof. exact (bad_metrics_entry w files f m msg). Qed.

(** C8: when the directory above the script does not exist, the run
    prints one line, changes nothing else and exits 0. *)
Theorem run_missing_root w :
  FS.exists_sync (w_fs w) dd = false ->
  run script_dir w =
    (add_line (Stdout ("Delegates directory not found: " +:+ Path.render_abs dd
                       +:+ ". Skipping generation.")) w, 0).
Proof.
  intros Hex. unfold run, generateDelegateIndex, body, catch.
  by rewrite (bind_ok _ _ _ _ _ (exists_sync_run _ _)), Hex.
Qed.

(** C9: when no document matches, the run writes [[]] to [index.json]
    and exits 0. *)
Theorem run_no_documents w :
  w_fs w !! dd = Some Dir -> w_fs w !! idx <> Some Dir -> glob_walk (w_fs w) dd = [] ->
  exists w', run script_dir w = (w', 0) /\ w_fs w' = <[idx := File "[]"]> (w_fs w) /\
    w_console w' = w_console w ++
      [Stdout ("Searching for markdown files in: " +:+ Path.render_abs dd);
       Stdout "No markdown files found in the delegates directory."].
Proof.
  intros Hdd Hidx Hglob. unfold run, generateDelegateIndex, body, catch.
  rewrite (bind_ok _ _ _ _ _ (exists_sync_run _ _)).
  unfold FS.exists_sync. rewrite Hdd. cbn [negb].
  rewrite (bind_ok _ _ _ _ _ (console_log_run _ _)).
  rewrite bind_unfold. cbn [gets w_fs add_line]. rewrite Hglob.
  rewrite (bind_ok _ _ _ _ _ (console_log_run _ _)).
  unfold write_json. cbn [Json.stringify Json.serialize Json.wrap].
  rewrite (write_index script_dir Hsd_clean); [|done..].
  eexists. split; [reflexivity|]. cbn. by rewrite <- app_assoc.
Qed.

(** C13: after a successful run, a reader that calls [JSON.parse] on
    [index.json] gets back the index the script built, with the
    [undefined] [metrics] of documents without metrics left out; this
    holds when the numbers in the front matter and the metrics are written
    by their ToString text and no object has a repeated key. *)
Theorem run_index_reads_back number_text w files :
  FS.wf (w_fs w) -> w_cache w = ∅ -> w_fs w !! dd = Some Dir -> w_fs w !! idx <> Some Dir ->
  glob_walk (w_fs w) dd = files -> files <> [] ->
  (forall f, f ∈ files -> doc_ok script_dir (w_fs w) f = true) ->
  JsonParse.json_ok number_text (final_index script_dir (w_fs w) files) = true ->
  exists s w', run script_dir w = (w', 0) /\ w_fs w' !! idx = Some (File s) /\
    JsonParse.parse number_text s
    = Some (JsonParse.json_of (final_index script_dir (w_fs w) files)).
Proof.
  intros Hwf Hc Hdd Hidx Hglob Hne Hok Hjs.
  destruct (run_final script_dir Hsd_clean w files Hwf Hc Hdd Hidx Hglob Hne Hok)
    as (s & w' & Hs & Hrun & Hfs & _).
  exists s, w'. split_and!; [done|by rewrite Hfs, lookup_insert_eq|].
  by apply JsonRoundtrip.parse_stringify.
Qed.

(** C25: a document with an empty text in a [0x] folder is written with
    the metadata [{ address }] of its own folder, whatever the other
    documents are: [matter('')] returns before the cache, so empty
    documents never share their metadata object, unlike documents of one
    non-empty text. *)
Theorem run_empty_document w files f :
  FS.wf (w_fs w) -> w_cache w = ∅ -> w_fs w !! dd = Some Dir -> w_fs w !! idx <> Some Dir ->
  glob_walk (w_fs w) dd = files ->
  (forall g, g ∈ files -> doc_ok script_dir (w_fs w) g = true) -> f ∈ files ->
  doc_content script_dir (w_fs w) f = Some "" -> String.prefix "0x" (dir_name f) = true ->
  exists w' s vs m, run script_dir w = (w', 0) /\ w_fs w' !! idx = Some (File s) /\
    Json.stringify (JArray vs) = Some s /\
    JObject [("path", JString (Path.render_rel f));
             ("metadata", JObject [("address", JString (dir_name f))]); ("metrics", m)] ∈ vs.
Proof.
  intros Hwf Hc Hdd Hidx Hglob Hok Hf Hcf H0x.
  destruct (run_entry w files f Hwf Hc Hdd Hidx Hglob Hok Hf)
    as (w' & s & vs & Hrun & Hidx' & Hs & Hin & _).
  unfold final_entry, final_meta in Hin. rewrite Hcf in Hin. cbn [mbind option_bind cache_key] in Hin.
  unfold meta_value, address_update in Hin. rewrite Hcf, H0x in Hin.
  by exists w', s, vs, (default JUndefined (metrics_value script_dir (w_fs w) f)).
Qed.

(** C26: [matter.cache] is a plain object, so a document whose text
    (without a byte-order mark) is the name of a property of
    [Object.prototype], such as [toString] or [constructor], finds that
    inherited value in the cache and gets [data] [undefined], whatever
    the front-matter engine. When every document can be processed (so
    that one is outside a [0x] folder, C27), the run exits 0 and writes
    it without a [metadata] member. *)
Theorem run_prototype_name_document w files f c :
  FS.wf (w_fs w) -> w_cache w = ∅ -> w_fs w !! dd = Some Dir -> w_fs w !! idx <> Some Dir ->
  glob_walk (w_fs w) dd = files ->
  (forall g, g ∈ files -> doc_ok script_dir (w_fs w) g = true) -> f ∈ files ->
  doc_content script_dir (w_fs w) f = Some c -> inherited (strip_bom c) = true ->
  exists w' s vs m, run script_dir w = (w', 0) /\ w_fs w' !! idx = Some (File s) /\
    Json.stringify (JArray vs) = Some s /\
    JObject [("path", JString (Path.render_rel f)); ("metadata", JUndefined); ("metrics", m)] ∈ vs.
Proof.
  intros Hwf Hc Hdd Hidx Hglob Hok Hf Hcf Hi.
  destruct (run_entry w files f Hwf Hc Hdd Hidx Hglob Hok Hf)
    as (w' & s & vs & Hrun & Hidx' & Hs & Hin & _).
  destruct (matter_value_inherited c Hi) as [Hk Hv].
  pose proof (Hok f Hf) as Hokf. unfold doc_ok, meta_value in Hokf.
  unfold final_entry, final_meta, meta_value in Hin. rewrite Hcf in Hin, Hokf.
  cbn [mbind option_bind] in Hin, Hokf. rewrite Hk, Hv in Hin. rewrite Hv in Hokf.
  cbn [mbind option_bind] in Hin, Hokf. unfold address_update in Hin, Hokf.
  destruct (String.prefix "0x" (dir_name f)); [done|].
  by exists w', s, vs, (default JUndefined (metrics_value script_dir (w_fs w) f)).
Qed.

(** C27: in a [0x] folder, such a document makes line 100 assign
    [address] on [undefined]; the [TypeError] reaches the outer [catch],
    and the whole run exits 1 and leaves the tree as it was. *)
Theorem run_fails_on_prototype_name w f c :
  FS.wf (w_fs w) -> w_cache w = ∅ -> FS.exists_sync (w_fs w) dd = true ->
  f ∈ glob_walk (w_fs w) dd -> doc_content script_dir (w_fs w) f = Some c ->
  inherited (strip_bom c) = true -> String.prefix "0x" (dir_name f) = true ->
  exists e w', run script_dir w = (w', 1) /\ w_fs w' = w_fs w /\
    exists lines, w_console w' = lines ++ [StderrWith "Error generating delegates index:" e].
Proof.
  intros Hwf Hc Hex Hf Hcf Hi H0x. apply (Loop.run_fails_doc script_dir Hsd_clean w Hwf Hc Hex).
  exists f. split; [done|]. unfold doc_ok, meta_value. rewrite Hcf. cbn [mbind option_bind].
  rewrite (proj2 (matter_value_inherited c Hi)). cbn [mbind option_bind].
  unfold address_update. by rewrite H0x.
Qed.

End Properties.

(** ** Under [gray-matter]'s own parse *)
Section GrayMatterRun.
Context `{GrayMatter.FrontMatterEngines} `{JsonParser} `{LocaleCompare} `{GlobWalk} `{!GlobWalkSpec}.
#[local] Instance gray_matter : FrontMatterEngine := GrayMatter.gray_matter_engine.
Variable script_dir : Path.segs.
Hypothesis Hsd_clean : Path.clean script_dir = true.

Local Abbreviation dd := (delegateDirectory script_dir).
Local Abbreviation idx := (indexFilePath script_dir).

Lemma matter_value_plain c :
  inherited (strip_bom c) = false -> String.prefix "---" (strip_bom c) = false ->
  matter_value c = Some (JObject []).
Proof.
  intros Hi Hp. unfold matter_value, file_content. destruct (String.eqb c ""); [done|].
  rewrite Hi. by apply GrayMatter.parse_matter_plain.
Qed.

(** C16: under [gray-matter]'s parse, a document whose text does not
    open with [---] (after a byte-order mark), is not the name of a
    property of [Object.prototype], and that no other document shares is
    written with the metadata [{}], or [{ address }] with its folder's
    name when that starts with [0x]: it has no front matter. *)
Theorem run_plain_document w files f c :
  FS.wf (w_fs w) -> w_cache w = ∅ -> w_fs w !! dd = Some Dir -> w_fs w !! idx <> Some Dir ->
  glob_walk (w_fs w) dd = files ->
  (forall g, g ∈ files -> doc_ok script_dir (w_fs w) g = true) -> f ∈ files ->
  (forall g, g ∈ files -> g <> f -> ~ shares_content script_dir (w_fs w) f g) ->
  doc_content script_dir (w_fs w) f = Some c -> String.prefix "---" (strip_bom c) = false ->
  inherited (strip_bom c) = false ->
  exists w' s vs m, run script_dir w = (w', 0) /\ w_fs w' !! idx = Some (File s) /\
    Json.stringify (JArray vs) = Some s /\
    JObject [("path", JString (Path.render_rel f));
             ("metadata", JObject (if String.prefix "0x" (dir_name f)
                                   then [("address", JString (dir_name f))] else []));
             ("metrics", m)] ∈ vs.
Proof.
  intros Hwf Hc Hdd Hidx Hglob Hok Hf Hna Hcf Hplain Hi.
  destruct (glob_walk_spec (w_fs w) dd) as [Hnd _]. rewrite Hglob in Hnd.
  destruct (run_entry script_dir Hsd_clean w files f Hwf Hc Hdd Hidx Hglob Hok Hf)
    as (w' & s & vs & Hrun & Hidx' & Hs & Hin & _).
  unfold final_entry in Hin. rewrite final_meta_unshared in Hin by auto.
  unfold meta_value, address_update in Hin. rewrite Hcf in Hin. simpl in Hin.
  rewrite (matter_value_plain c Hi Hplain) in Hin. simpl in Hin.
  exists w', s, vs, (default JUndefined (metrics_value script_dir (w_fs w) f)).
  split_and!; [done..|]. by destruct (String.prefix "0x" (dir_name f)).
Qed.

(** C17: under [gray-matter]'s parse, a document that opens with a
    markdown thematic break [---] and has no second [---] line is read
    whole as YAML front matter; when that text is not YAML, the whole run
    exits 1 and leaves the tree as it was, as any failing document does. *)
Theorem run_fails_on_thematic_break w f body :
  FS.wf (w_fs w) -> w_cache w = ∅ -> FS.exists_sync (w_fs w) dd = true ->
  f ∈ glob_walk (w_fs w) dd ->
  doc_content script_dir (w_fs w) f = Some ("---" +:+ GrayMatter.chr 10 +:+ body) ->
  String.index 0 (GrayMatter.chr 10 +:+ "---") (GrayMatter.chr 10 +:+ body) = None ->
  GrayMatter.blank_block (GrayMatter.chr 10 +:+ body) = false ->
  GrayMatter.yaml_load (GrayMatter.chr 10 +:+ body) = None ->
  exists e w', run script_dir w = (w', 1) /\ w_fs w' = w_fs w /\
    exists lines, w_console w' = lines ++ [StderrWith "Error generating delegates index:" e].
Proof.
  intros Hwf Hc Hex Hf Hcf Hi Hb Hy. apply Loop.run_fails_doc; [done..|].
  exists f. split; [done|]. unfold doc_ok, meta_value. rewrite Hcf. simpl.
  assert (Hk : cache_key ("---" +:+ GrayMatter.chr 10 +:+ body)
               = Some ("---" +:+ GrayMatter.chr 10 +:+ body)) by reflexivity.
  rewrite (matter_value_key _ _ Hk).
  unfold fm_parse, gray_matter, GrayMatter.gray_matter_engine.
  by rewrite GrayMatter.parse_matter_unclosed, Hb, Hy.
Qed.

End GrayMatterRun.
End Properties.

(** ** Examples *)
Module PropertiesExamples.
Import RefinementExamples.
#[local] Existing Instances toy_front_matter toy_json_parse code_unit_order.

Definition alice : Path.segs := ["0xABC"; "delegate.md"].
Definition bob : Path.segs := ["b"; "doc.md"].

Lemma run_sets_address_witness :
  exists w' s vs ps' m, Generator.run sample_dir sample_world = (w', 0) /\
    w_fs w' !! Generator.indexFilePath sample_dir = Some (File s) /\
    Json.stringify (JArray vs) = Some s /\
    JObject [("path", JString (Path.render_rel alice)); ("metadata", JObject ps'); ("metrics", m)] ∈ vs /\
    JsObject.get ps' "address" = Some (JString (Refinement.dir_name alice)) /\
    (forall k, k <> "address" -> JsObject.get ps' k = JsObject.get [("body", JString "Alice")] k).
Proof.
  apply (Properties.run_sets_address sample_dir eq_refl sample_world sample_files alice "Alice").
  - apply FS.wfb_wf. vm_compute. reflexivity.
  - reflexivity.
  - vm_compute. reflexivity.
  - vm_compute. discriminate.
  - reflexivity.
  - apply forallb_elem. vm_compute. reflexivity.
  - apply (bool_decide_eq_true_1 (_ ∈ sample_files)). vm_compute. reflexivity.
  - intros g Hg Hne. apply (Refinement.no_alias_b_spec sample_dir sample_tree sample_files).
    + vm_compute. reflexivity.
    + apply (bool_decide_eq_true_1 (_ ∈ sample_files)). vm_compute. reflexivity.
    + done.
    + congruence.
  - vm_compute. reflexivity.
  - vm_compute. reflexivity.
  - vm_compute. reflexivity.
Defined.

Lemma run_attaches_metrics_witness :
  exists w' s vs md, Generator.run sample_dir sample_world = (w', 0) /\
    w_fs w' !! Generator.indexFilePath sample_dir = Some (File s) /\
    Json.stringify (JArray vs) = Some s /\
    JObject [("path", JString (Path.render_rel alice)); ("metadata", md); ("metrics", JObject [])] ∈ vs.
Proof.
  apply (Properties.run_attaches_metrics sample_dir eq_refl sample_world sample_files alice "{}").
  - apply FS.wfb_wf. vm_compute. reflexivity.
  - reflexivity.
  - vm_compute. reflexivity.
  - vm_compute. discriminate.
  - reflexivity.
  - apply forallb_elem. vm_compute. reflexivity.
  - apply (bool_decide_eq_true_1 (_ ∈ sample_files)). vm_compute. reflexivity.
  - vm_compute. reflexivity.
  - vm_compute. reflexivity.
Defined.

Lemma run_reports_bad_metrics_witness :
  exists w' s vs md, Generator.run sample_dir sample_world = (w', 0) /\
    w_fs w' !! Generator.indexFilePath sample_dir = Some (File s) /\
    Json.stringify (JArray vs) = Some s /\
    JObject [("path", JString (Path.render_rel bob)); ("metadata", md); ("metrics", JUndefined)] ∈ vs /\
    (forall d, Json.serialize d (JObject [("path", JString (Path.render_rel bob)); ("metadata", md);
                                          ("metrics", JUndefined)])
             = Json.serialize d (JObject [("path", JString (Path.render_rel bob)); ("metadata", md)])) /\
    Stderr ("Error parsing metrics file for " +:+ Path.render_rel bob +:+ ": " +:+ "Unexpected token")
      ∈ w_console w'.
Proof.
  apply (Properties.run_reports_bad_metrics sample_dir eq_refl sample_world sample_files bob "oops").
  - apply FS.wfb_wf. vm_compute. reflexivity.
  - reflexivity.
  - vm_compute. reflexivity.
  - vm_compute. discriminate.
  - reflexivity.
  - apply forallb_elem. vm_compute. reflexivity.
  - apply (bool_decide_eq_true_1 (_ ∈ sample_files)). vm_compute. reflexivity.
  - vm_compute. reflexivity.
  - vm_compute. reflexivity.
Defined.

Definition empty_world : world := mkWorld (list_to_map [([], Dir)]) ∅ ∅ [].

Lemma run_missing_root_witness :
  Generator.run sample_dir empty_world =
    (add_line (Stdout ("Delegates directory not found: "
                       +:+ Path.render_abs (Generator.delegateDirectory sample_dir)
                       +:+ ". Skipping generation.")) empty_world, 0).
Proof. apply Properties.run_missing_root. vm_compute. reflexivity. Defined.

Definition readme_world : world :=
  mkWorld (list_to_map [([], Dir); (["repo"], Dir); (["repo"; "scripts"], Dir);
                        (["repo"; "README.md"], File "readme")]) ∅ ∅ [].

Lemma run_no_documents_witness :
  exists w', Generator.run sample_dir readme_world = (w', 0) /\
    w_fs w' = <[Generator.indexFilePath sample_dir := File "[]"]> (w_fs readme_world) /\
    w_console w' = w_console readme_world ++
      [Stdout ("Searching for markdown files in: "
               +:+ Path.render_abs (Generator.delegateDirectory sample_dir));
       Stdout "No markdown files found in the delegates directory."].
Proof.
  apply (Properties.run_no_documents sample_dir eq_refl).
  - vm_compute. reflexivity.
  - vm_compute. discriminate.
  - vm_compute. reflexivity.
Defined.
Lemma run_index_reads_back_witness :
  exists s w', Generator.run sample_dir sample_world = (w', 0) /\
    w_fs w' !! Generator.indexFilePath sample_dir = Some (File s) /\
    JsonParse.parse (fun t => t) s
    = Some (JsonParse.json_of (Aliasing.final_index sample_dir sample_tree sample_files)).
Proof.
  apply (Properties.run_index_reads_back sample_dir eq_refl (fun t => t) sample_world sample_files).
  - apply FS.wfb_wf. vm_compute. reflexivity.
  - reflexivity.
  - vm_compute. reflexivity.
  - vm_compute. discriminate.
  - reflexivity.
  - vm_compute. discriminate.
  - apply forallb_elem. vm_compute. reflexivity.
  - vm_compute. reflexivity.
Defined.
(** A YAML engine that reads every block as the object [{ yaml }]. *)
#[local] Instance toy_engines : GrayMatter.FrontMatterEngines :=
  {| GrayMatter.yaml_load := fun s => Some (JObject [("yaml", JString s)]);
     GrayMatter.js_eval := fun _ => None |}.

Lemma run_plain_document_witness :
  exists w' s vs m,
    @Generator.run Properties.gray_matter toy_json_parse code_unit_order enum_walk
      sample_dir sample_world = (w', 0) /\
    w_fs w' !! Generator.indexFilePath sample_dir = Some (File s) /\
    Json.stringify (JArray vs) = Some s /\
    JObject [("path", JString (Path.render_rel alice));
             ("metadata", JObject [("address", JString "0xABC")]); ("metrics", m)] ∈ vs.
Proof.
  apply (Properties.run_plain_document sample_dir eq_refl sample_world sample_files alice "Alice").
  - apply FS.wfb_wf. vm_compute. reflexivity.
  - reflexivity.
  - vm_compute. reflexivity.
  - vm_compute. discriminate.
  - reflexivity.
  - apply forallb_elem. vm_compute. reflexivity.
  - apply (bool_decide_eq_true_1 (_ ∈ sample_files)). vm_compute. reflexivity.
  - intros g Hg Hne. apply (Refinement.no_alias_b_spec sample_dir sample_tree sample_files).
    + vm_compute. reflexivity.
    + apply (bool_decide_eq_true_1 (_ ∈ sample_files)). vm_compute. reflexivity.
    + done.
    + congruence.
  - vm_compute. reflexivity.
  - vm_compute. reflexivity.
  - vm_compute. reflexivity.
Defined.
(** A YAML engine that accepts a block only when it has a colon. *)
#[local] Instance colon_engines : GrayMatter.FrontMatterEngines :=
  {| GrayMatter.yaml_load := fun s =>
       match String.index 0 ":" s with Some _ => Some (JObject []) | None => None end;
     GrayMatter.js_eval := fun _ => None |}.

(** The sample repository with a note that opens with a thematic break. *)
Definition note_world : world :=
  mkWorld (<[["repo"; "b"; "doc.md"] := File ("---" +:+ GrayMatter.chr 10 +:+ "Some notes"
                                              +:+ GrayMatter.chr 10 +:+ "on voting")]> sample_tree)
          ∅ ∅ [].

Lemma run_fails_on_thematic_break_witness :
  exists e w',
    @Generator.run (@Properties.gray_matter colon_engines toy_json_parse) toy_json_parse
      code_unit_order enum_walk sample_dir note_world = (w', 1) /\ w_fs w' = w_fs note_world /\
    exists lines, w_console w' = lines ++ [StderrWith "Error generating delegates index:" e].
Proof.
  apply (@Properties.run_fails_on_thematic_break colon_engines toy_json_parse code_unit_order
           enum_walk enum_walk_spec sample_dir eq_refl note_world bob ("Some notes" +:+ GrayMatter.chr 10 +:+ "on voting")).
  - apply FS.wfb_wf. vm_compute. reflexivity.
  - reflexivity.
  - vm_compute. reflexivity.
  - apply (bool_decide_eq_true_1 (_ ∈ _)). vm_compute. reflexivity.
  - vm_compute. reflexivity.
  - vm_compute. reflexivity.
  - vm_compute. reflexivity.
  - vm_compute. reflexivity.
Defined.
(** Two delegates whose documents are empty. *)
Definition empty_twins_world : world :=
  mkWorld (<[["repo"; "0xA"; "a.md"] := File ""]> (<[["repo"; "0xA"] := Dir]>
           (<[["repo"; "0xB"; "b.md"] := File ""]> (<[["repo"; "0xB"] := Dir]> sample_tree)))) ∅ ∅ [].

Lemma run_empty_document_witness :
  exists w' s vs m, Generator.run sample_dir empty_twins_world = (w', 0) /\
    w_fs w' !! Generator.indexFilePath sample_dir = Some (File s) /\
    Json.stringify (JArray vs) = Some s /\
    JObject [("path", JString "0xA/a.md");
             ("metadata", JObject [("address", JString "0xA")]); ("metrics", m)] ∈ vs.
Proof.
  apply (Properties.run_empty_document sample_dir eq_refl empty_twins_world
           (glob_walk (w_fs empty_twins_world) (Generator.delegateDirectory sample_dir))
           ["0xA"; "a.md"]).
  - apply FS.wfb_wf. vm_compute. reflexivity.
  - reflexivity.
  - vm_compute. reflexivity.
  - vm_compute. discriminate.
  - reflexivity.
  - apply forallb_elem. vm_compute. reflexivity.
  - apply (bool_decide_eq_true_1 (_ ∈ _)). vm_compute. reflexivity.
  - reflexivity.
  - reflexivity.
Defined.
(** A document whose whole text is [toString], beside Bob's, and one
    whose text is [constructor] in Alice's [0x] folder. *)
Definition proto_world : world :=
  mkWorld (<[["repo"; "b"; "t.md"] := File "toString"]> sample_tree) ∅ ∅ [].

Definition proto0x_world : world :=
  mkWorld (<[["repo"; "0xABC"; "t.md"] := File "constructor"]> sample_tree) ∅ ∅ [].

Lemma run_prototype_name_document_witness :
  exists w' s vs m, Generator.run sample_dir proto_world = (w', 0) /\
    w_fs w' !! Generator.indexFilePath sample_dir = Some (File s) /\
    Json.stringify (JArray vs) = Some s /\
    JObject [("path", JString "b/t.md"); ("metadata", JUndefined); ("metrics", m)] ∈ vs.
Proof.
  apply (Properties.run_prototype_name_document sample_dir eq_refl proto_world
           (glob_walk (w_fs proto_world) (Generator.delegateDirectory sample_dir))
           ["b"; "t.md"] "toString").
  - apply FS.wfb_wf. vm_compute. reflexivity.
  - reflexivity.
  - vm_compute. reflexivity.
  - vm_compute. discriminate.
  - reflexivity.
  - apply forallb_elem. vm_compute. reflexivity.
  - apply (bool_decide_eq_true_1 (_ ∈ _)). vm_compute. reflexivity.
  - reflexivity.
  - vm_compute. reflexivity.
Defined.

Lemma run_fails_on_prototype_name_witness :
  exists e w', Generator.run sample_dir proto0x_world = (w', 1) /\ w_fs w' = w_fs proto0x_world /\
    exists lines, w_console w' = lines ++ [StderrWith "Error generating delegates index:" e].
Proof.
  apply (Properties.run_fails_on_prototype_name sample_dir eq_refl proto0x_world
           ["0xABC"; "t.md"] "constructor").
  - apply FS.wfb_wf. vm_compute. reflexivity.
  - reflexivity.
  - vm_compute. reflexivity.
  - apply (bool_decide_eq_true_1 (_ ∈ _)). vm_compute. reflexivity.
  - reflexivity.
  - vm_compute. reflexivity.
  - vm_compute. reflexivity.
Defined.
End PropertiesExamples.
