(* ===== verification/MetricsJson.v ===== *)
(** * [JSON.parse] of a [metrics.json], line 80

    The theorems of [Properties] hold for any [JsonParser]. This file
    puts the reader of [JsonParse] in its place: [MetricsJson.json_reader]
    is [JSON.parse] with the conversion of a number token to its double
    ([number_text]) and the message of the [SyntaxError] ([syntax_error])
    left as parameters, since the script only forwards them. Under it, a
    [metrics.json] that [JSON.stringify] wrote is attached as the value
    it encodes, and one saved with a byte-order mark is reported and left
    out: [readFileSync(p, 'utf-8')] keeps the mark, [JSON.parse] does not
    skip it. *)

From S2P Require Import Prelude JsValue Json JsonParse JsonFuel JsonRoundtrip Paths FileSystem Sort Glob Runtime FrontMatter Engines GrayMatter Generator Refinement Loop Aliasing Properties.

Module MetricsJson.
Import Generator Refinement Aliasing.

(** [JSON.parse(metricsFileContent)]: the value, or the message of the
    [SyntaxError] it throws. *)
Definition json_reader (number_text : string -> string) (syntax_error : string -> string)
  : JsonParser :=
  fun s => match JsonParse.parse number_text s with
           | Some v => inr v
           | None => inl (syntax_error s)
           end.

(** U+FEFF is neither JSON whitespace nor the start of a value. *)
Lemma parse_bom number_text s : JsonParse.parse number_text (bom +:+ s) = None.
Proof. reflexivity. Qed.

Section MetricsJson.
Context `{FrontMatterEngine} `{LocaleCompare} `{GlobWalk} `{!GlobWalkSpec}.
Variable number_text : string -> string.
Variable syntax_error : string -> string.
#[local] Instance reader : JsonParser := json_reader number_text syntax_error.

Variable script_dir : Path.segs.
Hypothesis Hsd_clean : Path.clean script_dir = true.

Local Abbreviation dd := (delegateDirectory script_dir).
Local Abbreviation idx := (indexFilePath script_dir).

(** C19: with [JSON.parse] the reader of [JsonParse], a document whose
    [metrics.json] holds the text [JSON.stringify(m, null, 2)] is written
    with [metrics] the value that text encodes ([m] without its
    [undefined] members), for every [m] whose numbers are their own
    ToString text and whose objects repeat no key. *)
Theorem run_reads_written_metrics w files f m s :
  FS.wf (w_fs w) -> w_cache w = ∅ -> w_fs w !! dd = Some Dir -> w_fs w !! idx <> Some Dir ->
  glob_walk (w_fs w) dd = files ->
  (forall g, g ∈ files -> doc_ok script_dir (w_fs w) g = true) -> f ∈ files ->
  w_fs w !! metrics_path script_dir f = Some (File s) ->
  Json.stringify m = Some s -> JsonParse.json_ok number_text m = true ->
  exists w' t vs md, run script_dir w = (w', 0) /\ w_fs w' !! idx = Some (File t) /\
    Json.stringify (JArray vs) = Some t /\
    JObject [("path", JString (Path.render_rel f)); ("metadata", md);
             ("metrics", JsonParse.json_of m)] ∈ vs.
Proof.
  intros Hwf Hc Hdd Hidx Hglob Hok Hf Hm Hs Hj.
  destruct (Properties.run_entry script_dir Hsd_clean w files f Hwf Hc Hdd Hidx Hglob Hok Hf)
    as (w' & t & vs & Hrun & Hidx' & Ht & Hin & _).
  unfold final_entry, metrics_value, metrics_outcome in Hin. rewrite Hm in Hin.
  unfold json_parse, reader, json_reader in Hin.
  rewrite (JsonRoundtrip.parse_stringify number_text m s Hj Hs) in Hin.
  by exists w', t, vs, (default JUndefined (final_meta script_dir (w_fs w) files f)).
Qed.


(** C20: a [metrics.json] that starts with a UTF-8 byte-order mark is
    never attached, whatever follows the mark: the run still exits 0, the
    entry has no [metrics] in the written text, and an error line names
    the document. *)
Theorem run_rejects_bom_metrics w files f s :
  FS.wf (w_fs w) -> w_cache w = ∅ -> w_fs w !! dd = Some Dir -> w_fs w !! idx <> Some Dir ->
  glob_walk (w_fs w) dd = files ->
  (forall g, g ∈ files -> doc_ok script_dir (w_fs w) g = true) -> f ∈ files ->
  w_fs w !! metrics_path script_dir f = Some (File (bom +:+ s)) ->
  exists w' t vs md, run script_dir w = (w', 0) /\ w_fs w' !! idx = Some (File t) /\
    Json.stringify (JArray vs) = Some t /\
    JObject [("path", JString (Path.render_rel f)); ("metadata", md); ("metrics", JUndefined)] ∈ vs /\
    Stderr ("Error parsing metrics file for " +:+ Path.render_rel f +:+ ": "
            +:+ syntax_error (bom +:+ s)) ∈ w_console w'.
Proof.
  intros Hwf Hc Hdd Hidx Hglob Hok Hf Hm.
  assert (Hp : json_parse (bom +:+ s) = inl (syntax_error (bom +:+ s))).
  { unfold json_parse, reader, json_reader. by rewrite parse_bom. }
  destruct (Properties.bad_metrics_entry script_dir Hsd_clean w files f _ _
              Hwf Hc Hdd Hidx Hglob Hok Hf Hm Hp) as (w' & t & vs & md & Hr & Hi & Ht & Hin & _ & Hl).
  by exists w', t, vs, md.
Qed.

End MetricsJson.
End MetricsJson.

(** ** Examples *)
Module MetricsJsonExamples.
Import RefinementExamples PropertiesExamples.
#[local] Existing Instances toy_front_matter code_unit_order.

(** Metrics with a member left [undefined]; the number is its own
    ToString text. *)
Definition sample_metrics : jsval :=
  JObject [("communication", JString "high"); ("votes", JNumber "12"); ("note", JUndefined)].

Definition sample_metrics_text : string := default "" (Json.stringify sample_metrics).

(** The sample repository with the stringified metrics beside Alice's
    document and Bob's metrics saved with a byte-order mark. *)
Definition metrics_tree : FS.tree :=
  <[["repo"; "0xABC"; "metrics.json"] := File sample_metrics_text]>
    (<[["repo"; "b"; "metrics.json"] := File (bom +:+ "{}")]> sample_tree).

Definition metrics_world : world := mkWorld metrics_tree ∅ ∅ [].

#[local] Instance sample_reader : JsonParser :=
  MetricsJson.json_reader (fun t => t) (fun _ => "Unexpected token").

Lemma run_reads_written_metrics_witness :
  exists w' t vs md, Generator.run sample_dir metrics_world = (w', 0) /\
    w_fs w' !! Generator.indexFilePath sample_dir = Some (File t) /\
    Json.stringify (JArray vs) = Some t /\
    JObject [("path", JString (Path.render_rel alice)); ("metadata", md);
             ("metrics", JObject [("communication", JString "high"); ("votes", JNumber "12")])] ∈ vs.
Proof.
  apply (MetricsJson.run_reads_written_metrics (fun t => t) (fun _ => "Unexpected token")
           sample_dir eq_refl metrics_world
           (glob_walk metrics_tree (Generator.delegateDirectory sample_dir)) alice sample_metrics sample_metrics_text).
  - apply FS.wfb_wf. vm_compute. reflexivity.
  - reflexivity.
  - vm_compute. reflexivity.
  - vm_compute. discriminate.
  - reflexivity.
  - apply forallb_elem. vm_compute. reflexivity.
  - apply (bool_decide_eq_true_1 (_ ∈ _)). vm_compute. reflexivity.
  - vm_compute. reflexivity.
  - vm_compute. reflexivity.
  - vm_compute. reflexivity.
Defined.

Lemma run_rejects_bom_metrics_witness :
  exists w' t vs md, Generator.run sample_dir metrics_world = (w', 0) /\
    w_fs w' !! Generator.indexFilePath sample_dir = Some (File t) /\
    Json.stringify (JArray vs) = Some t /\
    JObject [("path", JString (Path.render_rel bob)); ("metadata", md); ("metrics", JUndefined)] ∈ vs /\
    Stderr ("Error parsing metrics file for " +:+ Path.render_rel bob +:+ ": "
            +:+ "Unexpected token") ∈ w_console w'.
Proof.
  apply (MetricsJson.run_rejects_bom_metrics (fun t => t) (fun _ => "Unexpected token")
           sample_dir eq_refl metrics_world
           (glob_walk metrics_tree (Generator.delegateDirectory sample_dir)) bob "{}").
  - apply FS.wfb_wf. vm_compute. reflexivity.
  - reflexivity.
  - vm_compute. reflexivity.
  - vm_compute. discriminate.
  - reflexivity.
  - apply forallb_elem. vm_compute. reflexivity.
  - apply (bool_decide_eq_true_1 (_ ∈ _)). vm_compute. reflexivity.
  - vm_compute. reflexivity.
Defined.


End MetricsJsonExamples.
